(** * fhir-ndjson-visualizer: the parse-and-analyze pipeline

    A shallow embedding of [src/utils/ndjsonParser.ts],
    [src/utils/patientAnalytics.ts] and [src/utils/encounterAnalytics.ts],
    and of what the components compute from their results (the header of
    a parse result, the pages of the table, the field analysis, the
    validation of the input), with the properties of the pipeline proved
    over it.

    Layout: the JavaScript values and built-ins the code relies on, the three
    source modules, a reference host on which everything computes, and then
    the lemmas and theorems, module by module. *)

From Stdlib Require Import String Ascii List ZArith QArith Qround Qabs Bool Arith Lia.
From Stdlib Require Import Floats.SpecFloat.
From Stdlib Require Import DecimalString.
From Stdlib Require Import Permutation Sorted Lqa.
Import ListNotations.

Local Open Scope list_scope.
Local Open Scope nat_scope.
Local Open Scope string_scope.

(* ================================================================== *)
(** * JavaScript values and built-ins *)
(* ================================================================== *)

Module Js.

(** Strings are sequences of code units; the model keeps the code units
    below 256, which [string] holds one per character. *)

Definition LF : ascii := "010"%char.

(** The double quote, and a text between two of them. *)
Definition DQUOTE : ascii := "034"%char.
Definition quoted (s : string) : string := String DQUOTE (s ++ String DQUOTE "").

(** [WhiteSpace] and [LineTerminator] code units (below 256) that
    [String.prototype.trim] strips: TAB, LF, VT, FF, CR, SP, NBSP. *)
Definition isWhiteSpace (c : ascii) : bool :=
  match N_of_ascii c with
  | 9%N | 10%N | 11%N | 12%N | 13%N | 32%N | 160%N => true
  | _ => false
  end.

Fixpoint trimStart (s : string) : string :=
  match s with
  | String c r => if isWhiteSpace c then trimStart r else s
  | EmptyString => EmptyString
  end.

Fixpoint trimEnd (s : string) : string :=
  match s with
  | String c r =>
      let r' := trimEnd r in
      if isWhiteSpace c && (r' =? "") then "" else String c r'
  | EmptyString => EmptyString
  end.

(** [s.trim()] *)
Definition trim (s : string) : string := trimEnd (trimStart s).

(** [s.split(sep)] for a one-character separator: never the empty list,
    [''.split(sep)] is [['']]. *)
Fixpoint split (sep : ascii) (s : string) : list string :=
  match s with
  | EmptyString => [""]
  | String c r =>
      if Ascii.eqb c sep then "" :: split sep r
      else match split sep r with
           | l :: ls => String c l :: ls
           | [] => [String c ""]
           end
  end.

(** [s.substring(from, to)] for [from <= to]. *)
Definition substring (s : string) (from to : nat) : string :=
  String.substring from (to - from) s.

(** [s.startsWith(p)] *)
Definition startsWith (s p : string) : bool := String.prefix p s.

(** [String(n)] and [`${n}`] for a non-negative integer, and for an integer. *)
Definition string_of_nat (n : nat) : string :=
  NilZero.string_of_uint (Nat.to_uint n).
Definition string_of_Z (z : Z) : string :=
  NilZero.string_of_int (Z.to_int z).

(** [s.padStart(n, c)] with a one-character filler. *)
Fixpoint repeat_char (c : ascii) (n : nat) : string :=
  match n with O => "" | S k => String c (repeat_char c k) end.
Definition padStart (s : string) (n : nat) (c : ascii) : string :=
  repeat_char c (n - String.length s) ++ s.

(** The values [JSON.parse] can return.  A number is an IEEE 754 binary64
    value.  [undefined] is not a JSON value: a property read gives an
    [option]. *)
#[warnings="-register-all"]
Inductive JsValue : Type :=
| JNull
| JBool (b : bool)
| JNum (x : spec_float)
| JStr (s : string)
| JArr (elems : list JsValue)
| JObj (props : list (string * JsValue)).

Definition is_zero_or_nan (x : spec_float) : bool :=
  match x with
  | S754_zero _ | S754_nan => true
  | _ => false
  end.

(** [ToBoolean]: what [!v] and [v || d] test. *)
Definition ToBoolean (v : JsValue) : bool :=
  match v with
  | JNull => false
  | JBool b => b
  | JNum x => negb (is_zero_or_nan x)
  | JStr s => negb (s =? "")
  | JArr _ | JObj _ => true
  end.

(** [typeof v] *)
Definition typeof (v : JsValue) : string :=
  match v with
  | JNull | JArr _ | JObj _ => "object"
  | JBool _ => "boolean"
  | JNum _ => "number"
  | JStr _ => "string"
  end.

Fixpoint assoc {A : Type} (k : string) (l : list (string * A)) : option A :=
  match l with
  | [] => None
  | (k', v) :: r => if k' =? k then Some v else assoc k r
  end.

(** [v.name] on a non-null value: an own property of an object made by
    [JSON.parse]; primitives, arrays and [Object.prototype] have no
    property of the names read here, so the read is [undefined] there. *)
Definition get (v : JsValue) (name : string) : option JsValue :=
  match v with
  | JObj props => assoc name props
  | _ => None
  end.

(** [a === b] for two values that come from different [JSON.parse] calls:
    primitives by value, objects and arrays by identity, and two parses
    never share an object. *)
Definition strictEquals (a b : JsValue) : bool :=
  match a, b with
  | JNull, JNull => true
  | JBool x, JBool y => Bool.eqb x y
  | JNum x, JNum y => SFeqb x y
  | JStr x, JStr y => x =? y
  | _, _ => false
  end.

(** What the host decides: the JSON grammar's outcome for a text (the value,
    or the message of the [SyntaxError] thrown) and the text of a number. *)
Class Host : Type := {
  JSON_parse : string -> JsValue + string;
  NumberToString : spec_float -> string;
  (** [new Date(s).getTime()]: the time value in milliseconds, [None] for
      an Invalid Date *)
  Date_parse : string -> option Z;
  (** the local-time fields of a time value *)
  getFullYear : Z -> Z;
  getMonth : Z -> Z;
  getDate : Z -> Z;
  (** [d.toLocaleDateString()] and
      [d.toLocaleDateString('en-US', {year: 'numeric', month: 'short'})] *)
  toLocaleDateString : Z -> string;
  toLocaleDateString_en_US_short : Z -> string;
  (** [a.localeCompare(b)] *)
  localeCompare : string -> string -> Z;
  Math_sqrt : Q -> Q;
}.

Fixpoint join (sep : string) (l : list string) : string :=
  match l with
  | [] => ""
  | [x] => x
  | x :: r => x ++ sep ++ join sep r
  end.

(** [a.join(sep)] once every element is converted; a conversion that
    throws makes the whole throw. *)
Fixpoint join_all (sep : string) (l : list (option string)) : option string :=
  match l with
  | [] => Some ""
  | [x] => x
  | x :: r =>
      match x, join_all sep r with
      | Some a, Some b => Some (a ++ sep ++ b)
      | _, _ => None
      end
  end.

(** [ToString], as a template literal applies it; [None] when it throws a
    [TypeError].  An object made by [JSON.parse] converts through the
    inherited [Object.prototype.toString], unless it has a property
    [toString] of its own: no JSON value is callable, [valueOf] does not
    give a primitive either, and the conversion throws.  An array converts
    its elements and joins them with commas, [null] as the empty string. *)
Fixpoint ToString `{Host} (v : JsValue) : option string :=
  match v with
  | JNull => Some "null"
  | JBool true => Some "true"
  | JBool false => Some "false"
  | JNum x => Some (NumberToString x)
  | JStr s => Some s
  | JArr elems =>
      join_all "," (map (fun e => match e with JNull => Some "" | _ => ToString e end)
                        elems)
  | JObj props =>
      match assoc "toString" props with
      | Some _ => None
      | None => Some "[object Object]"
      end
  end.

(** Numbers computed by the analyzers are exact rationals: the rounding of
    binary64 arithmetic is not modelled.  [Infinity] occurs only as a
    bucket bound, where it is [None]. *)
Definition number : Type := Q.

Definition Qltb (a b : Q) : bool := negb (Qle_bool b a).

(** [Math.round] *)
Definition Math_round (x : Q) : Q := inject_Z (Qfloor (x + (1 # 2))).

(** [Boolean(s)] for an optional string: present and not empty. *)
Definition truthy (o : option string) : bool :=
  match o with
  | Some s => negb (s =? "")
  | None => false
  end.

(** The string of an optional string known to be present. *)
Definition the (o : option string) : string :=
  match o with Some s => s | None => "" end.

(** [Array.prototype.sort(cmp)]: stable; an element moves in front of the
    first later element it does not come after. *)
Section ArraySort.
Context {A : Type} (cmp : A -> A -> Q).

Fixpoint sort_insert (x : A) (l : list A) : list A :=
  match l with
  | [] => [x]
  | y :: r => if Qle_bool (cmp x y) 0 then x :: y :: r else y :: sort_insert x r
  end.

Fixpoint Array_sort (l : list A) : list A :=
  match l with
  | [] => []
  | x :: r => sort_insert x (Array_sort r)
  end.

End ArraySort.

(** [Map]: keys in insertion order; [set] on a present key keeps its place. *)
Section JsMap.
Context {K V : Type} (eqb : K -> K -> bool).

Fixpoint Map_get (m : list (K * V)) (k : K) : option V :=
  match m with
  | [] => None
  | (k', v) :: r => if eqb k' k then Some v else Map_get r k
  end.

Fixpoint Map_set (m : list (K * V)) (k : K) (v : V) : list (K * V) :=
  match m with
  | [] => [(k, v)]
  | (k', v') :: r => if eqb k' k then (k', v) :: r else (k', v') :: Map_set r k v
  end.

End JsMap.

(** [const current = m.get(k) || 0; m.set(k, current + 1);] *)
Definition count_up {K : Type} (eqb : K -> K -> bool) (m : list (K * nat)) (k : K)
  : list (K * nat) :=
  let current := match Map_get eqb m k with Some n => n | None => 0 end in
  Map_set eqb m k (current + 1).

(** [a.slice(0, n)] *)
Definition slice0 {A : Type} (n : nat) (l : list A) : list A := firstn n l.

(** The clocks.  [performance.now()] and [new Date()] read the outside
    world: a world holds every future reading and how many were taken. *)
Record World : Type := {
  perf_clock : nat -> Q;
  perf_reads : nat;
  wall_clock : nat -> Z;
  wall_reads : nat;
}.

Definition performance_now (w : World) : Q * World :=
  (perf_clock w (perf_reads w),
   {| perf_clock := perf_clock w; perf_reads := S (perf_reads w);
      wall_clock := wall_clock w; wall_reads := wall_reads w |}).

(** [new Date().getTime()] *)
Definition Date_now (w : World) : Z * World :=
  (wall_clock w (wall_reads w),
   {| perf_clock := perf_clock w; perf_reads := perf_reads w;
      wall_clock := wall_clock w; wall_reads := S (wall_reads w) |}).

End Js.

(* ================================================================== *)
(** * src/utils/ndjsonParser.ts *)
(* ================================================================== *)

Module NdjsonParser.
Import Js.

Definition MAX_ERROR_LINE_LENGTH : nat := 100.
Definition MAX_ERRORS_STORED : nat := 50.

Record ParseError : Type := {
  lineNumber : nat;
  message : string;
  rawLine : option string;
}.

Record ParseResult : Type := {
  resources : list JsValue;
  resourceType : JsValue;
  pseudoFileName : string;
  totalLines : nat;
  validLines : nat;
  invalidLines : nat;
  errors : list ParseError;
  parseTimeMs : Q;
}.

(** The mutable locals of [parseNdjson]'s loop. *)
Record Locals : Type := {
  l_resources : list JsValue;
  l_errors : list ParseError;
  detectedResourceType : option JsValue;
  resourceTypeMismatchCount : nat;
  l_validLines : nat;
  l_invalidLines : nat;
}.

Definition init : Locals :=
  {| l_resources := []; l_errors := []; detectedResourceType := None;
     resourceTypeMismatchCount := 0; l_validLines := 0; l_invalidLines := 0 |}.

(** The [try] block up to the two [throw]s: the parsed resource, or the
    message of the error thrown. *)
Definition parseLine `{Host} (line : string) : JsValue + string :=
  match JSON_parse line with
  | inr msg => inr msg
  | inl parsed =>
      if negb (ToBoolean parsed) || negb (typeof parsed =? "object")
      then inr "Parsed value is not an object"
      else match get parsed "resourceType" with
           | None => inr "Missing resourceType field"
           | Some rt =>
               if negb (ToBoolean rt) then inr "Missing resourceType field"
               else inl parsed
           end
  end.

(** [parsed.resourceType] of a value that passed the checks. *)
Definition resourceTypeOf (parsed : JsValue) : JsValue :=
  match get parsed "resourceType" with Some rt => rt | None => JNull end.

(** The rest of the [try] block. *)
Definition accept (st : Locals) (parsed : JsValue) : Locals :=
  let rt := resourceTypeOf parsed in
  {| l_resources := List.app (l_resources st) [parsed];
     l_errors := l_errors st;
     detectedResourceType :=
       match detectedResourceType st with
       | None => Some rt
       | Some d => Some d
       end;
     resourceTypeMismatchCount :=
       match detectedResourceType st with
       | None => resourceTypeMismatchCount st
       | Some d =>
           if negb (strictEquals rt d)
           then S (resourceTypeMismatchCount st)
           else resourceTypeMismatchCount st
       end;
     l_validLines := S (l_validLines st);
     l_invalidLines := l_invalidLines st |}.

(** The [catch] block. *)
Definition diagnostic (lineNumber : nat) (line msg : string) : ParseError :=
  {| lineNumber := lineNumber;
     message := msg;
     rawLine :=
       Some (if (MAX_ERROR_LINE_LENGTH <? String.length line)%nat
             then substring line 0 MAX_ERROR_LINE_LENGTH ++ "..."
             else line) |}.

Definition reject (st : Locals) (lineNumber : nat) (line msg : string) : Locals :=
  {| l_resources := l_resources st;
     l_errors :=
       if (List.length (l_errors st) <? MAX_ERRORS_STORED)%nat
       then List.app (l_errors st) [diagnostic lineNumber line msg]
       else l_errors st;
     detectedResourceType := detectedResourceType st;
     resourceTypeMismatchCount := resourceTypeMismatchCount st;
     l_validLines := l_validLines st;
     l_invalidLines := S (l_invalidLines st) |}.

(** One iteration of the [for] loop, at index [i]. *)
Definition step `{Host} (st : Locals) (i : nat) (raw : string) : Locals :=
  let line := trim raw in
  let lineNumber := i + 1 in
  if line =? "" then st
  else match parseLine line with
       | inl parsed => accept st parsed
       | inr msg => reject st lineNumber line msg
       end.

(** The loop from index [i] on. *)
Fixpoint loop `{Host} (st : Locals) (i : nat) (lines : list string) : Locals :=
  match lines with
  | [] => st
  | raw :: rest => loop (step st i raw) (S i) rest
  end.

(** The entry that [errors.unshift] puts in front; its message is a
    template literal over the detected type, which may throw. *)
Definition mismatchWarning `{Host} (count : nat) (detected : option JsValue)
  : option ParseError :=
  match (match detected with Some d => ToString d | None => Some "null" end) with
  | Some kind =>
      Some {| lineNumber := 0;
              message :=
                "Warning: Found " ++ string_of_nat count ++
                " resources with different resourceType than " ++ quoted kind ++
                ". Analysis focuses on the predominant type.";
              rawLine := None |}
  | None => None
  end.

(** [detectedResourceType ? `${detectedResourceType}.ndjson` : 'unknown.ndjson'] *)
Definition fileName `{Host} (detected : option JsValue) : option string :=
  match detected with
  | Some d =>
      if ToBoolean d
      then match ToString d with
           | Some kind => Some (kind ++ ".ndjson")
           | None => None
           end
      else Some "unknown.ndjson"
  | None => Some "unknown.ndjson"
  end.

(** The statements after the loop, without the clock: the result, or
    [None] when a template literal throws and no result is returned. *)
Definition finish `{Host} (lines : list string) (st : Locals) (elapsed : Q)
  : option ParseResult :=
  match (if (0 <? resourceTypeMismatchCount st)%nat &&
            (List.length (l_errors st) <? MAX_ERRORS_STORED)%nat
         then match mismatchWarning (resourceTypeMismatchCount st)
                                    (detectedResourceType st) with
              | Some warning => Some (warning :: l_errors st)
              | None => None
              end
         else Some (l_errors st)) with
  | None => None
  | Some errors =>
      match fileName (detectedResourceType st) with
      | None => None
      | Some pseudoFileName =>
          Some {| resources := l_resources st;
                  resourceType :=
                    match detectedResourceType st with
                    | Some d => if ToBoolean d then d else JStr "Unknown"
                    | None => JStr "Unknown"
                    end;
                  pseudoFileName := pseudoFileName;
                  totalLines := List.length lines;
                  validLines := l_validLines st;
                  invalidLines := l_invalidLines st;
                  errors := errors;
                  parseTimeMs := elapsed |}
      end
  end.

(** [parseNdjson]: the result and the world after the two clock readings;
    no result when a [TypeError] escapes. *)
Definition parseNdjson `{Host} (input : string) (w : World)
  : option ParseResult * World :=
  let '(startTime, w1) := performance_now w in
  let lines := split LF input in
  let st := loop init 0 lines in
  let '(endTime, w2) := performance_now w1 in
  (finish lines st (endTime - startTime)%Q, w2).

End NdjsonParser.

(* ================================================================== *)
(** * src/types/fhir.ts and src/types/analytics.ts *)
(* ================================================================== *)

(** The fields the analyzers read; an optional field is an [option]. *)
Module Fhir.

Record FhirCoding : Type := {
  system : option string;
  code : option string;
  display : option string;
}.

Record FhirCodeableConcept : Type := {
  coding : option (list FhirCoding);
  text : option string;
}.

Record FhirPeriod : Type := {
  start : option string;
  end_ : option string;
}.

Record FhirReference : Type := {
  reference : option string;
}.

Record FhirAddress : Type := {
  city : option string;
  state : option string;
}.

#[warnings="-register-all"]
Inductive FhirExtension : Type :=
  Extension (url : string) (valueString : option string)
            (valueCoding : option FhirCoding)
            (extension : option (list FhirExtension)).

Definition ext_url (e : FhirExtension) : string :=
  let 'Extension u _ _ _ := e in u.
Definition ext_valueString (e : FhirExtension) : option string :=
  let 'Extension _ s _ _ := e in s.
Definition ext_valueCoding (e : FhirExtension) : option FhirCoding :=
  let 'Extension _ _ c _ := e in c.
Definition ext_extension (e : FhirExtension) : option (list FhirExtension) :=
  let 'Extension _ _ _ x := e in x.

Record FhirPatient : Type := {
  p_id : option string;
  gender : option string;
  birthDate : option string;
  deceasedBoolean : option bool;
  deceasedDateTime : option string;
  address : option (list FhirAddress);
  p_extension : option (list FhirExtension);
}.

Record FhirEncounter : Type := {
  e_id : option string;
  status : option string;
  class : option FhirCoding;
  type : option (list FhirCodeableConcept);
  subject : option FhirReference;
  period : option FhirPeriod;
}.

End Fhir.

Module Analytics.
Import Js.

Record DistributionItem (L : Type) : Type := {
  label : L;
  count : nat;
  percentage : number;
}.
Arguments label {L} _.
Arguments count {L} _.
Arguments percentage {L} _.

Record TimeSeriesPoint : Type := {
  ts_date : string;
  ts_count : nat;
  ts_label : string;
}.

(** [max] is [None] where the source writes [Infinity]. *)
Record HistogramBucket : Type := {
  min : number;
  max : option number;
  b_label : string;
  b_count : nat;
}.

Record DateRange : Type := {
  dr_min : option Z;
  dr_max : option Z;
  minFormatted : string;
  maxFormatted : string;
}.

Definition bucket (lo : Z) (hi : option Z) (l : string) : HistogramBucket :=
  {| min := inject_Z lo; max := option_map inject_Z hi; b_label := l; b_count := 0 |}.

(** [bucket.count++] *)
Definition count_incr (b : HistogramBucket) : HistogramBucket :=
  {| min := min b; max := max b; b_label := b_label b; b_count := S (b_count b) |}.

(** The inner [for ... of buckets] with its [break]: the first bucket that
    passes the test is incremented. *)
Fixpoint incr_first (test : HistogramBucket -> bool) (bs : list HistogramBucket)
  : list HistogramBucket :=
  match bs with
  | [] => []
  | b :: r => if test b then count_incr b :: r else b :: incr_first test r
  end.

(** [x <= max] and [x < max] against a bound that may be [Infinity]. *)
Definition le_max (x : number) (b : HistogramBucket) : bool :=
  match max b with Some m => Qle_bool x m | None => true end.
Definition lt_max (x : number) (b : HistogramBucket) : bool :=
  match max b with Some m => Qltb x m | None => true end.

Definition sum_counts (bs : list HistogramBucket) : nat :=
  fold_right (fun b acc => b_count b + acc) 0 bs.


End Analytics.

(* ================================================================== *)
(** * src/utils/patientAnalytics.ts *)
(* ================================================================== *)

Module PatientAnalytics.
Import Js Fhir Analytics.

Definition US_CORE_RACE_URL : string :=
  "http://hl7.org/fhir/us/core/StructureDefinition/us-core-race".
Definition US_CORE_ETHNICITY_URL : string :=
  "http://hl7.org/fhir/us/core/StructureDefinition/us-core-ethnicity".
Definition OMB_CATEGORY_URL : string := "ombCategory".
Definition DETAILED_URL : string := "detailed".
Definition TEXT_URL : string := "text".

(** A number of [calculateAge] is [None] when it is [NaN] (a field of an
    Invalid Date): every comparison with it is false, so is [age >= 0]. *)
Definition calculateAge `{Host} (birthDate deceasedDateTime : option string)
    (w : World) : option number * World :=
  if negb (truthy birthDate) then (None, w)
  else
    match Date_parse (the birthDate) with
    | None => (None, w)
    | Some birth =>
        let '(endDate, w') :=
          match deceasedDateTime with
          | Some d => if negb (d =? "")
                      then (Date_parse d, w)
                      else let '(t, w1) := Date_now w in (Some t, w1)
          | None => let '(t, w1) := Date_now w in (Some t, w1)
          end in
        match endDate with
        | None => (None, w')
        | Some e =>
            let age := (getFullYear e - getFullYear birth)%Z in
            let monthDiff := (getMonth e - getMonth birth)%Z in
            let age :=
              if (monthDiff <? 0)%Z ||
                 ((monthDiff =? 0)%Z && (getDate e <? getDate birth)%Z)
              then (age - 1)%Z else age in
            (if (0 <=? age)%Z then Some (inject_Z age) else None, w')
        end
    end.

(** [x?.valueCoding?.display], when it is a non-empty string. *)
Definition coding_display (x : option FhirExtension) : option string :=
  match x with
  | Some e =>
      match ext_valueCoding e with
      | Some c => if truthy (display c) then display c else None
      | None => None
      end
  | None => None
  end.

(** [x?.valueString], when it is a non-empty string. *)
Definition string_value (x : option FhirExtension) : option string :=
  match x with
  | Some e => if truthy (ext_valueString e) then ext_valueString e else None
  | None => None
  end.

Definition find_url (u : string) (l : list FhirExtension) : option FhirExtension :=
  find (fun e => ext_url e =? u) l.

Definition extractRace (extensions : option (list FhirExtension)) : option string :=
  match extensions with
  | None => None
  | Some exts =>
      match find_url US_CORE_RACE_URL exts with
      | None => None
      | Some raceExt =>
          match ext_extension raceExt with
          | None => None
          | Some sub =>
              match coding_display (find_url OMB_CATEGORY_URL sub) with
              | Some d => Some d
              | None =>
                  match coding_display (find_url DETAILED_URL sub) with
                  | Some d => Some d
                  | None => string_value (find_url TEXT_URL sub)
                  end
              end
          end
      end
  end.

Definition extractEthnicity (extensions : option (list FhirExtension)) : option string :=
  match extensions with
  | None => None
  | Some exts =>
      match find_url US_CORE_ETHNICITY_URL exts with
      | None => None
      | Some ethExt =>
          match ext_extension ethExt with
          | None => None
          | Some sub =>
              match coding_display (find_url OMB_CATEGORY_URL sub) with
              | Some d => Some d
              | None => string_value (find_url TEXT_URL sub)
              end
          end
      end
  end.

Definition createDistribution (counts : list (string * nat))
  : list (DistributionItem string) :=
  let total := fold_left (fun a b => a + b) (map snd counts) 0 in
  Array_sort (fun a b => inject_Z (Z.of_nat (count b) - Z.of_nat (count a)))
    (map (fun '(label, count) =>
            {| label := label;
               count := count;
               percentage :=
                 if (0 <? total)%nat
                 then ((inject_Z (Z.of_nat count) / inject_Z (Z.of_nat total)) * 100)%Q
                 else 0%Q |})
         counts).

Definition age_buckets : list HistogramBucket :=
  [ bucket 0 (Some 9%Z) "0-9";
    bucket 10 (Some 19%Z) "10-19";
    bucket 20 (Some 29%Z) "20-29";
    bucket 30 (Some 39%Z) "30-39";
    bucket 40 (Some 49%Z) "40-49";
    bucket 50 (Some 59%Z) "50-59";
    bucket 60 (Some 69%Z) "60-69";
    bucket 70 (Some 79%Z) "70-79";
    bucket 80 (Some 89%Z) "80-89";
    bucket 90 (Some 120%Z) "90+" ].

Definition createAgeHistogram (ages : list number) : list HistogramBucket :=
  fold_left
    (fun buckets age =>
       incr_first (fun b => Qle_bool (min b) age && le_max age b) buckets)
    ages age_buckets.

Record Stats : Type := {
  mean : number;
  median : number;
  s_min : number;
  s_max : number;
  stdDev : number;
}.

(** [sorted[i]]; the indices read are in range whenever the array is not
    empty. *)
Definition at_index (l : list number) (i : nat) : number := nth i l 0%Q.

Definition calculateStats `{Host} (values : list number) : Stats :=
  let n := List.length values in
  if (n =? 0)%nat
  then {| mean := 0%Q; median := 0%Q; s_min := 0%Q; s_max := 0%Q; stdDev := 0%Q |}
  else
    let sorted := Array_sort (fun a b => (a - b)%Q) values in
    let sum := fold_left Qplus values 0%Q in
    let mean := (sum / inject_Z (Z.of_nat n))%Q in
    let median :=
      if (n mod 2 =? 0)%nat
      then ((at_index sorted (n / 2 - 1) + at_index sorted (n / 2)) / 2)%Q
      else at_index sorted (n / 2) in
    let squaredDiffs := map (fun v => ((v - mean) ^ 2)%Q) values in
    let avgSquaredDiff :=
      (fold_left Qplus squaredDiffs 0%Q / inject_Z (Z.of_nat n))%Q in
    let stdDev := Math_sqrt avgSquaredDiff in
    {| mean := (Math_round (mean * 10) / 10)%Q;
       median := (Math_round (median * 10) / 10)%Q;
       s_min := at_index sorted 0;
       s_max := at_index sorted (List.length sorted - 1);
       stdDev := (Math_round (stdDev * 10) / 10)%Q |}.

Record PatientAnalytics : Type := {
  totalPatients : nat;
  uniqueIds : nat;
  genderDistribution : list (DistributionItem string);
  ageDistribution : list HistogramBucket;
  ageStats : Stats;
  raceDistribution : list (DistributionItem string);
  ethnicityDistribution : list (DistributionItem string);
  stateDistribution : list (DistributionItem string);
  cityDistribution : list (DistributionItem string);
  livingCount : nat;
  deceasedCount : nat;
  mortalityRate : number;
  birthDateRange : DateRange;
  missingBirthDate : nat;
  missingGender : nat;
  missingAddress : nat;
}.

(** The counters, maps and arrays [analyzePatients] fills in its loop. *)
Record Locals : Type := {
  genderCounts : list (string * nat);
  raceCounts : list (string * nat);
  ethnicityCounts : list (string * nat);
  stateCounts : list (string * nat);
  cityCounts : list (string * nat);
  ages : list number;
  birthDates : list Z;
  l_livingCount : nat;
  l_deceasedCount : nat;
  l_missingBirthDate : nat;
  l_missingGender : nat;
  l_missingAddress : nat;
}.

Definition init : Locals :=
  {| genderCounts := []; raceCounts := []; ethnicityCounts := [];
     stateCounts := []; cityCounts := []; ages := []; birthDates := [];
     l_livingCount := 0; l_deceasedCount := 0; l_missingBirthDate := 0;
     l_missingGender := 0; l_missingAddress := 0 |}.

(** [if (v) { m.set(v, (m.get(v) || 0) + 1) }] *)
Definition tally (m : list (string * nat)) (v : option string) : list (string * nat) :=
  match v with
  | Some s => if negb (s =? "") then count_up String.eqb m s else m
  | None => m
  end.

(** [patient.deceasedBoolean || patient.deceasedDateTime] *)
Definition isDeceased (patient : FhirPatient) : bool :=
  match deceasedBoolean patient with
  | Some true => true
  | _ => truthy (deceasedDateTime patient)
  end.

(** [patient.address && patient.address.length > 0], then [address[0]] *)
Definition primaryAddress (patient : FhirPatient) : option FhirAddress :=
  match address patient with
  | Some (a :: _) => Some a
  | _ => None
  end.

(** The body of the loop of [analyzePatients], once the age is computed. *)
Definition body `{Host} (st : Locals) (patient : FhirPatient) (age : option number)
  : Locals :=
  {| genderCounts := tally (genderCounts st) (gender patient);
     raceCounts := tally (raceCounts st) (extractRace (p_extension patient));
     ethnicityCounts :=
       tally (ethnicityCounts st) (extractEthnicity (p_extension patient));
     stateCounts :=
       match primaryAddress patient with
       | Some a => tally (stateCounts st) (state a)
       | None => stateCounts st
       end;
     cityCounts :=
       match primaryAddress patient with
       | Some a => tally (cityCounts st) (city a)
       | None => cityCounts st
       end;
     ages :=
       match age with
       | Some a => List.app (ages st) [a]
       | None => ages st
       end;
     birthDates :=
       if truthy (birthDate patient)
       then match Date_parse (the (birthDate patient)) with
            | Some t => List.app (birthDates st) [t]
            | None => birthDates st
            end
       else birthDates st;
     l_livingCount :=
       if isDeceased patient then l_livingCount st else S (l_livingCount st);
     l_deceasedCount :=
       if isDeceased patient then S (l_deceasedCount st) else l_deceasedCount st;
     l_missingBirthDate :=
       if truthy (birthDate patient) then l_missingBirthDate st
       else S (l_missingBirthDate st);
     l_missingGender :=
       if truthy (gender patient) then l_missingGender st
       else S (l_missingGender st);
     l_missingAddress :=
       match primaryAddress patient with
       | Some _ => l_missingAddress st
       | None => S (l_missingAddress st)
       end |}.

(** One iteration: [calculateAge] reads the clock, the rest does not. *)
Definition step `{Host} (st : Locals) (patient : FhirPatient) (w : World)
  : Locals * World :=
  let '(age, w') := calculateAge (birthDate patient) (deceasedDateTime patient) w in
  (body st patient age, w').

Fixpoint loop `{Host} (st : Locals) (patients : list FhirPatient) (w : World)
  : Locals * World :=
  match patients with
  | [] => (st, w)
  | patient :: rest => let '(st', w') := step st patient w in loop st' rest w'
  end.

(** [dates.sort(...)] and the range record built from it. *)
Definition dateRange `{Host} (dates : list Z) : DateRange :=
  let sorted := Array_sort (fun a b => inject_Z (a - b)) dates in
  {| dr_min := hd_error sorted;
     dr_max := hd_error (rev sorted);
     minFormatted :=
       match hd_error sorted with
       | Some t => toLocaleDateString t
       | None => "N/A"
       end;
     maxFormatted :=
       match hd_error (rev sorted) with
       | Some t => toLocaleDateString t
       | None => "N/A"
       end |}.

(** [new Set(ids.filter(Boolean)).size] *)
Definition uniqueCount (ids : list (option string)) : nat :=
  List.length
    (nodup string_dec
       (flat_map (fun o => match o with
                           | Some s => if negb (s =? "") then [s] else []
                           | None => []
                           end) ids)).

Definition analyzePatients `{Host} (patients : list FhirPatient) (w : World)
  : PatientAnalytics * World :=
  let '(st, w') := loop init patients w in
  ({| totalPatients := List.length patients;
      uniqueIds := uniqueCount (map p_id patients);
      genderDistribution := createDistribution (genderCounts st);
      ageDistribution := createAgeHistogram (ages st);
      ageStats := calculateStats (ages st);
      raceDistribution := createDistribution (raceCounts st);
      ethnicityDistribution := createDistribution (ethnicityCounts st);
      stateDistribution := slice0 15 (createDistribution (stateCounts st));
      cityDistribution := slice0 20 (createDistribution (cityCounts st));
      livingCount := l_livingCount st;
      deceasedCount := l_deceasedCount st;
      mortalityRate :=
        if (0 <? List.length patients)%nat
        then ((inject_Z (Z.of_nat (l_deceasedCount st)) /
               inject_Z (Z.of_nat (List.length patients))) * 100)%Q
        else 0%Q;
      birthDateRange := dateRange (birthDates st);
      missingBirthDate := l_missingBirthDate st;
      missingGender := l_missingGender st;
      missingAddress := l_missingAddress st |}, w').

End PatientAnalytics.

(* ================================================================== *)
(** * src/utils/encounterAnalytics.ts *)
(* ================================================================== *)

Module EncounterAnalytics.
Import Js Fhir Analytics.

Definition calculateLengthOfStay `{Host} (start end_ : option string)
  : option number :=
  if negb (truthy start) || negb (truthy end_) then None
  else
    match Date_parse (the start), Date_parse (the end_) with
    | Some startDate, Some endDate =>
        let diffMs := (endDate - startDate)%Z in
        if (diffMs <? 0)%Z then None
        else Some (inject_Z diffMs / inject_Z (1000 * 60 * 60))%Q
    | _, _ => None
    end.

(** [s.substring(n)] *)
Definition substring_from (s : string) (n : nat) : string :=
  String.substring n (String.length s - n) s.

Definition extractPatientId (reference : option string) : option string :=
  match reference with
  | None => None
  | Some r =>
      if r =? "" then None
      else if startsWith r "Patient/" then Some (substring_from r 8)
      else if startsWith r "urn:uuid:" then Some (substring_from r 9)
      else Some r
  end.

(** The object literal [codeMap] of [getClassDisplay]: its own properties. *)
Definition codeMap : list (string * string) :=
  [ ("AMB", "Ambulatory");
    ("EMER", "Emergency");
    ("IMP", "Inpatient");
    ("ACUTE", "Acute");
    ("NONAC", "Non-Acute");
    ("OBSENC", "Observation");
    ("PRENC", "Pre-Admission");
    ("SS", "Short Stay");
    ("HH", "Home Health");
    ("VR", "Virtual");
    ("outpatient", "Outpatient");
    ("inpatient", "Inpatient");
    ("ambulatory", "Ambulatory");
    ("emergency", "Emergency");
    ("wellness", "Wellness");
    ("urgentcare", "Urgent Care") ].

(** The properties every object literal inherits from [Object.prototype]
    (ECMA-262, with the Annex B accessors of a browser host). *)
Definition Object_prototype_names : list string :=
  [ "constructor"; "hasOwnProperty"; "isPrototypeOf"; "propertyIsEnumerable";
    "toLocaleString"; "toString"; "valueOf"; "__proto__";
    "__defineGetter__"; "__defineSetter__"; "__lookupGetter__";
    "__lookupSetter__" ].

(** What a read [codeMap[key]] can give, and so what [getClassDisplay] can
    return and a key of [classCounts] can be: a string, or the function or
    object that [Object.prototype] holds under a name. *)
Inductive Display : Type :=
| Text (s : string)
| Inherited (name : string).

Definition Display_eqb (a b : Display) : bool :=
  match a, b with
  | Text x, Text y => x =? y
  | Inherited x, Inherited y => x =? y
  | _, _ => false
  end.

(** [codeMap[key]]: an own property first, then the prototype chain;
    [None] is [undefined].  Every value found is truthy. *)
Definition codeMap_get (key : string) : option Display :=
  match assoc key codeMap with
  | Some friendly => Some (Text friendly)
  | None =>
      if existsb (String.eqb key) Object_prototype_names
      then Some (Inherited key)
      else None
  end.

Definition getClassDisplay (enc : FhirEncounter) : Display :=
  let class_display := match class enc with Some c => display c | None => None end in
  let class_code := match class enc with Some c => code c | None => None end in
  if truthy class_display then Text (the class_display)
  else if truthy class_code
  then match codeMap_get (the class_code) with
       | Some v => v
       | None => Text (the class_code)
       end
  else Text "Unknown".

(** [a || b] on optional strings *)
Definition or_else (a b : option string) : option string :=
  if truthy a then a else if truthy b then b else None.

Definition getTypeDisplay (enc : FhirEncounter) : string :=
  match type enc with
  | None | Some [] => "Unspecified"
  | Some (firstType :: _) =>
      if truthy (text firstType) then the (text firstType)
      else match coding firstType with
           | Some (c0 :: _) =>
               match or_else (display c0) (code c0) with
               | Some s => s
               | None => "Unknown"
               end
           | _ => "Unknown"
           end
  end.

Definition toMonthKey `{Host} (dateStr : string) : option string :=
  match Date_parse dateStr with
  | None => None
  | Some date =>
      let year := getFullYear date in
      let month := padStart (string_of_Z (getMonth date + 1)) 2 "0"%char in
      Some (string_of_Z year ++ "-" ++ month)
  end.

Definition createDistribution {L : Type} (counts : list (L * nat))
  : list (DistributionItem L) :=
  let total := fold_left (fun a b => a + b) (map snd counts) 0 in
  Array_sort (fun a b => inject_Z (Z.of_nat (count b) - Z.of_nat (count a)))
    (map (fun '(label, count) =>
            {| label := label;
               count := count;
               percentage :=
                 if (0 <? total)%nat
                 then ((inject_Z (Z.of_nat count) / inject_Z (Z.of_nat total)) * 100)%Q
                 else 0%Q |})
         counts).

Definition los_buckets : list HistogramBucket :=
  [ bucket 0 (Some 1%Z) "<1 hour";
    bucket 1 (Some 4%Z) "1-4 hours";
    bucket 4 (Some 8%Z) "4-8 hours";
    bucket 8 (Some 24%Z) "8-24 hours";
    bucket 24 (Some 48%Z) "1-2 days";
    bucket 48 (Some 72%Z) "2-3 days";
    bucket 72 (Some 168%Z) "3-7 days";
    bucket 168 (Some 336%Z) "1-2 weeks";
    bucket 336 (Some 720%Z) "2-4 weeks";
    bucket 720 None ">4 weeks" ].

Definition createLosHistogram (losHours : list number) : list HistogramBucket :=
  filter (fun b => (0 <? b_count b)%nat)
    (fold_left
       (fun buckets los =>
          incr_first (fun b => Qle_bool (min b) los && lt_max los b) buckets)
       losHours los_buckets).

Definition perPatient_buckets : list HistogramBucket :=
  [ bucket 1 (Some 1%Z) "1";
    bucket 2 (Some 5%Z) "2-5";
    bucket 6 (Some 10%Z) "6-10";
    bucket 11 (Some 20%Z) "11-20";
    bucket 21 (Some 50%Z) "21-50";
    bucket 51 (Some 100%Z) "51-100";
    bucket 101 None ">100" ].

Definition createEncountersPerPatientHistogram (counts : list number)
  : list HistogramBucket :=
  filter (fun b => (0 <? b_count b)%nat)
    (fold_left
       (fun buckets count =>
          incr_first (fun b => Qle_bool (min b) count && le_max count b) buckets)
       counts perPatient_buckets).

Record Stats : Type := {
  mean : number;
  median : number;
  s_min : number;
  s_max : number;
}.

Definition at_index (l : list number) (i : nat) : number := nth i l 0%Q.

Definition calculateStats (values : list number) : Stats :=
  let n := List.length values in
  if (n =? 0)%nat
  then {| mean := 0%Q; median := 0%Q; s_min := 0%Q; s_max := 0%Q |}
  else
    let sorted := Array_sort (fun a b => (a - b)%Q) values in
    let sum := fold_left Qplus values 0%Q in
    let mean := (sum / inject_Z (Z.of_nat n))%Q in
    let median :=
      if (n mod 2 =? 0)%nat
      then ((at_index sorted (n / 2 - 1) + at_index sorted (n / 2)) / 2)%Q
      else at_index sorted (n / 2) in
    {| mean := (Math_round (mean * 10) / 10)%Q;
       median := (Math_round (median * 10) / 10)%Q;
       s_min := at_index sorted 0;
       s_max := at_index sorted (List.length sorted - 1) |}.

Record LosStats : Type := {
  los_stats : Stats;
  encountersWithLos : nat;
}.

Record EncounterAnalytics : Type := {
  totalEncounters : nat;
  uniqueEncounterIds : nat;
  uniquePatientRefs : nat;
  classDistribution : list (DistributionItem Display);
  typeDistribution : list (DistributionItem string);
  statusDistribution : list (DistributionItem string);
  encountersByMonth : list TimeSeriesPoint;
  periodCoverage : DateRange;
  losDistribution : list HistogramBucket;
  losStats : LosStats;
  encountersPerPatient : list HistogramBucket;
  encountersPerPatientStats : Stats;
  missingPeriodStart : nat;
  missingPeriodEnd : nat;
  missingClass : nat;
  missingSubject : nat;
}.

(** The counters, maps and arrays [analyzeEncounters] fills in its loop. *)
Record Locals : Type := {
  patientCounts : list (string * nat);
  classCounts : list (Display * nat);
  typeCounts : list (string * nat);
  statusCounts : list (string * nat);
  monthCounts : list (string * nat);
  losHours : list number;
  periodDates : list Z;
  l_missingPeriodStart : nat;
  l_missingPeriodEnd : nat;
  l_missingClass : nat;
  l_missingSubject : nat;
}.

Definition init : Locals :=
  {| patientCounts := []; classCounts := []; typeCounts := [];
     statusCounts := []; monthCounts := []; losHours := []; periodDates := [];
     l_missingPeriodStart := 0; l_missingPeriodEnd := 0; l_missingClass := 0;
     l_missingSubject := 0 |}.

(** [encounter.period?.start] and [encounter.period?.end] *)
Definition periodStart (encounter : FhirEncounter) : option string :=
  match period encounter with Some p => start p | None => None end.
Definition periodEnd (encounter : FhirEncounter) : option string :=
  match period encounter with Some p => end_ p | None => None end.

(** [encounter.subject?.reference] *)
Definition subjectReference (encounter : FhirEncounter) : option string :=
  match subject encounter with Some r => reference r | None => None end.

(** The body of the loop of [analyzeEncounters]. *)
Definition step `{Host} (st : Locals) (encounter : FhirEncounter) : Locals :=
  let startDate :=
    if truthy (periodStart encounter)
    then Date_parse (the (periodStart encounter)) else None in
  let patientId := extractPatientId (subjectReference encounter) in
  {| classCounts :=
       match class encounter with
       | Some _ => count_up Display_eqb (classCounts st) (getClassDisplay encounter)
       | None => classCounts st
       end;
     l_missingClass :=
       match class encounter with
       | Some _ => l_missingClass st
       | None => S (l_missingClass st)
       end;
     typeCounts := count_up String.eqb (typeCounts st) (getTypeDisplay encounter);
     statusCounts :=
       if truthy (status encounter)
       then count_up String.eqb (statusCounts st) (the (status encounter))
       else statusCounts st;
     l_missingPeriodStart :=
       if truthy (periodStart encounter) then l_missingPeriodStart st
       else S (l_missingPeriodStart st);
     periodDates :=
       match startDate with
       | Some date => List.app (periodDates st) [date]
       | None => periodDates st
       end;
     monthCounts :=
       match startDate with
       | Some _ =>
           match toMonthKey (the (periodStart encounter)) with
           | Some monthKey =>
               if negb (monthKey =? "")
               then count_up String.eqb (monthCounts st) monthKey
               else monthCounts st
           | None => monthCounts st
           end
       | None => monthCounts st
       end;
     l_missingPeriodEnd :=
       if truthy (periodEnd encounter) then l_missingPeriodEnd st
       else S (l_missingPeriodEnd st);
     losHours :=
       match calculateLengthOfStay (periodStart encounter) (periodEnd encounter) with
       | Some los => List.app (losHours st) [los]
       | None => losHours st
       end;
     patientCounts :=
       if truthy patientId
       then count_up String.eqb (patientCounts st) (the patientId)
       else patientCounts st;
     l_missingSubject :=
       if truthy patientId then l_missingSubject st
       else S (l_missingSubject st) |}.

Definition loop `{Host} (st : Locals) (encounters : list FhirEncounter) : Locals :=
  fold_left step encounters st.

Definition dateRange `{Host} (dates : list Z) : DateRange :=
  let sorted := Array_sort (fun a b => inject_Z (a - b)) dates in
  {| dr_min := hd_error sorted;
     dr_max := hd_error (rev sorted);
     minFormatted :=
       match hd_error sorted with
       | Some t => toLocaleDateString t
       | None => "N/A"
       end;
     maxFormatted :=
       match hd_error (rev sorted) with
       | Some t => toLocaleDateString t
       | None => "N/A"
       end |}.

(** The time series: the entries of [monthCounts] sorted by key, each with
    its label ([Invalid Date] where the key does not parse back). *)
Definition timeSeries `{Host} (monthCounts : list (string * nat))
  : list TimeSeriesPoint :=
  map (fun '(date, count) =>
         {| ts_date := date;
            ts_count := count;
            ts_label :=
              match Date_parse (date ++ "-01") with
              | Some t => toLocaleDateString_en_US_short t
              | None => "Invalid Date"
              end |})
      (Array_sort (fun a b => inject_Z (localeCompare (fst a) (fst b))) monthCounts).

Definition uniqueCount (ids : list (option string)) : nat :=
  List.length
    (nodup string_dec
       (flat_map (fun o => match o with
                           | Some s => if negb (s =? "") then [s] else []
                           | None => []
                           end) ids)).

Definition analyzeEncounters `{Host} (encounters : list FhirEncounter)
  : EncounterAnalytics :=
  let st := loop init encounters in
  let losDays := map (fun h => (h / 24)%Q) (losHours st) in
  let encountersPerPatientValues :=
    map (fun kv => inject_Z (Z.of_nat (snd kv))) (patientCounts st) in
  {| totalEncounters := List.length encounters;
     uniqueEncounterIds := uniqueCount (map e_id encounters);
     uniquePatientRefs := List.length (patientCounts st);
     classDistribution := createDistribution (classCounts st);
     typeDistribution := slice0 15 (createDistribution (typeCounts st));
     statusDistribution := createDistribution (statusCounts st);
     encountersByMonth := timeSeries (monthCounts st);
     periodCoverage := dateRange (periodDates st);
     losDistribution := createLosHistogram (losHours st);
     losStats :=
       {| los_stats := calculateStats losDays;
          encountersWithLos := List.length (losHours st) |};
     encountersPerPatient :=
       createEncountersPerPatientHistogram encountersPerPatientValues;
     encountersPerPatientStats := calculateStats encountersPerPatientValues;
     missingPeriodStart := l_missingPeriodStart st;
     missingPeriodEnd := l_missingPeriodEnd st;
     missingClass := l_missingClass st;
     missingSubject := l_missingSubject st |}.

End EncounterAnalytics.

(* ================================================================== *)
(** * src/App.tsx: from the input text to the dashboard's analytics *)
(* ================================================================== *)

Module App.
Import Js Fhir.

(** The assertions [as FhirPatient[]] and [as FhirEncounter[]]: how a parsed
    object is read through the interfaces of [fhir.ts]. *)
Class TypedView : Type := {
  asPatient : JsValue -> FhirPatient;
  asEncounter : JsValue -> FhirEncounter;
}.

(** [resource.resourceType === 'Patient'] *)
Definition isPatient (resource : JsValue) : bool :=
  strictEquals (NdjsonParser.resourceTypeOf resource) (JStr "Patient").

Definition isEncounter (resource : JsValue) : bool :=
  strictEquals (NdjsonParser.resourceTypeOf resource) (JStr "Encounter").

(** What the dashboard chosen by [renderDashboard] computes and shows. *)
Inductive Dashboard : Type :=
| PatientDashboard (analytics : PatientAnalytics.PatientAnalytics)
| EncounterDashboard (analytics : EncounterAnalytics.EncounterAnalytics)
| GenericDashboard (resources : list JsValue) (resourceType : JsValue).

Definition renderDashboard `{Host} `{TypedView}
    (parseResult : NdjsonParser.ParseResult) (w : World) : Dashboard * World :=
  let resourceType := NdjsonParser.resourceType parseResult in
  let resources := NdjsonParser.resources parseResult in
  if strictEquals resourceType (JStr "Patient")
  then
    let '(analytics, w') :=
      PatientAnalytics.analyzePatients (map asPatient (filter isPatient resources)) w in
    (PatientDashboard analytics, w')
  else if strictEquals resourceType (JStr "Encounter")
  then
    (EncounterDashboard
       (EncounterAnalytics.analyzeEncounters
          (map asEncounter (filter isEncounter resources))), w)
  else (GenericDashboard resources resourceType, w).

(** [handleAnalyze] followed by the render: parse, then analyze.  An
    exception of [parseNdjson] is caught and logged, and nothing is shown. *)
Definition analyze `{Host} `{TypedView} (input : string) (w : World)
  : option (NdjsonParser.ParseResult * Dashboard) * World :=
  let '(result, w1) := NdjsonParser.parseNdjson input w in
  match result with
  | Some r => let '(dashboard, w2) := renderDashboard r w1 in (Some (r, dashboard), w2)
  | None => (None, w1)
  end.

End App.

(* ================================================================== *)
(** * src/utils/ndjsonParser.ts: the quick check and the preview *)
(* ================================================================== *)

Module NdjsonProbe.
Import Js.

(** The body of the loop of [looksLikeNdjson] on a line that is not blank:
    the value of [parsed && typeof parsed === 'object' && typeof
    parsed.resourceType === 'string'], or [false]. *)
Definition looksLikeLine `{Host} (trimmed : string) : JsValue :=
  if negb (startsWith trimmed "{") then JBool false
  else match JSON_parse trimmed with
       | inr _ => JBool false
       | inl parsed =>
           if negb (ToBoolean parsed) then parsed
           else if negb (typeof parsed =? "object") then JBool false
           else JBool (match get parsed "resourceType" with
                       | Some rt => typeof rt =? "string"
                       | None => false
                       end)
       end.

(** The loop: it returns at the first line that is not blank. *)
Fixpoint looksLikeLoop `{Host} (lines : list string) : JsValue :=
  match lines with
  | [] => JBool false
  | line :: rest =>
      let trimmed := trim line in
      if trimmed =? "" then looksLikeLoop rest
      else looksLikeLine trimmed
  end.

(** [looksLikeNdjson]: the value returned, which the caller tests. *)
Definition looksLikeNdjson `{Host} (input : string) : JsValue :=
  if (input =? "") || (trim input =? "") then JBool false
  else looksLikeLoop (split LF input).

Record Preview : Type := {
  pv_resources : list JsValue;
  hasMore : bool;
}.

(** The [try] block of [getPreview]: the value to push, if any. *)
Definition previewLine `{Host} (trimmed : string) : option JsValue :=
  match JSON_parse trimmed with
  | inr _ => None
  | inl parsed =>
      if ToBoolean parsed &&
         match get parsed "resourceType" with
         | Some rt => ToBoolean rt
         | None => false
         end
      then Some parsed
      else None
  end.

(** The loop of [getPreview], with its [break]. *)
Fixpoint previewLoop `{Host} (maxResources : number) (resources : list JsValue)
    (lines : list string) : list JsValue :=
  match lines with
  | [] => resources
  | line :: rest =>
      if Qle_bool maxResources (inject_Z (Z.of_nat (List.length resources)))
      then resources
      else
        let trimmed := trim line in
        if trimmed =? "" then previewLoop maxResources resources rest
        else match previewLine trimmed with
             | Some parsed => previewLoop maxResources (List.app resources [parsed]) rest
             | None => previewLoop maxResources resources rest
             end
  end.

Definition getPreview `{Host} (input : string) (maxResources : number) : Preview :=
  let lines := split LF input in
  {| pv_resources := previewLoop maxResources [] lines;
     hasMore :=
       Qltb maxResources
            (inject_Z (Z.of_nat
               (List.length (filter (fun l => negb (trim l =? "")) lines)))) |}.

End NdjsonProbe.

(* ================================================================== *)
(** * src/components/ParseResultHeader.tsx: the error details *)
(* ================================================================== *)

Module ParseResultHeader.
Import Js NdjsonParser.

Definition hasErrors (result : ParseResult) : bool := (0 <? invalidLines result)%nat.

(** The block under [hasErrors && result.errors.length > 0]: [None] when
    it is not rendered, otherwise the number its summary line shows and the
    entries it lists. *)
Definition errorDetails (result : ParseResult) : option (nat * list ParseError) :=
  if hasErrors result && (0 <? List.length (errors result))%nat
  then Some (Nat.min (List.length (errors result)) 50, slice0 50 (errors result))
  else None.

End ParseResultHeader.

(* ================================================================== *)
(** * src/components/ResourceTable.tsx: the pages of the table *)
(* ================================================================== *)

Module ResourceTable.
Import Js.

Definition PAGE_SIZES : list Z := [10; 25; 50; 100]%Z.

(** The index that [slice] makes of an integer argument: counted from the
    end when negative, and kept within the array. *)
Definition relativeIndex (len i : Z) : Z :=
  if (i <? 0)%Z then Z.max (len + i) 0 else Z.min i len.

(** [a.slice(start, end)] with integer arguments. *)
Definition Array_slice {A : Type} (a : list A) (start end_ : Z) : list A :=
  let len := Z.of_nat (List.length a) in
  let k := relativeIndex len start in
  let final := relativeIndex len end_ in
  firstn (Z.to_nat (final - k)) (skipn (Z.to_nat k) a).

Definition paginatedResources {A : Type} (sortedResources : list A) (page pageSize : Z)
  : list A :=
  let start := ((page - 1) * pageSize)%Z in
  Array_slice sortedResources start (start + pageSize).

(** [Math.ceil(sortedResources.length / pageSize)]; the page size is one of
    [PAGE_SIZES], never zero. *)
Definition totalPages (length : nat) (pageSize : Z) : Z :=
  Qceiling (inject_Z (Z.of_nat length) / inject_Z pageSize).

(** The two page buttons; a disabled button leaves the page as it is. *)
Definition previousPage (page : Z) : Z :=
  if (page =? 1)%Z then page else Z.max 1 (page - 1).

Definition nextPage (totalPages page : Z) : Z :=
  if (totalPages <=? page)%Z then page else Z.min totalPages (page + 1).

End ResourceTable.

(* ================================================================== *)
(** * src/components/GenericDashboard.tsx: the field analysis *)
(* ================================================================== *)

Module FieldAnalysis.
Import Js.

Record FieldStats : Type := {
  path : string;
  presentCount : nat;
  missingCount : Z;
  uniqueValues : nat;
  sampleValues : list string;
}.

(** A value of [fieldMap]: [present], the set [values] in insertion order,
    and [samples]. *)
Record Seen : Type := {
  present : nat;
  values : list string;
  samples : list string;
}.

(** [set.add(x)] on a set of strings. *)
Definition Set_add (set : list string) (x : string) : list string :=
  if existsb (String.eqb x) set then set else List.app set [x].

Fixpoint indexed {A : Type} (i : nat) (l : list A) : list (string * A) :=
  match l with
  | [] => []
  | x :: r => (string_of_nat i, x) :: indexed (S i) r
  end.

(** [Object.entries(v)]: the own properties of an object in their order,
    the elements of an array and the characters of a string under their
    indices, nothing for a number or a boolean; it throws on [null]. *)
Definition Object_entries (v : JsValue) : option (list (string * JsValue)) :=
  match v with
  | JNull => None
  | JObj props => Some props
  | JArr elems => Some (indexed 0 elems)
  | JStr s => Some (indexed 0 (map (fun c => JStr (String c "")) (list_ascii_of_string s)))
  | JBool _ | JNum _ => Some []
  end.

(** [String(value)] of a string, a number or a boolean. *)
Definition simpleString `{Host} (value : JsValue) : string :=
  match value with
  | JStr s => s
  | JNum x => NumberToString x
  | JBool true => "true"
  | JBool false => "false"
  | _ => ""
  end.

(** The statements under [if (value !== null && value !== undefined)]. *)
Definition observe `{Host} (stats : Seen) (value : JsValue) : Seen :=
  match value with
  | JNull => stats
  | JStr _ | JNum _ | JBool _ =>
      let strVal := simpleString value in
      {| present := S (present stats);
         values := Set_add (values stats) strVal;
         samples :=
           if (List.length (samples stats) <? 3)%nat &&
              negb (existsb (String.eqb strVal) (samples stats))
           then List.app (samples stats)
                  [if (50 <? String.length strVal)%nat
                   then substring strVal 0 50 ++ "..."
                   else strVal]
           else samples stats |}
  | JArr elems =>
      {| present := S (present stats);
         values := Set_add (values stats)
                     ("[Array: " ++ string_of_nat (List.length elems) ++ " items]");
         samples := samples stats |}
  | JObj _ =>
      {| present := S (present stats);
         values := Set_add (values stats) "[Object]";
         samples := samples stats |}
  end.

(** The body of the inner loop, for one entry of a resource. *)
Definition visit `{Host} (fieldMap : list (string * Seen)) (entry : string * JsValue)
  : list (string * Seen) :=
  let '(key, value) := entry in
  if key =? "resourceType" then fieldMap
  else
    let fieldMap' :=
      match Map_get String.eqb fieldMap key with
      | Some _ => fieldMap
      | None => Map_set String.eqb fieldMap key
                  {| present := 0; values := []; samples := [] |}
      end in
    match Map_get String.eqb fieldMap' key with
    | Some stats => Map_set String.eqb fieldMap' key (observe stats value)
    | None => fieldMap'
    end.

(** The outer loop; [None] when [Object.entries] throws. *)
Fixpoint scan `{Host} (fieldMap : list (string * Seen)) (sample : list JsValue)
  : option (list (string * Seen)) :=
  match sample with
  | [] => Some fieldMap
  | resource :: rest =>
      match Object_entries resource with
      | Some entries => scan (fold_left visit entries fieldMap) rest
      | None => None
      end
  end.

Definition analyzeFields `{Host} (resources : list JsValue) : option (list FieldStats) :=
  let sample := slice0 1000 resources in
  match scan [] sample with
  | None => None
  | Some fieldMap =>
      Some (Array_sort
              (fun a b => inject_Z (Z.of_nat (presentCount b) - Z.of_nat (presentCount a)))
              (map (fun '(path, stats) =>
                      {| path := path;
                         presentCount := present stats;
                         missingCount :=
                           (Z.of_nat (List.length sample) - Z.of_nat (present stats))%Z;
                         uniqueValues := List.length (values stats);
                         sampleValues := samples stats |})
                   fieldMap))
  end.

End FieldAnalysis.

(* ================================================================== *)
(** * src/components/NdjsonInput.tsx: the validation as the user types *)
(* ================================================================== *)

Module NdjsonInput.
Import Js NdjsonParser NdjsonProbe.

Inductive ValidationStatus : Type := empty | valid | invalid.

(** The state [handleChange] sets, besides the input itself. *)
Record State : Type := {
  validationStatus : ValidationStatus;
  previewType : option JsValue;
  lineCount : nat;
}.

(** [handleChange(value)] from the state [st]: a setter that is not called
    leaves its part of the state as it was. *)
Definition handleChange `{Host} (value : string) (st : State) : State :=
  if trim value =? ""
  then {| validationStatus := empty; previewType := None; lineCount := 0 |}
  else
    let lines :=
      List.length (filter (fun l => negb (trim l =? "")) (split LF value)) in
    if ToBoolean (looksLikeNdjson value)
    then
      let preview := getPreview value 1%Q in
      {| validationStatus := valid;
         previewType :=
           match pv_resources preview with
           | first :: _ => Some (resourceTypeOf first)
           | [] => previewType st
           end;
         lineCount := lines |}
    else {| validationStatus := invalid; previewType := None; lineCount := lines |}.

End NdjsonInput.

(* ================================================================== *)
(** * A reference host

    One conforming host, on which the embedding computes: the JSON grammar
    of ECMA-404, [Number::toString], the ISO date-time format of ECMA-262
    read in the UTC time zone, and code-unit string order.  The theorems
    below hold for every host; the worked inputs run on this one. *)
(* ================================================================== *)

Module ReferenceHost.
Import Js.

(** The binary64 value nearest to [(-1)^neg * m * 10^e] (ties to even). *)
Definition binary64_of_decimal (neg : bool) (m : Z) (e : Z) : spec_float :=
  match m with
  | Zpos p =>
      if (0 <=? e)%Z
      then if (400 <? e)%Z then S754_infinity neg
           else binary_round 53 1024 neg (p * Z.to_pos (10 ^ e)) 0
      else if (800 <? - e - Z.log2 m)%Z then S754_zero neg
           else SFdiv 53 1024 (S754_finite neg p 0)
                              (S754_finite false (Z.to_pos (10 ^ (- e))) 0)
  | _ => S754_zero neg
  end.

Definition digit_of (c : ascii) : option Z :=
  let n := N_of_ascii c in
  if (48 <=? n)%N && (n <=? 57)%N then Some (Z.of_N (n - 48)) else None.

Definition hex_of (c : ascii) : option N :=
  let n := N_of_ascii c in
  if (48 <=? n)%N && (n <=? 57)%N then Some (n - 48)%N
  else if (65 <=? n)%N && (n <=? 70)%N then Some (n - 55)%N
  else if (97 <=? n)%N && (n <=? 102)%N then Some (n - 87)%N
  else None.

(** A maximal run of decimal digits: its value on top of [acc], how many
    digits were read, and what follows. *)
Fixpoint read_digits (s : string) (acc : Z) (n : nat) : Z * nat * string :=
  match s with
  | String c r =>
      match digit_of c with
      | Some d => read_digits r (acc * 10 + d) (S n)
      | None => (acc, n, s)
      end
  | EmptyString => (acc, n, s)
  end.

Definition is_json_ws (c : ascii) : bool :=
  match N_of_ascii c with
  | 9%N | 10%N | 13%N | 32%N => true
  | _ => false
  end.

Fixpoint skip_ws (s : string) : string :=
  match s with
  | String c r => if is_json_ws c then skip_ws r else s
  | EmptyString => s
  end.

(** [number]: the integer part (no leading zero), a fraction, an exponent. *)
Definition parse_number (s : string) : option (spec_float * string) :=
  let '(neg, s1) :=
    match s with
    | String "-" r => (true, r)
    | _ => (false, s)
    end in
  let int_part :=
    match s1 with
    | String "0" r => Some (0%Z, r)
    | _ => let '(v, n, r) := read_digits s1 0 0 in
           if (n =? 0)%nat then None else Some (v, r)
    end in
  match int_part with
  | None => None
  | Some (i, s2) =>
      let frac :=
        match s2 with
        | String "." r =>
            let '(v, n, r') := read_digits r i 0 in
            if (n =? 0)%nat then None else Some (v, n, r')
        | _ => Some (i, 0, s2)
        end in
      match frac with
      | None => None
      | Some (m, fd, s3) =>
          let expo :=
            match s3 with
            | String c r =>
                if Ascii.eqb c "e" || Ascii.eqb c "E"
                then
                  let '(eneg, r1) :=
                    match r with
                    | String "-" r' => (true, r')
                    | String "+" r' => (false, r')
                    | _ => (false, r)
                    end in
                  let '(v, n, r2) := read_digits r1 0 0 in
                  if (n =? 0)%nat then None
                  else Some (if eneg then (- v)%Z else v, r2)
                else Some (0%Z, s3)
            | EmptyString => Some (0%Z, s3)
            end in
          match expo with
          | None => None
          | Some (e, s4) =>
              Some (binary64_of_decimal neg m (e - Z.of_nat fd), s4)
          end
      end
  end.

(** The character an escape letter stands for. *)
Definition escape_of (e : ascii) : option ascii :=
  if Ascii.eqb e DQUOTE then Some DQUOTE
  else match e with
       | "\"%char => Some "\"%char
       | "/"%char => Some "/"%char
       | "b"%char => Some "008"%char
       | "f"%char => Some "012"%char
       | "n"%char => Some "010"%char
       | "r"%char => Some "013"%char
       | "t"%char => Some "009"%char
       | _ => None
       end.

(** The characters of a string after its opening quote.  A [\u] escape
    above 255 has no place in [string] and is refused. *)
Fixpoint parse_chars (s : string) (acc : string) : option (string * string) :=
  match s with
  | EmptyString => None
  | String c r =>
      if Ascii.eqb c DQUOTE then Some (acc, r)
      else if Ascii.eqb c "\"
      then match r with
           | String "u" (String a (String b (String c' (String d rest)))) =>
               match hex_of a, hex_of b, hex_of c', hex_of d with
               | Some 0%N, Some 0%N, Some x, Some y =>
                   parse_chars rest (acc ++ String (ascii_of_N (16 * x + y)) "")
               | _, _, _, _ => None
               end
           | String e r' =>
               match escape_of e with
               | Some ch => parse_chars r' (acc ++ String ch "")
               | None => None
               end
           | EmptyString => None
           end
      else if (N_of_ascii c <? 32)%N then None
      else parse_chars r (acc ++ String c "")
  end.

(** [value], [elements] and [members] of the grammar; [fuel] bounds the
    calls, twice the length of the text is enough.  A repeated key keeps
    its first place and takes the last value. *)
Fixpoint parse_value (fuel : nat) (s : string) : option (JsValue * string) :=
  match fuel with
  | O => None
  | S f =>
      match skip_ws s with
      | String "{" r =>
          match skip_ws r with
          | String "}" r' => Some (JObj [], r')
          | r' => parse_members f r' []
          end
      | String "[" r =>
          match skip_ws r with
          | String "]" r' => Some (JArr [], r')
          | r' => parse_elements f r' []
          end
      | String "t" (String "r" (String "u" (String "e" r))) => Some (JBool true, r)
      | String "f" (String "a" (String "l" (String "s" (String "e" r)))) =>
          Some (JBool false, r)
      | String "n" (String "u" (String "l" (String "l" r))) => Some (JNull, r)
      | String c r as s' =>
          if Ascii.eqb c DQUOTE
          then match parse_chars r "" with
               | Some (str, r') => Some (JStr str, r')
               | None => None
               end
          else match parse_number s' with
               | Some (x, r') => Some (JNum x, r')
               | None => None
               end
      | EmptyString => None
      end
  end
with parse_elements (fuel : nat) (s : string) (acc : list JsValue)
  : option (JsValue * string) :=
  match fuel with
  | O => None
  | S f =>
      match parse_value f s with
      | Some (v, r) =>
          match skip_ws r with
          | String "," r' => parse_elements f r' (List.app acc [v])
          | String "]" r' => Some (JArr (List.app acc [v]), r')
          | _ => None
          end
      | None => None
      end
  end
with parse_members (fuel : nat) (s : string) (acc : list (string * JsValue))
  : option (JsValue * string) :=
  match fuel with
  | O => None
  | S f =>
      match skip_ws s with
      | String c r =>
          if Ascii.eqb c DQUOTE
          then
            match parse_chars r "" with
            | Some (key, r1) =>
                match skip_ws r1 with
                | String ":" r2 =>
                    match parse_value f r2 with
                    | Some (v, r3) =>
                        match skip_ws r3 with
                        | String "," r4 =>
                            parse_members f r4 (Map_set String.eqb acc key v)
                        | String "}" r4 =>
                            Some (JObj (Map_set String.eqb acc key v), r4)
                        | _ => None
                        end
                    | None => None
                    end
                | _ => None
                end
            | None => None
            end
          else None
      | EmptyString => None
      end
  end.

(** [JSON.parse(text)]; the message of the [SyntaxError] is the host's own. *)
Definition json_parse (text : string) : JsValue + string :=
  match parse_value (2 * String.length text + 2) text with
  | Some (v, r) =>
      match skip_ws r with
      | EmptyString => inl v
      | _ => inr "Unexpected non-whitespace character after JSON"
      end
  | None => inr "Unexpected token in JSON"
  end.

(** The exact value of a finite binary64 number. *)
Definition Q_of_binary64 (x : spec_float) : Q :=
  match x with
  | S754_finite s m e =>
      let v := if (0 <=? e)%Z then inject_Z (Zpos m * 2 ^ e)
               else (Zpos m # Z.to_pos (2 ^ (- e))) in
      if s then Qopp v else v
  | _ => 0%Q
  end.

Definition binary64_of_Q (q : Q) : spec_float :=
  match Qnum q with
  | Z0 => S754_zero false
  | Zpos p => SFdiv 53 1024 (S754_finite false p 0) (S754_finite false (Qden q) 0)
  | Zneg p => SFdiv 53 1024 (S754_finite true p 0) (S754_finite false (Qden q) 0)
  end.

Definition pow10 (j : Z) : Q := Qpower 10 j.

(** The least [n] from [j] upwards with [v < 10^n]. *)
Fixpoint magnitude (fuel : nat) (j : Z) (v : Q) : Z :=
  match fuel with
  | O => j
  | S f => if Qltb v (pow10 j) then j else magnitude f (j + 1)%Z v
  end.

Definition Qabs_diff (a b : Q) : Q := Qabs (a - b).

(** The candidates with [k] digits for a positive [x] of magnitude [n]:
    the integers next to [x / 10^(n-k)] whose value reads back as [x]. *)
Definition candidates (x : spec_float) (v : Q) (n : Z) (k : Z) : list (Z * Z) :=
  let scaled := (v * pow10 (k - n)%Z)%Q in
  let lo := Qfloor scaled in
  let back (s e : Z) := SFeqb (binary64_of_decimal false s e) x in
  let c_lo := if (10 ^ (k - 1) <=? lo)%Z && back lo (n - k)%Z then [(lo, n)] else [] in
  let hi := (lo + 1)%Z in
  let c_hi :=
    if (hi <? 10 ^ k)%Z
    then if back hi (n - k)%Z then [(hi, n)] else []
    else if (k =? 1)%Z && back 1%Z n then [(1%Z, (n + 1)%Z)] else [] in
  List.app c_lo c_hi.

(** The closest candidate, the even one at a tie. *)
Definition closest (v : Q) (k : Z) (cs : list (Z * Z)) : option (Z * Z) :=
  let dist (c : Z * Z) := Qabs_diff (inject_Z (fst c) * pow10 (snd c - k)%Z) v in
  match cs with
  | [] => None
  | [c] => Some c
  | c1 :: c2 :: _ =>
      if Qltb (dist c1) (dist c2) then Some c1
      else if Qltb (dist c2) (dist c1) then Some c2
      else if Z.even (fst c1) then Some c1 else Some c2
  end.

(** The shortest digits [s] (there are [k] of them) and the exponent [n]
    with [x = s * 10^(n-k)] after rounding. *)
Fixpoint shortest (fuel : nat) (x : spec_float) (v : Q) (n k : Z) : Z * Z * Z :=
  match fuel with
  | O => (0, n, k)%Z
  | S f =>
      match closest v k (candidates x v n k) with
      | Some (s, n') => (s, n', k)
      | None => shortest f x v n (k + 1)%Z
      end
  end.

Fixpoint zeros (n : nat) : string :=
  match n with O => "" | S k => String "0" (zeros k) end.

Definition format_digits (s n k : Z) : string :=
  let digits := string_of_Z s in
  if (k <=? n)%Z && (n <=? 21)%Z
  then digits ++ zeros (Z.to_nat (n - k))
  else if (0 <? n)%Z && (n <=? 21)%Z
  then String.substring 0 (Z.to_nat n) digits ++ "." ++
       String.substring (Z.to_nat n) (Z.to_nat (k - n)) digits
  else if (-6 <? n)%Z && (n <=? 0)%Z
  then "0." ++ zeros (Z.to_nat (- n)) ++ digits
  else
    let e := (n - 1)%Z in
    let exponent := (if (e <? 0)%Z then "-" else "+") ++ string_of_Z (Z.abs e) in
    if (k =? 1)%Z then digits ++ "e" ++ exponent
    else String.substring 0 1 digits ++ "." ++
         String.substring 1 (Z.to_nat (k - 1)) digits ++ "e" ++ exponent.

(** [Number::toString(x)] in radix 10 *)
Definition number_to_string (x : spec_float) : string :=
  match x with
  | S754_nan => "NaN"
  | S754_zero _ => "0"
  | S754_infinity s => if s then "-Infinity" else "Infinity"
  | S754_finite sgn m e =>
      let pos := S754_finite false m e in
      let v := Q_of_binary64 pos in
      let n := magnitude 640 (-330)%Z v in
      let '(s, n', k) := shortest 17 pos v n 1%Z in
      (if sgn then "-" else "") ++ format_digits s n' k
  end.

(** [Math.sqrt] on the binary64 value nearest the argument *)
Definition math_sqrt (q : Q) : Q :=
  Q_of_binary64 (SFsqrt 53 1024 (binary64_of_Q q)).

(** Code-unit order: negative, zero or positive. *)
Fixpoint compare_code_units (a b : string) : Z :=
  match a, b with
  | EmptyString, EmptyString => 0%Z
  | EmptyString, _ => (-1)%Z
  | _, EmptyString => 1%Z
  | String x a', String y b' =>
      if (N_of_ascii x <? N_of_ascii y)%N then (-1)%Z
      else if (N_of_ascii y <? N_of_ascii x)%N then 1%Z
      else compare_code_units a' b'
  end.

(** Days since 1970-01-01 of a proleptic Gregorian date, and back. *)
Definition days_from_civil (y m d : Z) : Z :=
  let y' := (if m <=? 2 then y - 1 else y)%Z in
  let era := (y' / 400)%Z in
  let yoe := (y' - era * 400)%Z in
  let mp := (if 2 <? m then m - 3 else m + 9)%Z in
  let doy := ((153 * mp + 2) / 5 + d - 1)%Z in
  let doe := (yoe * 365 + yoe / 4 - yoe / 100 + doy)%Z in
  (era * 146097 + doe - 719468)%Z.

Definition civil_from_days (days : Z) : Z * Z * Z :=
  let z := (days + 719468)%Z in
  let era := (z / 146097)%Z in
  let doe := (z - era * 146097)%Z in
  let yoe := ((doe - doe / 1460 + doe / 36524 - doe / 146096) / 365)%Z in
  let doy := (doe - (365 * yoe + yoe / 4 - yoe / 100))%Z in
  let mp := ((5 * doy + 2) / 153)%Z in
  let d := (doy - (153 * mp + 2) / 5 + 1)%Z in
  let m := (if mp <? 10 then mp + 3 else mp - 9)%Z in
  ((if m <=? 2 then yoe + era * 400 + 1 else yoe + era * 400)%Z, m, d).

Definition msPerDay : Z := 86400000.

Definition is_leap (y : Z) : bool :=
  ((y mod 4 =? 0) && negb (y mod 100 =? 0) || (y mod 400 =? 0))%Z.

Definition days_in_month (y m : Z) : Z :=
  match m with
  | 2%Z => if is_leap y then 29%Z else 28%Z
  | 4%Z | 6%Z | 9%Z | 11%Z => 30%Z
  | _ => 31%Z
  end.

(** Exactly [n] decimal digits. *)
Fixpoint fixed_digits (n : nat) (s : string) (acc : Z) : option (Z * string) :=
  match n with
  | O => Some (acc, s)
  | S k =>
      match s with
      | String c r =>
          match digit_of c with
          | Some d => fixed_digits k r (acc * 10 + d)%Z
          | None => None
          end
      | EmptyString => None
      end
  end.

(** [-MM] or [-DD] when present; the default otherwise. *)
Definition dash_field (s : string) (default : Z) : option (Z * string * bool) :=
  match s with
  | String "-" r =>
      match fixed_digits 2 r 0 with
      | Some (v, r') => Some (v, r', true)
      | None => None
      end
  | _ => Some (default, s, false)
  end.

(** The time of day after [T]: [HH:mm], then [:ss], then [.sss]. *)
Definition parse_time (s : string) : option (Z * string) :=
  match fixed_digits 2 s 0 with
  | Some (h, String ":" r) =>
      match fixed_digits 2 r 0 with
      | Some (mi, r1) =>
          let '(sec, r2, ok) :=
            match r1 with
            | String ":" r' =>
                match fixed_digits 2 r' 0 with
                | Some (v, r'') => (v, r'', true)
                | None => (0%Z, r1, false)
                end
            | _ => (0%Z, r1, true)
            end in
          let '(ms, r3, ok') :=
            match r2 with
            | String "." r' =>
                match fixed_digits 3 r' 0 with
                | Some (v, r'') => (v, r'', true)
                | None => (0%Z, r2, false)
                end
            | _ => (0%Z, r2, true)
            end in
          if ok && ok' &&
             (((h <? 24) && (mi <? 60) && (sec <? 60)) ||
              ((h =? 24) && (mi =? 0) && (sec =? 0) && (ms =? 0)))%Z
          then Some (((h * 60 + mi) * 60 + sec) * 1000 + ms, r3)%Z
          else None
      | None => None
      end
  | _ => None
  end.

(** [Z] or [+HH:mm] or [-HH:mm]: the offset in milliseconds. *)
Definition parse_offset (s : string) : option Z :=
  match s with
  | EmptyString => Some 0%Z
  | String "Z" EmptyString => Some 0%Z
  | String c r =>
      if Ascii.eqb c "+" || Ascii.eqb c "-"
      then match fixed_digits 2 r 0 with
           | Some (h, String ":" r1) =>
               match fixed_digits 2 r1 0 with
               | Some (mi, EmptyString) =>
                   if ((h <? 24) && (mi <? 60))%Z
                   then Some ((if Ascii.eqb c "-" then -1 else 1) * (h * 60 + mi) * 60000)%Z
                   else None
               | _ => None
               end
           | _ => None
           end
      else None
  end.

(** [Date.parse] on the date-time string format: [YYYY], [YYYY-MM],
    [YYYY-MM-DD], an expanded year with a sign and six digits, an optional
    time and offset.  The local time zone is UTC.  Any other text is not a
    date here, which the standard allows. *)
Definition date_parse (s : string) : option Z :=
  let year :=
    match s with
    | String "+" r => fixed_digits 6 r 0
    | String "-" r =>
        match fixed_digits 6 r 0 with
        | Some (0%Z, _) => None
        | Some (v, r') => Some ((- v)%Z, r')
        | None => None
        end
    | _ => fixed_digits 4 s 0
    end in
  match year with
  | None => None
  | Some (y, s1) =>
      match dash_field s1 1 with
      | None => None
      | Some (m, s2, has_month) =>
          match (if has_month then dash_field s2 1 else Some (1%Z, s2, false)) with
          | None => None
          | Some (d, s3, _) =>
              if ((1 <=? m) && (m <=? 12) && (1 <=? d) && (d <=? days_in_month y m))%Z
              then
                let day_ms := (days_from_civil y m d * msPerDay)%Z in
                let t :=
                  match s3 with
                  | EmptyString => Some day_ms
                  | String "T" r =>
                      match parse_time r with
                      | Some (tod, r') =>
                          match parse_offset r' with
                          | Some off => Some (day_ms + tod - off)%Z
                          | None => None
                          end
                      | None => None
                      end
                  | _ => None
                  end in
                match t with
                | Some v => if (Z.abs v <=? 8640000000000000)%Z then Some v else None
                | None => None
                end
              else None
          end
      end
  end.

Definition year_of (t : Z) : Z := fst (fst (civil_from_days (t / msPerDay))).
Definition month_of (t : Z) : Z := (snd (fst (civil_from_days (t / msPerDay))) - 1)%Z.
Definition day_of (t : Z) : Z := snd (civil_from_days (t / msPerDay)).

Definition month_names : list string :=
  ["Jan"; "Feb"; "Mar"; "Apr"; "May"; "Jun"; "Jul"; "Aug"; "Sep"; "Oct"; "Nov"; "Dec"].

(** The [en-US] forms [M/D/YYYY] and [Mon YYYY]. *)
Definition locale_date (t : Z) : string :=
  string_of_Z (month_of t + 1) ++ "/" ++ string_of_Z (day_of t) ++ "/" ++
  string_of_Z (year_of t).
Definition locale_month_year (t : Z) : string :=
  nth (Z.to_nat (month_of t)) month_names "" ++ " " ++ string_of_Z (year_of t).

#[export] Instance host : Host := {
  JSON_parse := json_parse;
  NumberToString := number_to_string;
  Date_parse := date_parse;
  getFullYear := year_of;
  getMonth := month_of;
  getDate := day_of;
  toLocaleDateString := locale_date;
  toLocaleDateString_en_US_short := locale_month_year;
  localeCompare := compare_code_units;
  Math_sqrt := math_sqrt;
}.

(** A world whose clocks stand still at the given readings. *)
Definition world_at (perf : Q) (wall : Z) : World :=
  {| perf_clock := fun _ => perf; perf_reads := 0;
     wall_clock := fun _ => wall; wall_reads := 0 |}.

(** The typed view of an object whose properties follow the interfaces. *)
Definition get_string (v : JsValue) (name : string) : option string :=
  match get v name with Some (JStr s) => Some s | _ => None end.
Definition get_bool (v : JsValue) (name : string) : option bool :=
  match get v name with Some (JBool b) => Some b | _ => None end.
Definition get_array (v : JsValue) (name : string) : option (list JsValue) :=
  match get v name with Some (JArr l) => Some l | _ => None end.
Definition get_object (v : JsValue) (name : string) : option JsValue :=
  match get v name with Some (JObj p) => Some (JObj p) | _ => None end.

Definition as_coding (v : JsValue) : Fhir.FhirCoding :=
  {| Fhir.system := get_string v "system";
     Fhir.code := get_string v "code";
     Fhir.display := get_string v "display" |}.

(** Extensions, [depth] levels down; the analyzers read two. *)
Fixpoint as_extension (depth : nat) (v : JsValue) : Fhir.FhirExtension :=
  Fhir.Extension
    (the (get_string v "url"))
    (get_string v "valueString")
    (option_map as_coding (get_object v "valueCoding"))
    (match depth with
     | O => None
     | S d => option_map (map (as_extension d)) (get_array v "extension")
     end).

Definition as_patient (v : JsValue) : Fhir.FhirPatient :=
  {| Fhir.p_id := get_string v "id";
     Fhir.gender := get_string v "gender";
     Fhir.birthDate := get_string v "birthDate";
     Fhir.deceasedBoolean := get_bool v "deceasedBoolean";
     Fhir.deceasedDateTime := get_string v "deceasedDateTime";
     Fhir.address :=
       option_map
         (map (fun a => {| Fhir.city := get_string a "city";
                           Fhir.state := get_string a "state" |}))
         (get_array v "address");
     Fhir.p_extension := option_map (map (as_extension 2)) (get_array v "extension") |}.

Definition as_encounter (v : JsValue) : Fhir.FhirEncounter :=
  {| Fhir.e_id := get_string v "id";
     Fhir.status := get_string v "status";
     Fhir.class := option_map as_coding (get_object v "class");
     Fhir.type :=
       option_map
         (map (fun t => {| Fhir.coding := option_map (map as_coding) (get_array t "coding");
                           Fhir.text := get_string t "text" |}))
         (get_array v "type");
     Fhir.subject :=
       option_map (fun r => {| Fhir.reference := get_string r "reference" |})
                  (get_object v "subject");
     Fhir.period :=
       option_map (fun p => {| Fhir.start := get_string p "start";
                               Fhir.end_ := get_string p "end" |})
                  (get_object v "period") |}.

#[export] Instance view : App.TypedView := {
  App.asPatient := as_patient;
  App.asEncounter := as_encounter;
}.

End ReferenceHost.

(* ================================================================== *)
(** * What the properties speak of *)
(* ================================================================== *)

(** Order by a comparator. *)
Module Order.
Section Order.
Context {A : Type} (cmp : A -> A -> Q).

(** [x] does not come after [y]. *)
Definition before (x y : A) : Prop := Qle_bool (cmp x y) 0 = true.

(** A comparator that orders: any two elements compare one way or the
    other, and transitively. *)
Definition consistent : Prop :=
  (forall x y, Qle_bool (cmp x y) 0 = false -> before y x) /\
  (forall x y z, before x y -> before y z -> before x z).

End Order.
End Order.

(** Counting keys into a map. *)
Module Counting.
Import Js.
Section Counting.
Context {K : Type} (eqb : K -> K -> bool).

(** The map after counting the keys [ks] into [m], one by one. *)
Definition counted (m : list (K * nat)) (ks : list K) : list (K * nat) :=
  fold_left (count_up eqb) ks m.

Definition total (m : list (K * nat)) : nat := list_sum (map snd m).

(** How often [k] occurs in [ks]. *)
Definition occurrences (k : K) (ks : list K) : nat :=
  List.length (filter (fun k' => eqb k' k) ks).

Definition count_of (m : list (K * nat)) (k : K) : nat :=
  match Map_get eqb m k with Some n => n | None => 0 end.

End Counting.

(** The items of a distribution before sorting: each label with its share
    of [t]. *)
Definition shares {L : Type} (t : nat) (counts : list (L * nat))
  : list (Analytics.DistributionItem L) :=
  map (fun '(label, count) =>
         {| Analytics.label := label;
            Analytics.count := count;
            Analytics.percentage :=
              if (0 <? t)%nat
              then ((inject_Z (Z.of_nat count) / inject_Z (Z.of_nat t)) * 100)%Q
              else 0%Q |})
      counts.

(** How many of the buckets [bs] pass the test of a value. *)
Definition takers (test : Analytics.HistogramBucket -> bool)
                  (bs : list Analytics.HistogramBucket) : nat :=
  List.length (filter test bs).

End Counting.

(** The values a list of patients contributes to each statistic. *)
Module Population.
Import Js Fhir.

(** The value of a field that is present and not empty. *)
Definition present (v : option string) : list string :=
  match v with
  | Some s => if negb (s =? "") then [s] else []
  | None => []
  end.

Definition gendersOf (patients : list FhirPatient) : list string :=
  flat_map (fun p => present (gender p)) patients.
Definition racesOf (patients : list FhirPatient) : list string :=
  flat_map (fun p => present (PatientAnalytics.extractRace (p_extension p))) patients.
Definition ethnicitiesOf (patients : list FhirPatient) : list string :=
  flat_map (fun p => present (PatientAnalytics.extractEthnicity (p_extension p))) patients.
Definition statesOf (patients : list FhirPatient) : list string :=
  flat_map (fun p => match PatientAnalytics.primaryAddress p with
                     | Some a => present (state a)
                     | None => []
                     end) patients.
Definition citiesOf (patients : list FhirPatient) : list string :=
  flat_map (fun p => match PatientAnalytics.primaryAddress p with
                     | Some a => present (city a)
                     | None => []
                     end) patients.

(** The ages that are defined, each computed at its own clock reading. *)
Fixpoint agesOf `{Host} (patients : list FhirPatient) (w : World) : list number :=
  match patients with
  | [] => []
  | p :: rest =>
      let '(age, w') := PatientAnalytics.calculateAge (birthDate p) (deceasedDateTime p) w in
      List.app (match age with Some a => [a] | None => [] end) (agesOf rest w')
  end.

(** How many different strings a list holds. *)
Definition distinct (l : list string) : nat := List.length (nodup string_dec l).

End Population.

(** The values a list of encounters contributes to each statistic. *)
Module Visits.
Import Js Fhir Population.

Definition classesOf (encounters : list FhirEncounter) : list EncounterAnalytics.Display :=
  flat_map (fun e => match class e with
                     | Some _ => [EncounterAnalytics.getClassDisplay e]
                     | None => []
                     end) encounters.
Definition typesOf (encounters : list FhirEncounter) : list string :=
  map EncounterAnalytics.getTypeDisplay encounters.
Definition statusesOf (encounters : list FhirEncounter) : list string :=
  flat_map (fun e => present (status e)) encounters.

(** The start of an encounter is missing: absent, or the empty string. *)
Definition startMissing (e : FhirEncounter) : bool :=
  negb (truthy (EncounterAnalytics.periodStart e)).

(** The start of an encounter is there but is not a date. *)
Definition startInvalid `{Host} (e : FhirEncounter) : bool :=
  truthy (EncounterAnalytics.periodStart e) &&
  match Date_parse (the (EncounterAnalytics.periodStart e)) with
  | Some _ => false
  | None => true
  end.

(** The month keys of the starts that are dates. *)
Definition monthKeysOf `{Host} (encounters : list FhirEncounter) : list string :=
  flat_map (fun e =>
              if truthy (EncounterAnalytics.periodStart e)
              then match EncounterAnalytics.toMonthKey (the (EncounterAnalytics.periodStart e)) with
                   | Some k => [k]
                   | None => []
                   end
              else []) encounters.

(** The lengths of stay that are defined. *)
Definition losOf `{Host} (encounters : list FhirEncounter) : list number :=
  flat_map (fun e =>
              match EncounterAnalytics.calculateLengthOfStay
                      (EncounterAnalytics.periodStart e) (EncounterAnalytics.periodEnd e) with
              | Some los => [los]
              | None => []
              end) encounters.

Definition patientIdsOf (encounters : list FhirEncounter) : list string :=
  flat_map (fun e => present (EncounterAnalytics.extractPatientId
                                (EncounterAnalytics.subjectReference e))) encounters.

(** The start of an encounter is a date. *)
Definition startValid `{Host} (e : FhirEncounter) : bool :=
  negb (startMissing e) && negb (startInvalid e).

(** The count the series gives for the month [k]. *)
Definition seriesCount (k : string) (series : list Analytics.TimeSeriesPoint) : nat :=
  list_sum (map Analytics.ts_count
                (filter (fun p => Analytics.ts_date p =? k) series)).

(** The order of two points of the series by their month keys. *)
Definition byMonth `{Host} (p q : Analytics.TimeSeriesPoint) : Q :=
  inject_Z (localeCompare (Analytics.ts_date p) (Analytics.ts_date q)).

(** [localeCompare] orders strings. *)
Definition collates `{Host} : Prop :=
  Order.consistent (fun a b : string => inject_Z (localeCompare a b)).

End Visits.


(** Lines of an input seen from outside the loop. *)
Module Lines.
Import Js NdjsonParser.

Definition isBlank (raw : string) : bool := trim raw =? "".

(** The raw lines that are empty or all white space after trimming. *)
Definition blankLines (input : string) : nat :=
  List.length (filter isBlank (split LF input)).

(** A line that is not blank and does not give a resource. *)
Definition isInvalid `{Host} (raw : string) : bool :=
  negb (isBlank raw) &&
  match parseLine (trim raw) with inl _ => false | inr _ => true end.

Definition invalidTotal `{Host} (input : string) : nat :=
  List.length (filter isInvalid (split LF input)).

(** The resources of the lines that give one, in line order. *)
Definition parsedRecords `{Host} (lines : list string) : list JsValue :=
  flat_map
    (fun raw =>
       if isBlank raw then []
       else match parseLine (trim raw) with inl v => [v] | inr _ => [] end)
    lines.

(** The diagnostic of every invalid line, the first line being number
    [i + 1]. *)
Fixpoint diagnostics `{Host} (i : nat) (lines : list string) : list ParseError :=
  match lines with
  | [] => []
  | raw :: rest =>
      List.app
        (if isBlank raw then []
         else match parseLine (trim raw) with
              | inl _ => []
              | inr msg => [diagnostic (i + 1) (trim raw) msg]
              end)
        (diagnostics (S i) rest)
  end.

(** How many of the records after the first differ from it in
    [resourceType]. *)
Definition mismatches (records : list JsValue) : nat :=
  match records with
  | [] => 0
  | first :: later =>
      List.length
        (filter (fun r => negb (strictEquals (resourceTypeOf r) (resourceTypeOf first)))
                later)
  end.

(** The [resourceType] of the first record that parses. *)
Definition firstKind `{Host} (lines : list string) : option JsValue :=
  option_map resourceTypeOf (hd_error (parsedRecords lines)).

(** The detected type cannot be converted to a string: the template
    literals after the loop throw, and [parseNdjson] returns nothing. *)
Definition throwsTypeError `{Host} (input : string) : Prop :=
  exists d, firstKind (split LF input) = Some d /\ ToString d = None.

(** The entry is a per-line diagnostic, not the summary at line 0. *)
Definition isPerLine (e : ParseError) : bool := (1 <=? lineNumber e)%nat.

End Lines.

(** Two runs of the pipeline. *)
Module Runs.
Import Js NdjsonParser.

(** A parse result with its elapsed time left out. *)
Definition withoutTime (r : ParseResult) : ParseResult :=
  {| resources := resources r;
     resourceType := resourceType r;
     pseudoFileName := pseudoFileName r;
     totalLines := totalLines r;
     validLines := validLines r;
     invalidLines := invalidLines r;
     errors := errors r;
     parseTimeMs := 0%Q |}.

(** The detected kind of an input is the string Patient. *)
Definition kindIsPatient `{Host} (input : string) : bool :=
  match Lines.firstKind (split LF input) with
  | Some d => strictEquals d (JStr "Patient")
  | None => false
  end.

(** The calendar date, in local time, of a time value. *)
Definition localDate `{Host} (t : Z) : Z * Z * Z :=
  (getFullYear t, getMonth t, getDate t).

(** Every reading of the one wall clock falls on the same local calendar
    date as every reading of the other. *)
Definition sameDate `{Host} (w1 w2 : World) : Prop :=
  forall i j, localDate (wall_clock w1 i) = localDate (wall_clock w2 j).

End Runs.

(** Lines, the quick check and the preview. *)
Module Inspection.
Import Js NdjsonParser.

(** A string of white space only. *)
Fixpoint allWhite (s : string) : bool :=
  match s with
  | EmptyString => true
  | String c r => isWhiteSpace c && allWhite r
  end.

(** How many records a preview with the bound [maxResources] can hold. *)
Definition room (maxResources : number) : nat := Z.to_nat (Qceiling maxResources).

(** The entry [e] points at its line: the line with its number, counted
    from one, is not blank and does not give a resource; the entry holds
    the message of the error and the trimmed line, cut when long. *)
Definition locates `{Host} (lines : list string) (e : ParseError) : Prop :=
  exists raw msg,
    nth_error lines (lineNumber e - 1) = Some raw /\
    1 <= lineNumber e <= List.length lines /\
    Lines.isBlank raw = false /\
    parseLine (trim raw) = inr msg /\
    message e = msg /\
    rawLine e = Some (if (100 <? String.length (trim raw))%nat
                      then substring (trim raw) 0 100 ++ "..."
                      else trim raw).

End Inspection.

(** What a distribution says of the labels it was made from. *)
Module Tally.
Import Js Analytics.
Section Tally.
Context {L : Type} (eqb : L -> L -> bool).

(** The records a distribution accounts for. *)
Definition listed (d : list (DistributionItem L)) : nat := list_sum (map count d).

(** [d] has one item for each different label of [ks], with the number of
    its occurrences. *)
Definition tallies (ks : list L) (d : list (DistributionItem L)) : Prop :=
  NoDup (map label d) /\
  (forall k, In k ks <-> In k (map label d)) /\
  Forall (fun i => count i = Counting.occurrences eqb (label i) ks) d.

(** No item has a smaller count than a later one. *)
Definition descending (d : list (DistributionItem L)) : Prop :=
  StronglySorted (fun a b => count b <= count a) d.

(** [d] is the first [n] items of the descending tally of [ks]. *)
Definition topOf (n : nat) (ks : list L) (d : list (DistributionItem L)) : Prop :=
  exists full, tallies ks full /\ descending full /\ d = firstn n full.

End Tally.
End Tally.

(** More of what a list of patients or encounters contributes. *)
Module Census.
Import Js Fhir.

(** The birth dates that are dates, as time values. *)
Definition birthTimesOf `{Host} (patients : list FhirPatient) : list Z :=
  flat_map (fun p =>
              if truthy (birthDate p)
              then match Date_parse (the (birthDate p)) with
                   | Some t => [t]
                   | None => []
                   end
              else []) patients.

(** The starts that are dates, as time values. *)
Definition startTimesOf `{Host} (encounters : list FhirEncounter) : list Z :=
  flat_map (fun e =>
              if truthy (EncounterAnalytics.periodStart e)
              then match Date_parse (the (EncounterAnalytics.periodStart e)) with
                   | Some t => [t]
                   | None => []
                   end
              else []) encounters.

(** A field that is absent or the empty string. *)
Definition lacks {A : Type} (field : A -> option string) (x : A) : bool :=
  negb (truthy (field x)).


(** The age of the patient is computed from the current date: the birth
    date is a date and there is no date of death. *)
Definition agedToday `{Host} (p : FhirPatient) : bool :=
  truthy (birthDate p) &&
  match Date_parse (the (birthDate p)) with Some _ => true | None => false end &&
  negb (truthy (deceasedDateTime p)).

(** [lo] and [hi] are the least and the greatest of [ts]. *)
Definition spans (lo hi : Z) (ts : list Z) : Prop :=
  In lo ts /\ In hi ts /\ Forall (fun t => (lo <= t <= hi)%Z) ts.


End Census.

(** Buckets and pages. *)
Module Shapes.
Import Js Analytics.

(** The range and label of a bucket, without its count. *)
Definition frame (b : HistogramBucket) : Q * option Q * string :=
  (min b, max b, b_label b).

(** The pages of a table, from the first to the last. *)
Definition pagesOf {A : Type} (rows : list A) (pageSize : Z) : list (list A) :=
  map (fun p => ResourceTable.paginatedResources rows (Z.of_nat p) pageSize)
      (seq 1 (Z.to_nat (ResourceTable.totalPages (List.length rows) pageSize))).

(** What the field analysis keeps of one field is within its bounds: at
    most three samples, none longer than 53 characters, no more different
    values than values present, and a path other than [resourceType]. *)
Definition bounded (f : FieldAnalysis.FieldStats) : Prop :=
  List.length (FieldAnalysis.sampleValues f) <= 3 /\
  Forall (fun s => String.length s <= 53) (FieldAnalysis.sampleValues f) /\
  FieldAnalysis.uniqueValues f <= FieldAnalysis.presentCount f /\
  FieldAnalysis.path f <> "resourceType".

(** What every value of the field map satisfies. *)
Definition within (stats : FieldAnalysis.Seen) : Prop :=
  List.length (FieldAnalysis.samples stats) <= 3 /\
  Forall (fun s => String.length s <= 53) (FieldAnalysis.samples stats) /\
  List.length (FieldAnalysis.values stats) <= FieldAnalysis.present stats.

(** The keys of a map: no two alike, none of them [resourceType]. *)
Definition keyed {V : Type} (m : list (string * V)) : Prop :=
  NoDup (map fst m) /\ Forall (fun k => k <> "resourceType") (map fst m).

End Shapes.

(** Inputs the lemmas below are run on. *)
Module Examples.
Import Js ReferenceHost.

Definition nl : string := String LF "".

(** The JSON text of a string, and of an object with the given members. *)
Definition str (s : string) : string := quoted s.
Definition obj (members : list (string * string)) : string :=
  "{" ++ join "," (map (fun m => quoted (fst m) ++ ":" ++ snd m) members) ++ "}".


Definition patient_p1 : string := obj [("resourceType", str "Patient"); ("id", str "p1")].
Definition encounter_e1 : string := obj [("resourceType", str "Encounter"); ("id", str "e1")].
Definition observation : string := obj [("resourceType", str "Observation")].

(** A record whose [resourceType] is an object with a [toString] member. *)
Definition objectKind : string :=
  obj [("resourceType", obj [("toString", "0")])].


(** Two kinds, a blank line and one bad line. *)
Definition mixed : string :=
  patient_p1 ++ nl ++ "   " ++ nl ++ encounter_e1 ++ nl ++ "[1, 2]".

Definition w0 : World := world_at 0 1762128000000.



(** Born in 1800, died in 1950, at the age of 150. *)
Definition aged150 : Fhir.FhirPatient :=
  {| Fhir.p_id := Some "old"; Fhir.gender := None;
     Fhir.birthDate := Some "1800-01-01";
     Fhir.deceasedBoolean := None; Fhir.deceasedDateTime := Some "1950-06-01";
     Fhir.address := None; Fhir.p_extension := None |}.

(** An encounter whose class has the code [constructor] and no display. *)
Definition classConstructor : Fhir.FhirEncounter :=
  {| Fhir.e_id := Some "e1"; Fhir.status := None;
     Fhir.class := Some {| Fhir.system := None; Fhir.code := Some "constructor";
                           Fhir.display := None |};
     Fhir.type := None; Fhir.subject := None; Fhir.period := None |}.

(** An encounter whose start is present and is not a date. *)
Definition startGarbage : Fhir.FhirEncounter :=
  {| Fhir.e_id := Some "e2"; Fhir.status := None; Fhir.class := None;
     Fhir.type := None; Fhir.subject := None;
     Fhir.period := Some {| Fhir.start := Some "garbage"; Fhir.end_ := None |} |}.

Definition encounterAt (start end_ : string) : Fhir.FhirEncounter :=
  {| Fhir.e_id := None; Fhir.status := Some "finished"; Fhir.class := None;
     Fhir.type := None; Fhir.subject := Some {| Fhir.reference := Some "Patient/p1" |};
     Fhir.period := Some {| Fhir.start := Some start; Fhir.end_ := Some end_ |} |}.

(** Two visits in January 2024 and one in March 2023. *)
Definition threeVisits : list Fhir.FhirEncounter :=
  [ encounterAt "2024-01-15T09:00:00Z" "2024-01-15T09:30:00Z";
    encounterAt "2023-03-02T10:00:00Z" "2023-03-04T10:00:00Z";
    encounterAt "2024-01-20T09:00:00Z" "2024-01-20T08:00:00Z" ].

(** Two patients, one with a birth date that is not a date. *)
Definition twoPatients : string :=
  obj [("resourceType", str "Patient"); ("id", str "p1"); ("birthDate", str "2000-01-01")]
  ++ nl ++
  obj [("resourceType", str "Patient"); ("id", str "p2"); ("birthDate", str "bad-date")].

(** A living patient born on 15 June 2000, as an input line, and the wall
    clock on the eve of a birthday and on the birthday. *)
Definition bornInJune : string :=
  obj [("resourceType", str "Patient"); ("id", str "p1");
       ("birthDate", str "2000-06-15")].

Definition timeOf (s : string) : Z :=
  match date_parse s with Some t => t | None => 0%Z end.

(** The least age a patient dashboard shows. *)
Definition minAge (d : App.Dashboard) : option number :=
  match d with
  | App.PatientDashboard a =>
      Some (PatientAnalytics.s_min (PatientAnalytics.ageStats a))
  | _ => None
  end.

Definition eve : World := world_at 0 (timeOf "2026-06-14T12:00:00Z").
Definition birthday : World := world_at 0 (timeOf "2026-06-15T12:00:00Z").
Definition birthdayLater : World := world_at 7 (timeOf "2026-06-15T18:30:00Z").

End Examples.

(* ================================================================== *)
(** * Properties *)
(* ================================================================== *)

(* ------------------------------------------------------------------ *)
(** ** Sorting, counting maps and buckets *)
(* ------------------------------------------------------------------ *)

Module JsFacts.
Import Js Analytics.

Section Sorting.
Context {A : Type} (cmp : A -> A -> Q).

Lemma sort_insert_perm x l : Permutation (x :: l) (sort_insert cmp x l).
Proof.
  induction l as [| y r IH]; simpl; [reflexivity |].
  destruct (Qle_bool (cmp x y) 0); [reflexivity |].
  rewrite perm_swap. now constructor.
Qed.

Lemma Array_sort_perm l : Permutation l (Array_sort cmp l).
Proof.
  induction l as [| x r IH]; simpl; [constructor |].
  rewrite <- sort_insert_perm. now constructor.
Qed.

Local Abbreviation before := (Order.before cmp).
Local Abbreviation consistent := (Order.consistent cmp).

Lemma sort_insert_sorted x l :
  consistent -> StronglySorted before l -> StronglySorted before (sort_insert cmp x l).
Proof.
  intros [Tot Tr] S. induction S as [| y r S IH F]; simpl.
  - repeat constructor.
  - destruct (Qle_bool (cmp x y) 0) eqn:C.
    + constructor; [now constructor |].
      constructor; [exact C |].
      eapply Forall_impl; [| exact F]. intros z. now apply Tr.
    + constructor; [exact IH |].
      eapply Permutation_Forall; [apply sort_insert_perm |].
      constructor; [now apply Tot | exact F].
Qed.

Lemma Array_sort_sorted l : consistent -> StronglySorted before (Array_sort cmp l).
Proof.
  intros C. induction l as [| x r IH]; simpl; [constructor |].
  now apply sort_insert_sorted.
Qed.

End Sorting.

Section Counting.
Context {K : Type} (eqb : K -> K -> bool).
Hypothesis eqb_eq : forall a b, eqb a b = true <-> a = b.

Local Abbreviation counted := (Counting.counted eqb).
Local Abbreviation total := (@Counting.total K).
Local Abbreviation occurrences := (Counting.occurrences eqb).
Local Abbreviation count_of := (Counting.count_of eqb).

Lemma Map_set_total m k v :
  total (Map_set eqb m k v) + match Map_get eqb m k with Some n => n | None => 0 end
  = total m + v.
Proof.
  unfold total. induction m as [| [k' n] r IH]; simpl; [lia |].
  destruct (eqb k' k); simpl; lia.
Qed.

Lemma count_up_total m k : total (count_up eqb m k) = S (total m).
Proof.
  unfold count_up. pose proof (Map_set_total m k
    (match Map_get eqb m k with Some n => n | None => 0 end + 1)). lia.
Qed.

Lemma counted_total ks : forall m, total (counted m ks) = total m + List.length ks.
Proof.
  induction ks as [| k r IH]; intros m; simpl; [lia |].
  unfold counted in *. rewrite IH, count_up_total. lia.
Qed.

Lemma Map_set_keys (m : list (K * nat)) k v :
  map fst (Map_set eqb m k v)
  = if existsb (fun k' => eqb k' k) (map fst m) then map fst m
    else (map fst m ++ [k])%list.
Proof.
  induction m as [| [k' n] r IH]; simpl; [reflexivity |].
  destruct (eqb k' k); simpl; [reflexivity |].
  rewrite IH. now destruct (existsb _ _).
Qed.

Lemma existsb_eqb_In k l : existsb (fun k' => eqb k' k) l = true <-> In k l.
Proof.
  rewrite existsb_exists. split.
  - intros (x & I & E). apply eqb_eq in E. now subst.
  - intros I. exists k. split; [exact I | now apply eqb_eq].
Qed.

Lemma count_up_NoDup m k : NoDup (map fst m) -> NoDup (map fst (count_up eqb m k)).
Proof.
  intros N. unfold count_up. rewrite Map_set_keys.
  destruct (existsb _ _) eqn:E; [exact N |].
  apply NoDup_app; repeat split; auto.
  - repeat constructor. intros [].
  - intros x I [<- | []]. apply existsb_eqb_In in I. congruence.
Qed.

Lemma count_up_In m k x : In x (map fst (count_up eqb m k)) <-> x = k \/ In x (map fst m).
Proof.
  unfold count_up. rewrite Map_set_keys.
  destruct (existsb _ _) eqn:E.
  - apply existsb_eqb_In in E. split; [now right | intros [-> | I]; auto].
  - rewrite in_app_iff. simpl. intuition.
Qed.

Lemma counted_NoDup ks : forall m, NoDup (map fst m) -> NoDup (map fst (counted m ks)).
Proof.
  induction ks as [| k r IH]; intros m N; simpl; [exact N |].
  apply IH. now apply count_up_NoDup.
Qed.

Lemma counted_In ks : forall m x,
  In x (map fst (counted m ks)) <-> In x ks \/ In x (map fst m).
Proof.
  induction ks as [| k r IH]; intros m x; simpl; [intuition |].
  unfold counted in *. rewrite IH, count_up_In. intuition.
Qed.

(** Every count of a map built by counting is at least one. *)
Lemma Map_set_positive m k v :
  0 < v -> Forall (fun kv => 0 < snd kv) m ->
  Forall (fun kv => 0 < snd kv) (Map_set eqb m k v).
Proof.
  intros V F. induction F as [| [k' n] r P F IH]; simpl.
  - repeat constructor. exact V.
  - destruct (eqb k' k); constructor; auto.
Qed.

Lemma counted_positive ks : forall m,
  Forall (fun kv => 0 < snd kv) m -> Forall (fun kv => 0 < snd kv) (counted m ks).
Proof.
  induction ks as [| k r IH]; intros m F; simpl; [exact F |].
  apply IH. unfold count_up. apply Map_set_positive; [lia | exact F].
Qed.

Lemma Map_get_set (m : list (K * nat)) k v k' :
  Map_get eqb (Map_set eqb m k v) k'
  = if eqb k k' then Some v else Map_get eqb m k'.
Proof.
  induction m as [| [k0 n] r IH]; simpl.
  - reflexivity.
  - destruct (eqb k0 k) eqn:E0; simpl.
    + apply eqb_eq in E0; subst k0. now destruct (eqb k k').
    + rewrite IH. destruct (eqb k0 k') eqn:E1; [| reflexivity].
      apply eqb_eq in E1; subst k0.
      destruct (eqb k k') eqn:E2; [| reflexivity].
      apply eqb_eq in E2; subst k'.
      rewrite (proj2 (eqb_eq k k) eq_refl) in E0. discriminate.
Qed.

Lemma counted_count ks : forall m k,
  count_of (counted m ks) k = count_of m k + occurrences k ks.
Proof.
  induction ks as [| k0 r IH]; intros m k; simpl.
  - unfold occurrences; simpl. lia.
  - unfold counted in *. rewrite IH. unfold count_of, count_up, occurrences.
    rewrite Map_get_set. simpl.
    destruct (eqb k0 k) eqn:E; simpl.
    + apply eqb_eq in E; subst k0. lia.
    + lia.
Qed.

End Counting.

(** Buckets: a value adds one to the first bucket that takes it, and to no
    other. *)
Lemma incr_first_sum test bs :
  sum_counts (incr_first test bs)
  = sum_counts bs + (if existsb test bs then 1 else 0).
Proof.
  induction bs as [| b r IH]; simpl; [reflexivity |].
  destruct (test b); simpl; [lia |]. rewrite IH. lia.
Qed.

Lemma filter_positive_sum bs :
  sum_counts (filter (fun b => (0 <? b_count b)%nat) bs) = sum_counts bs.
Proof.
  induction bs as [| b r IH]; simpl; [reflexivity |].
  destruct (0 <? b_count b)%nat eqn:P; simpl; rewrite IH; [reflexivity |].
  apply Nat.ltb_ge in P. lia.
Qed.

End JsFacts.

Module NdjsonParserFacts.
Import Js NdjsonParser Lines.

Section Loop.
Context `{H : Host}.

Lemma parseLine_truthy line parsed :
  parseLine line = inl parsed ->
  ToBoolean (resourceTypeOf parsed) = true.
Proof.
  unfold parseLine, resourceTypeOf.
  destruct (JSON_parse line) as [v | m]; [| discriminate].
  destruct (negb (ToBoolean v) || negb (typeof v =? "object")); [discriminate |].
  destruct (get v "resourceType") as [rt |] eqn:G; [| discriminate].
  destruct (ToBoolean rt) eqn:T; simpl; [| discriminate].
  intros E; inversion E; subst. now rewrite G.
Qed.

(** Every raw line is blank, valid or invalid. *)
Lemma step_line_count st i raw :
  l_validLines (step st i raw) + l_invalidLines (step st i raw)
  + (if isBlank raw then 1 else 0)
  = l_validLines st + l_invalidLines st + 1.
Proof.
  unfold step, isBlank.
  destruct (trim raw =? ""); [simpl; lia |].
  destruct (parseLine (trim raw)); simpl; lia.
Qed.

Lemma loop_line_count lines : forall st i,
  l_validLines (loop st i lines) + l_invalidLines (loop st i lines)
  + List.length (filter isBlank lines)
  = l_validLines st + l_invalidLines st + List.length lines.
Proof.
  induction lines as [| raw rest IH]; intros st i; simpl.
  - lia.
  - specialize (IH (step st i raw) (S i)).
    pose proof (step_line_count st i raw) as S1.
    destruct (isBlank raw); simpl; lia.
Qed.

Lemma Forall_prefix {A : Type} (P : A -> Prop) (l : list A) : forall n,
  Forall P l -> Forall P (firstn n l).
Proof.
  induction l as [| a l IH]; intros [| n] F; simpl; try constructor.
  - now inversion F.
  - apply IH. now inversion F.
Qed.

Lemma firstn_full {A : Type} (l x : list A) n :
  List.length l = n -> firstn n (l ++ x) = l.
Proof.
  intros <-. rewrite firstn_app, Nat.sub_diag, firstn_all. simpl.
  now rewrite app_nil_r.
Qed.

(** The stored diagnostics are the first fifty of all of them. *)
Lemma loop_errors lines : forall st i,
  List.length (l_errors st) <= MAX_ERRORS_STORED ->
  l_errors (loop st i lines)
  = firstn MAX_ERRORS_STORED (l_errors st ++ diagnostics i lines)%list.
Proof.
  induction lines as [| raw rest IH]; intros st i Hst; cbn [loop diagnostics].
  - rewrite app_nil_r, firstn_all2; auto.
  - unfold step, isBlank.
    destruct (trim raw =? "") eqn:B.
    + now rewrite IH.
    + destruct (parseLine (trim raw)) as [v | msg].
      * rewrite IH by exact Hst. reflexivity.
      * destruct (List.length (l_errors st) <? MAX_ERRORS_STORED)%nat eqn:Lt.
        -- rewrite IH; unfold reject; cbn [l_errors]; rewrite Lt.
           ++ now rewrite <- app_assoc.
           ++ rewrite length_app. apply Nat.ltb_lt in Lt. cbn [List.length]. lia.
        -- rewrite IH; unfold reject; cbn [l_errors]; rewrite Lt; [| exact Hst].
           apply Nat.ltb_ge in Lt.
           rewrite !firstn_full; auto; lia.
Qed.

Lemma diagnostics_length lines : forall i,
  List.length (diagnostics i lines) = List.length (filter isInvalid lines).
Proof.
  induction lines as [| raw rest IH]; intros i; simpl; [reflexivity |].
  rewrite length_app, IH. unfold isInvalid at 2.
  destruct (isBlank raw); simpl; [reflexivity |].
  destruct (parseLine (trim raw)); reflexivity.
Qed.

Lemma diagnostics_perLine lines : forall i,
  Forall (fun e => isPerLine e = true) (diagnostics i lines).
Proof.
  induction lines as [| raw rest IH]; intros i; simpl; [constructor |].
  apply Forall_app; split; [| apply IH].
  destruct (isBlank raw); [constructor |].
  destruct (parseLine (trim raw)); constructor; [| constructor].
  unfold isPerLine; cbn [lineNumber diagnostic]. apply Nat.leb_le. lia.
Qed.

Lemma loop_invalid lines : forall st i,
  l_invalidLines (loop st i lines)
  = l_invalidLines st + List.length (filter isInvalid lines).
Proof.
  induction lines as [| raw rest IH]; intros st i; simpl; [lia |].
  rewrite IH. unfold step, isInvalid, isBlank.
  destruct (trim raw =? ""); simpl; [lia |].
  destruct (parseLine (trim raw)); simpl; lia.
Qed.

Lemma loop_resources lines : forall st i,
  l_resources (loop st i lines) = (l_resources st ++ parsedRecords lines)%list.
Proof.
  induction lines as [| raw rest IH]; intros st i; simpl.
  - now rewrite app_nil_r.
  - rewrite IH. unfold step, isBlank.
    destruct (trim raw =? ""); simpl; [reflexivity |].
    destruct (parseLine (trim raw)); simpl; [| reflexivity].
    now rewrite <- app_assoc.
Qed.

Lemma loop_valid lines : forall st i,
  l_validLines (loop st i lines)
  = l_validLines st + List.length (parsedRecords lines).
Proof.
  induction lines as [| raw rest IH]; intros st i; simpl; [lia |].
  rewrite IH, length_app. unfold step, isBlank.
  destruct (trim raw =? ""); simpl; [lia |].
  destruct (parseLine (trim raw)); simpl; lia.
Qed.

(** Once set, the detected type stays, and later records are only
    counted against it. *)
Lemma loop_detected_set lines : forall st i d,
  detectedResourceType st = Some d ->
  detectedResourceType (loop st i lines) = Some d /\
  resourceTypeMismatchCount (loop st i lines)
  = resourceTypeMismatchCount st
    + List.length (filter (fun r => negb (strictEquals (resourceTypeOf r) d))
                          (parsedRecords lines)).
Proof.
  induction lines as [| raw rest IH]; intros st i d Hd; simpl.
  - split; [exact Hd | lia].
  - unfold step, isBlank.
    destruct (trim raw =? ""); simpl; [now apply IH |].
    destruct (parseLine (trim raw)) as [v | msg]; simpl.
    + destruct (IH (accept st v) (S i) d) as [D M].
      { unfold accept; simpl. now rewrite Hd. }
      split; [exact D |]. rewrite M. unfold accept; simpl. rewrite Hd.
      destruct (negb (strictEquals (resourceTypeOf v) d)); simpl; lia.
    + destruct (IH (reject st (i + 1) (trim raw) msg) (S i) d) as [D M];
        [exact Hd |]. split; [exact D |]. rewrite M. reflexivity.
Qed.

Lemma loop_detected_unset lines : forall st i,
  detectedResourceType st = None ->
  detectedResourceType (loop st i lines)
  = option_map resourceTypeOf (hd_error (parsedRecords lines)) /\
  resourceTypeMismatchCount (loop st i lines)
  = resourceTypeMismatchCount st + mismatches (parsedRecords lines).
Proof.
  induction lines as [| raw rest IH]; intros st i Hd; simpl.
  - split; [exact Hd | unfold mismatches; simpl; lia].
  - unfold step, isBlank.
    destruct (trim raw =? ""); simpl; [now apply IH |].
    destruct (parseLine (trim raw)) as [v | msg]; simpl.
    + destruct (loop_detected_set rest (accept st v) (S i) (resourceTypeOf v))
        as [D M].
      { unfold accept; simpl. now rewrite Hd. }
      split; [exact D |]. rewrite M. unfold accept; simpl. now rewrite Hd.
    + destruct (IH (reject st (i + 1) (trim raw) msg) (S i) Hd) as [D M].
      split; [exact D | rewrite M; reflexivity].
Qed.

Lemma parsedRecords_truthy lines :
  Forall (fun r => ToBoolean (resourceTypeOf r) = true) (parsedRecords lines).
Proof.
  induction lines as [| raw rest IH]; simpl; [constructor |].
  apply Forall_app; split; [| exact IH].
  destruct (isBlank raw); [constructor |].
  destruct (parseLine (trim raw)) eqn:P; constructor; [| constructor].
  eapply parseLine_truthy; eauto.
Qed.

Lemma split_nonempty sep s : split sep s <> [].
Proof.
  destruct s as [| c r]; simpl; [discriminate |].
  destruct (Ascii.eqb c sep); [discriminate |].
  destruct (split sep r); discriminate.
Qed.

(** A line feed between two texts separates their lines. *)
Lemma split_app sep a b :
  split sep (a ++ String sep b) = (split sep a ++ split sep b)%list.
Proof.
  induction a as [| c r IH]; simpl.
  - now rewrite Ascii.eqb_refl.
  - destruct (Ascii.eqb c sep); rewrite IH; [reflexivity |].
    pose proof (split_nonempty sep r) as N.
    destruct (split sep r); [contradiction | reflexivity].
Qed.

Lemma parsedRecords_app l1 l2 :
  parsedRecords (l1 ++ l2) = (parsedRecords l1 ++ parsedRecords l2)%list.
Proof. unfold parsedRecords. apply flat_map_app. Qed.

Lemma parseNdjson_fst input w :
  fst (parseNdjson input w)
  = finish (split LF input) (loop init 0 (split LF input))
      (perf_clock w (S (perf_reads w)) - perf_clock w (perf_reads w))%Q.
Proof. reflexivity. Qed.

Lemma init_detected lines :
  detectedResourceType (loop init 0 lines) = firstKind lines /\
  resourceTypeMismatchCount (loop init 0 lines) = mismatches (parsedRecords lines).
Proof.
  destruct (loop_detected_unset lines init 0 eq_refl) as [D M].
  split; [exact D | exact M].
Qed.

Lemma firstKind_truthy lines d : firstKind lines = Some d -> ToBoolean d = true.
Proof.
  unfold firstKind. pose proof (parsedRecords_truthy lines) as T.
  destruct (parsedRecords lines) as [| first later]; simpl; [discriminate |].
  intros E; inversion E; subst. now inversion T.
Qed.

(** What the statements after the loop return, and when they return
    nothing. *)
Lemma finish_result lines elapsed :
  let st := loop init 0 lines in
  match finish lines st elapsed with
  | Some r =>
      resources r = parsedRecords lines /\
      resourceType r = match firstKind lines with
                       | Some d => d
                       | None => JStr "Unknown"
                       end /\
      totalLines r = List.length lines /\
      validLines r = l_validLines st /\
      invalidLines r = l_invalidLines st /\
      Some (errors r)
      = (if (0 <? mismatches (parsedRecords lines))%nat &&
            (List.length (l_errors st) <? MAX_ERRORS_STORED)%nat
         then option_map (fun warning => warning :: l_errors st)
                (mismatchWarning (mismatches (parsedRecords lines)) (firstKind lines))
         else Some (l_errors st))
  | None => exists d, firstKind lines = Some d /\ ToString d = None
  end.
Proof.
  cbv zeta. unfold finish.
  destruct (init_detected lines) as [D M]. rewrite D, M.
  rewrite loop_resources. cbn [init l_resources app].
  unfold mismatchWarning, fileName.
  destruct (firstKind lines) as [d |] eqn:K.
  - rewrite (firstKind_truthy lines d K).
    destruct (ToString d) as [kind |] eqn:T.
    + destruct ((0 <? _)%nat && _); cbn; repeat split; reflexivity.
    + destruct ((0 <? _)%nat && _); exists d; split; reflexivity || exact T.
  - destruct ((0 <? _)%nat && _); cbn; repeat split; reflexivity.
Qed.

(** [parseNdjson] returns a result unless the detected type cannot be
    converted to a string; it always does when that type is a string. *)
Lemma parseNdjson_returns input w :
  fst (parseNdjson input w) = None <-> throwsTypeError input.
Proof.
  rewrite parseNdjson_fst. unfold throwsTypeError. split.
  - intros N. pose proof (finish_result (split LF input)
      (perf_clock w (S (perf_reads w)) - perf_clock w (perf_reads w))%Q) as R.
    cbv zeta in R. now rewrite N in R.
  - intros (d & K & T). unfold finish.
    destruct (init_detected (split LF input)) as [D _]. rewrite D, K.
    unfold fileName, mismatchWarning.
    rewrite (firstKind_truthy _ d K), T.
    now destruct ((0 <? _)%nat && _).
Qed.

Lemma errors_stored input w r :
  fst (parseNdjson input w) = Some r ->
  let lines := split LF input in
  let stored := firstn MAX_ERRORS_STORED (diagnostics 0 lines) in
  List.length stored <= 50 /\
  Some (errors r)
  = (if (0 <? mismatches (parsedRecords lines))%nat &&
        (List.length stored <? MAX_ERRORS_STORED)%nat
     then option_map (fun warning => warning :: stored)
            (mismatchWarning (mismatches (parsedRecords lines)) (firstKind lines))
     else Some stored).
Proof.
  intros R. cbv zeta. rewrite parseNdjson_fst in R.
  pose proof (finish_result (split LF input)
    (perf_clock w (S (perf_reads w)) - perf_clock w (perf_reads w))%Q) as F.
  cbv zeta in F. rewrite R in F. destruct F as (_ & _ & _ & _ & _ & E).
  rewrite loop_errors in E by (cbn; unfold MAX_ERRORS_STORED; lia).
  cbn [init l_errors app] in E.
  split; [| exact E].
  rewrite length_firstn; unfold MAX_ERRORS_STORED; lia.
Qed.

Lemma invalidLines_total input w r :
  fst (parseNdjson input w) = Some r -> invalidLines r = invalidTotal input.
Proof.
  intros R. rewrite parseNdjson_fst in R.
  pose proof (finish_result (split LF input)
    (perf_clock w (S (perf_reads w)) - perf_clock w (perf_reads w))%Q) as F.
  cbv zeta in F. rewrite R in F. destruct F as (_ & _ & _ & _ & I & _).
  rewrite I, loop_invalid. reflexivity.
Qed.

(** C3 (line accounting).  For every input, the result that [parseNdjson]
    returns has for [totalLines] the number of raw lines, which is the sum
    of the blank lines (empty or all white space after trimming),
    [validLines] and [invalidLines]; a blank line is neither among the
    lines counted valid (those that give a resource) nor among those
    counted invalid.  No result is returned only when the detected type
    cannot be converted to a string. *)
Theorem parseNdjson_line_accounting input w :
  match fst (parseNdjson input w) with
  | Some r =>
      totalLines r = List.length (split LF input) /\
      totalLines r = blankLines input + validLines r + invalidLines r /\
      validLines r = List.length (parsedRecords (split LF input)) /\
      invalidLines r = invalidTotal input
  | None => throwsTypeError input
  end.
Proof.
  destruct (fst (parseNdjson input w)) as [r |] eqn:R;
    [| now apply (parseNdjson_returns input w)].
  rewrite parseNdjson_fst in R.
  pose proof (finish_result (split LF input)
    (perf_clock w (S (perf_reads w)) - perf_clock w (perf_reads w))%Q) as F.
  cbv zeta in F. rewrite R in F. destruct F as (_ & _ & T & V & I & _).
  rewrite T, V, I.
  pose proof (loop_line_count (split LF input) init 0) as C.
  rewrite loop_valid, loop_invalid in *. unfold blankLines, invalidTotal.
  cbn [init l_validLines l_invalidLines] in *.
  repeat split; lia.
Qed.

(** C9 (diagnostic cap).  For every input the [errors] sequence of the
    result returned has at most 50 entries, the summary of kind mismatches
    included: it is the first 50 per-line diagnostics, with the summary in
    front only when a mismatch was counted and fewer than 50 diagnostics
    are stored.  No result is returned only when the detected type cannot
    be converted to a string. *)
Theorem parseNdjson_errors_capped input w :
  let lines := split LF input in
  let stored := firstn MAX_ERRORS_STORED (diagnostics 0 lines) in
  match fst (parseNdjson input w) with
  | Some r =>
      List.length (errors r) <= 50 /\
      Some (errors r)
      = (if (0 <? mismatches (parsedRecords lines))%nat &&
            (List.length stored <? MAX_ERRORS_STORED)%nat
         then option_map (fun warning => warning :: stored)
                (mismatchWarning (mismatches (parsedRecords lines)) (firstKind lines))
         else Some stored)
  | None => throwsTypeError input
  end.
Proof.
  cbv zeta. destruct (fst (parseNdjson input w)) as [r |] eqn:R;
    [| now apply (parseNdjson_returns input w)].
  destruct (errors_stored input w r R) as [L E]. cbv zeta in L, E.
  split; [| exact E].
  set (stored := firstn MAX_ERRORS_STORED (diagnostics 0 (split LF input))) in *.
  destruct (0 <? mismatches (parsedRecords (split LF input)))%nat; cbn [andb] in E;
    [| assert (errors r = stored) as -> by congruence; exact L].
  destruct (List.length stored <? MAX_ERRORS_STORED)%nat eqn:Lt;
    [| assert (errors r = stored) as -> by congruence; exact L].
  destruct (mismatchWarning _ _) as [warning |]; [| discriminate].
  cbn [option_map] in E.
  assert (errors r = warning :: stored) as -> by congruence.
  apply Nat.ltb_lt in Lt. unfold MAX_ERRORS_STORED in Lt.
  cbn [List.length]. lia.
Qed.

(** C2 (detected kind).  For every input, in the result returned:
    [resources] holds every record that parsed, in line order, whatever
    its [resourceType]; the [resourceType] is that of the first of them, or
    the string "Unknown" when there is none; the same input followed by
    any further lines returns a result with the same [resourceType]; and a
    later record of another [resourceType] only adds to the mismatch
    counter.  No result is returned only when the detected type cannot be
    converted to a string. *)
Theorem parseNdjson_detected_kind input w :
  let lines := split LF input in
  match fst (parseNdjson input w) with
  | Some r =>
      resources r = parsedRecords lines /\
      resourceType r = match resources r with
                       | [] => JStr "Unknown"
                       | first :: _ => resourceTypeOf first
                       end /\
      resourceTypeMismatchCount (loop init 0 lines) = mismatches (resources r) /\
      (forall later w',
          resources r <> [] ->
          exists r', fst (parseNdjson (input ++ String LF later) w') = Some r' /\
                     resourceType r' = resourceType r)
  | None => throwsTypeError input
  end.
Proof.
  cbv zeta. destruct (fst (parseNdjson input w)) as [r |] eqn:R;
    [| now apply (parseNdjson_returns input w)].
  pose proof R as R0. rewrite parseNdjson_fst in R.
  pose proof (finish_result (split LF input)
    (perf_clock w (S (perf_reads w)) - perf_clock w (perf_reads w))%Q) as F.
  cbv zeta in F. rewrite R in F. destruct F as (Rs & Rt & _).
  rewrite Rs, Rt. unfold firstKind.
  repeat split.
  - now destruct (parsedRecords (split LF input)).
  - apply init_detected.
  - intros later w' NE.
    destruct (fst (parseNdjson (input ++ String LF later) w')) as [r' |] eqn:R'.
    + exists r'. split; [reflexivity |].
      rewrite parseNdjson_fst in R'.
      pose proof (finish_result (split LF (input ++ String LF later))
        (perf_clock w' (S (perf_reads w')) - perf_clock w' (perf_reads w'))%Q) as F'.
      cbv zeta in F'. rewrite R' in F'. destruct F' as (_ & Rt' & _).
      rewrite Rt'. unfold firstKind. rewrite split_app, parsedRecords_app.
      now destruct (parsedRecords (split LF input)).
    + exfalso. apply (parseNdjson_returns _ w') in R'.
      destruct R' as (d & K & T).
      unfold firstKind in K. rewrite split_app, parsedRecords_app in K.
      assert (fst (parseNdjson input w) = None) as N.
      { apply parseNdjson_returns. exists d. split; [| exact T].
        unfold firstKind.
        destruct (parsedRecords (split LF input)); [contradiction | exact K]. }
      congruence.
Qed.


End Loop.



(** The detected kind of a Patient-first input stays when an Observation
    line is added. *)
Lemma parseNdjson_detected_kind_witness :
  exists r r',
    fst (parseNdjson (H := ReferenceHost.host) Examples.mixed Examples.w0) = Some r /\
    fst (parseNdjson (H := ReferenceHost.host)
           (Examples.mixed ++ String LF Examples.observation) Examples.w0) = Some r' /\
    resourceType r' = resourceType r.
Proof.
  pose proof (parseNdjson_detected_kind (H := ReferenceHost.host)
                Examples.mixed Examples.w0) as T.
  cbv zeta in T.
  destruct (fst (parseNdjson (H := ReferenceHost.host) Examples.mixed Examples.w0))
    as [r |] eqn:R; [| vm_compute in R; discriminate].
  destruct T as (Rs & _ & _ & Later).
  destruct (Later Examples.observation Examples.w0) as (r' & R' & E).
  - rewrite Rs. vm_compute. discriminate.
  - exists r, r'. repeat split; assumption.
Defined.

End NdjsonParserFacts.

(* ------------------------------------------------------------------ *)
(** ** Distributions *)
(* ------------------------------------------------------------------ *)

Module DistributionFacts.
Import Js Analytics JsFacts.

Lemma patient_createDistribution counts :
  PatientAnalytics.createDistribution counts
  = EncounterAnalytics.createDistribution counts.
Proof. reflexivity. Qed.

Section Distribution.
Context {L : Type}.
Implicit Types (counts : list (L * nat)) (d : list (DistributionItem L)).

Lemma fold_left_add l : forall n, fold_left (fun a b => a + b) l n = n + list_sum l.
Proof.
  induction l as [| x r IH]; intros n; simpl; [lia |]. rewrite IH. lia.
Qed.



Local Abbreviation shares := (@Counting.shares L).

Lemma createDistribution_perm counts :
  Permutation (shares (Counting.total counts) counts)
              (EncounterAnalytics.createDistribution counts).
Proof.
  unfold EncounterAnalytics.createDistribution.
  rewrite fold_left_add. simpl. apply Array_sort_perm.
Qed.

Lemma createDistribution_length counts :
  List.length (EncounterAnalytics.createDistribution counts) = List.length counts.
Proof.
  rewrite <- (Permutation_length (createDistribution_perm counts)).
  unfold shares. apply length_map.
Qed.






End Distribution.
End DistributionFacts.

(* ------------------------------------------------------------------ *)
(** ** The patient analyzer *)
(* ------------------------------------------------------------------ *)

Module PatientFacts.
Import Js Fhir Analytics PatientAnalytics Population JsFacts.

Lemma string_eqb_eq : forall a b : string, (a =? b) = true <-> a = b.
Proof. intros a b. apply String.eqb_eq. Qed.

Lemma tally_counted m v : tally m v = Counting.counted String.eqb m (present v).
Proof.
  unfold tally, present. destruct v as [s |]; [| reflexivity].
  now destruct (negb (s =? "")).
Qed.

Lemma counted_app {K : Type} (eqb : K -> K -> bool) m (a b : list K) :
  Counting.counted eqb m (a ++ b)
  = Counting.counted eqb (Counting.counted eqb m a) b.
Proof. unfold Counting.counted. apply fold_left_app. Qed.

Section Loop.
Context `{H : Host}.

(** What the loop leaves in its maps, counters and arrays. *)
Lemma patient_loop_state patients : forall st w,
  let st' := fst (loop st patients w) in
  genderCounts st' = Counting.counted String.eqb (genderCounts st) (gendersOf patients) /\
  raceCounts st' = Counting.counted String.eqb (raceCounts st) (racesOf patients) /\
  ethnicityCounts st'
  = Counting.counted String.eqb (ethnicityCounts st) (ethnicitiesOf patients) /\
  stateCounts st' = Counting.counted String.eqb (stateCounts st) (statesOf patients) /\
  cityCounts st' = Counting.counted String.eqb (cityCounts st) (citiesOf patients) /\
  ages st' = (ages st ++ agesOf patients w)%list /\
  l_deceasedCount st' = l_deceasedCount st + List.length (filter isDeceased patients) /\
  l_livingCount st'
  = l_livingCount st + List.length (filter (fun p => negb (isDeceased p)) patients).
Proof.
  induction patients as [| p rest IH]; intros st w; cbn [loop].
  - cbn. rewrite app_nil_r. repeat split; lia.
  - unfold step. cbn [agesOf].
    destruct (calculateAge (birthDate p) (deceasedDateTime p) w) as [age w'].
    specialize (IH (body st p age) w'). cbv zeta in IH |- *.
    destruct IH as (G & R & E & S & C & A & D & L).
    rewrite G, R, E, S, C, A, D, L. clear G R E S C A D L.
    unfold gendersOf, racesOf, ethnicitiesOf, statesOf, citiesOf.
    cbn [flat_map filter body genderCounts raceCounts ethnicityCounts stateCounts
         cityCounts ages l_deceasedCount l_livingCount].
    rewrite !counted_app, !tally_counted.
    repeat split.
    + destruct (primaryAddress p); [now rewrite tally_counted | reflexivity].
    + destruct (primaryAddress p); [now rewrite tally_counted | reflexivity].
    + destruct age; [now rewrite <- app_assoc | reflexivity].
    + destruct (isDeceased p); cbn [negb List.length]; lia.
    + destruct (isDeceased p); cbn [negb List.length]; lia.
Qed.

Lemma analyzePatients_fst patients w :
  fst (analyzePatients patients w)
  = let st := fst (loop init patients w) in
    {| totalPatients := List.length patients;
       uniqueIds := uniqueCount (map p_id patients);
       genderDistribution := createDistribution (genderCounts st);
       ageDistribution := createAgeHistogram (ages st);
       ageStats := calculateStats (ages st);
       raceDistribution := createDistribution (raceCounts st);
       ethnicityDistribution := createDistribution (ethnicityCounts st);
       stateDistribution := slice0 15 (createDistribution (stateCounts st));
       cityDistribution := slice0 20 (createDistribution (cityCounts st));
       livingCount := l_livingCount st;
       deceasedCount := l_deceasedCount st;
       mortalityRate :=
         if (0 <? List.length patients)%nat
         then ((inject_Z (Z.of_nat (l_deceasedCount st)) /
                inject_Z (Z.of_nat (List.length patients))) * 100)%Q
         else 0%Q;
       birthDateRange := dateRange (birthDates st);
       missingBirthDate := l_missingBirthDate st;
       missingGender := l_missingGender st;
       missingAddress := l_missingAddress st |}.
Proof.
  unfold analyzePatients. now destruct (loop init patients w).
Qed.

Lemma filter_partition {A : Type} (f : A -> bool) l :
  List.length (filter f l) + List.length (filter (fun x => negb (f x)) l)
  = List.length l.
Proof.
  induction l as [| x r IH]; simpl; [reflexivity |].
  destruct (f x); simpl; lia.
Qed.

(** C10 (mortality partition).  For every list of patient records, every
    record is counted once, as deceased when [deceasedBoolean] is true or
    [deceasedDateTime] is a non-empty string and as living otherwise, so
    [livingCount + deceasedCount = totalPatients]. *)
Theorem analyzePatients_living_deceased patients w :
  let a := fst (analyzePatients patients w) in
  livingCount a + deceasedCount a = totalPatients a /\
  deceasedCount a = List.length (filter isDeceased patients) /\
  livingCount a = List.length (filter (fun p => negb (isDeceased p)) patients).
Proof.
  cbv zeta. rewrite analyzePatients_fst. cbv zeta.
  cbn [livingCount deceasedCount totalPatients].
  destruct (patient_loop_state patients init w) as (_ & _ & _ & _ & _ & _ & D & L).
  cbv zeta in D, L. rewrite D, L. cbn [init l_deceasedCount l_livingCount].
  pose proof (filter_partition isDeceased patients). lia.
Qed.

End Loop.
End PatientFacts.

(* ------------------------------------------------------------------ *)
(** ** Histograms *)
(* ------------------------------------------------------------------ *)

Module HistogramFacts.
Import Js Fhir Analytics JsFacts.

(** The bucket [b] takes the value [x]: closed and half-open matching. *)
Local Abbreviation closed := (fun (x : number) (b : HistogramBucket) =>
                                Qle_bool (min b) x && le_max x b).
Local Abbreviation half_open := (fun (x : number) (b : HistogramBucket) =>
                                   Qle_bool (min b) x && lt_max x b).

Lemma existsb_incr_first (t t' : HistogramBucket -> bool) bs :
  (forall b, t (count_incr b) = t b) ->
  existsb t (incr_first t' bs) = existsb t bs.
Proof.
  intros C. induction bs as [| b r IH]; simpl; [reflexivity |].
  destruct (t' b); simpl; [now rewrite C | now rewrite IH].
Qed.

(** The counts of a histogram add up to the number of values that some
    bucket takes: each such value adds one to one bucket. *)
Lemma histogram_sum (test : number -> HistogramBucket -> bool) xs :
  (forall x b, test x (count_incr b) = test x b) ->
  forall bs,
    sum_counts (fold_left (fun buckets x => incr_first (test x) buckets) xs bs)
    = sum_counts bs + List.length (filter (fun x => existsb (test x) bs) xs).
Proof.
  intros C. induction xs as [| x r IH]; intros bs; simpl; [lia |].
  rewrite IH, incr_first_sum.
  rewrite (filter_ext _ (fun y => existsb (test y) bs)).
  - destruct (existsb (test x) bs); simpl; lia.
  - intros y. apply existsb_incr_first. apply C.
Qed.

Lemma Qle_bool_inject a b : Qle_bool (inject_Z a) (inject_Z b) = (a <=? b)%Z.
Proof.
  unfold Qle_bool, inject_Z; simpl. now rewrite !Z.mul_1_r.
Qed.

(** Some bucket takes a value exactly when the number of its takers is
    not zero. *)
Lemma existsb_takers test bs :
  existsb test bs = negb (Counting.takers test bs =? 0)%nat.
Proof.
  unfold Counting.takers. induction bs as [| b r IH]; simpl; [reflexivity |].
  destruct (test b); simpl; [reflexivity | exact IH].
Qed.

(** A property checked on the whole numbers below [n] holds of each. *)
Lemma below_checked (p : Z -> bool) n :
  forallb p (map Z.of_nat (seq 0 n)) = true ->
  forall z, (0 <= z < Z.of_nat n)%Z -> p z = true.
Proof.
  intros C z R. rewrite forallb_forall in C. apply C.
  apply in_map_iff. exists (Z.to_nat z). split; [lia |].
  apply in_seq. lia.
Qed.

(** A whole bound is below [x] exactly when it is below the floor of [x]. *)
Lemma Qle_bool_floor c x : Qle_bool (inject_Z c) x = (c <=? Qfloor x)%Z.
Proof.
  destruct (Z.leb_spec c (Qfloor x)) as [L | G].
  - apply Qle_bool_iff. apply Qle_trans with (inject_Z (Qfloor x)).
    + now rewrite <- Zle_Qle.
    + apply Qfloor_le.
  - apply not_true_is_false. rewrite Qle_bool_iff. intros L.
    apply Qfloor_resp_le in L. rewrite Qfloor_Z in L. lia.
Qed.

Ltac decide_leb :=
  repeat match goal with
         | |- context [(?a <=? ?b)%Z] =>
             first [ rewrite (proj2 (Z.leb_le a b)) by lia
                   | rewrite (proj2 (Z.leb_gt a b)) by lia ]
         end.

(** An age up to 120 is in exactly one of the ten buckets (the ages below
    121 are checked one by one); an age above 120 is in none. *)
Lemma age_once z :
  (0 <= z)%Z ->
  Counting.takers (closed (inject_Z z)) PatientAnalytics.age_buckets
  = if (z <=? 120)%Z then 1 else 0.
Proof.
  intros NN. destruct (Z.leb_spec z 120) as [L | G].
  - apply Nat.eqb_eq.
    apply (below_checked
             (fun z => Counting.takers (closed (inject_Z z))
                                       PatientAnalytics.age_buckets =? 1)%nat
             121); [vm_compute; reflexivity | lia].
  - unfold Counting.takers, PatientAnalytics.age_buckets, bucket, le_max.
    cbn [filter min max option_map]. rewrite !Qle_bool_inject.
    decide_leb; reflexivity.
Qed.

(** A count of encounters, at least one, is in exactly one of the seven
    buckets. *)
Lemma perPatient_once z :
  (1 <= z)%Z ->
  Counting.takers (closed (inject_Z z)) EncounterAnalytics.perPatient_buckets = 1.
Proof.
  intros P. destruct (Z_lt_le_dec z 101) as [L | G].
  - assert ((z =? 0)%Z ||
            (Counting.takers (closed (inject_Z z))
                             EncounterAnalytics.perPatient_buckets =? 1)%nat
            = true) as C.
    { apply (below_checked
               (fun z => (z =? 0)%Z ||
                         (Counting.takers (closed (inject_Z z))
                                          EncounterAnalytics.perPatient_buckets =? 1)%nat)
               101); [vm_compute; reflexivity | lia]. }
    rewrite (proj2 (Z.eqb_neq z 0)) in C by lia. now apply Nat.eqb_eq.
  - unfold Counting.takers, EncounterAnalytics.perPatient_buckets, bucket, le_max.
    cbn [filter min max option_map]. rewrite !Qle_bool_inject.
    decide_leb; reflexivity.
Qed.

(** A whole number of hours, not negative, is in exactly one of the ten
    buckets. *)
Lemma los_whole_once z :
  (0 <= z)%Z ->
  Counting.takers (half_open (inject_Z z)) EncounterAnalytics.los_buckets = 1.
Proof.
  intros NN. destruct (Z_lt_le_dec z 720) as [L | G].
  - apply Nat.eqb_eq.
    apply (below_checked
             (fun z => Counting.takers (half_open (inject_Z z))
                                       EncounterAnalytics.los_buckets =? 1)%nat
             720); [vm_compute; reflexivity | lia].
  - unfold Counting.takers, EncounterAnalytics.los_buckets, bucket, lt_max, Qltb.
    cbn [filter min max option_map]. rewrite !Qle_bool_inject.
    decide_leb; reflexivity.
Qed.

(** A length of stay, not negative, is in exactly one of the ten buckets:
    the bounds are whole, so the buckets take it as they take its floor. *)
Lemma los_once x :
  (0 <= x)%Q ->
  Counting.takers (half_open x) EncounterAnalytics.los_buckets = 1.
Proof.
  intros NN.
  assert (0 <= Qfloor x)%Z as F by (apply Qfloor_resp_le in NN; exact NN).
  apply los_whole_once in F. revert F.
  unfold Counting.takers, EncounterAnalytics.los_buckets, bucket, lt_max, Qltb.
  cbn [filter min max option_map].
  rewrite !Qle_bool_inject, !Qle_bool_floor. trivial.
Qed.

End HistogramFacts.

(* ------------------------------------------------------------------ *)
(** ** The encounter analyzer *)
(* ------------------------------------------------------------------ *)

Module EncounterFacts.
Import Js Fhir Analytics EncounterAnalytics Population Visits JsFacts.

Lemma count_present m v :
  (if truthy v then count_up String.eqb m (the v) else m)
  = Counting.counted String.eqb m (present v).
Proof.
  unfold truthy, present, the. destruct v as [s |]; [| reflexivity].
  now destruct (negb (s =? "")).
Qed.

Lemma append_nonempty a c b : (a ++ String c b =? "") = false.
Proof. destruct a; reflexivity. Qed.

Section Loop.
Context `{H : Host}.

Lemma toMonthKey_valid s :
  match Date_parse s with
  | Some _ => exists k, toMonthKey s = Some k /\ (k =? "") = false
  | None => toMonthKey s = None
  end.
Proof.
  unfold toMonthKey. destruct (Date_parse s) as [t |]; [| reflexivity].
  eexists. split; [reflexivity |]. apply append_nonempty.
Qed.

Lemma step_monthCounts st e :
  monthCounts (step st e)
  = Counting.counted String.eqb (monthCounts st) (monthKeysOf [e]).
Proof.
  unfold step, monthKeysOf. cbn [monthCounts flat_map]. rewrite app_nil_r.
  destruct (truthy (periodStart e)); [| reflexivity].
  pose proof (toMonthKey_valid (the (periodStart e))) as V.
  destruct (Date_parse (the (periodStart e))).
  - destruct V as (k & -> & NE). now rewrite NE.
  - now rewrite V.
Qed.

(** What the loop leaves in its maps, counters and arrays. *)
Lemma encounter_loop_state encounters : forall st,
  let st' := loop st encounters in
  classCounts st' = Counting.counted Display_eqb (classCounts st) (classesOf encounters) /\
  typeCounts st' = Counting.counted String.eqb (typeCounts st) (typesOf encounters) /\
  statusCounts st' = Counting.counted String.eqb (statusCounts st) (statusesOf encounters) /\
  monthCounts st' = Counting.counted String.eqb (monthCounts st) (monthKeysOf encounters) /\
  patientCounts st'
  = Counting.counted String.eqb (patientCounts st) (patientIdsOf encounters) /\
  losHours st' = (losHours st ++ losOf encounters)%list /\
  l_missingPeriodStart st'
  = l_missingPeriodStart st + List.length (filter startMissing encounters) /\
  l_missingClass st'
  = l_missingClass st
    + List.length (filter (fun e => match class e with None => true | Some _ => false end)
                          encounters).
Proof.
  induction encounters as [| e rest IH]; intros st; cbn [loop fold_left].
  - cbn. rewrite app_nil_r. repeat split; lia.
  - specialize (IH (step st e)). unfold loop in IH. cbv zeta in IH |- *.
    destruct IH as (C & T & S & M & P & L & MS & MC).
    rewrite C, T, S, M, P, L, MS, MC. clear C T S M P L MS MC.
    rewrite step_monthCounts.
    unfold classesOf, typesOf, statusesOf, monthKeysOf, patientIdsOf, losOf.
    cbn [flat_map map filter].
    rewrite app_nil_r, !PatientFacts.counted_app.
    unfold step. cbn [classCounts typeCounts statusCounts patientCounts losHours
                      l_missingPeriodStart l_missingClass].
    rewrite !count_present.
    repeat split.
    + now destruct (class e).
    + destruct (calculateLengthOfStay (periodStart e) (periodEnd e));
        [now rewrite <- app_assoc | reflexivity].
    + unfold startMissing. destruct (truthy (periodStart e)); cbn [negb List.length]; lia.
    + destruct (class e); cbn [List.length]; lia.
Qed.

(** What [getClassDisplay] resolves to, case by case. *)
Lemma getClassDisplay_display e c :
  class e = Some c -> truthy (display c) = true ->
  getClassDisplay e = Text (the (display c)).
Proof. intros C D. unfold getClassDisplay. now rewrite C, D. Qed.

Lemma getClassDisplay_table e c friendly :
  class e = Some c -> truthy (display c) = false -> truthy (code c) = true ->
  assoc (the (code c)) codeMap = Some friendly ->
  getClassDisplay e = Text friendly.
Proof.
  intros C D K A. unfold getClassDisplay, codeMap_get. now rewrite C, D, K, A.
Qed.

Lemma getClassDisplay_raw e c :
  class e = Some c -> truthy (display c) = false -> truthy (code c) = true ->
  assoc (the (code c)) codeMap = None ->
  ~ In (the (code c)) Object_prototype_names ->
  getClassDisplay e = Text (the (code c)).
Proof.
  intros C D K A N. unfold getClassDisplay, codeMap_get. rewrite C, D, K, A.
  destruct (existsb (String.eqb (the (code c))) Object_prototype_names) eqn:E;
    [| reflexivity].
  apply existsb_exists in E. destruct E as (x & I & E).
  apply String.eqb_eq in E. subst x. contradiction.
Qed.

Lemma getClassDisplay_inherited e c :
  class e = Some c -> truthy (display c) = false -> truthy (code c) = true ->
  In (the (code c)) Object_prototype_names ->
  getClassDisplay e = Inherited (the (code c)).
Proof.
  intros C D K I. unfold getClassDisplay, codeMap_get. rewrite C, D, K.
  assert (assoc (the (code c)) codeMap = None) as A.
  { simpl in I.
    repeat (destruct I as [<- | I]; [reflexivity |]). contradiction. }
  rewrite A.
  replace (existsb (String.eqb (the (code c))) Object_prototype_names) with true;
    [reflexivity |].
  symmetry. apply existsb_exists. exists (the (code c)).
  split; [exact I | apply String.eqb_refl].
Qed.

Lemma getClassDisplay_unknown e :
  class e = None -> getClassDisplay e = Text "Unknown".
Proof. intros C. unfold getClassDisplay. now rewrite C. Qed.

Lemma analyzeEncounters_missingClass encounters :
  missingClass (analyzeEncounters encounters)
  = List.length (filter (fun e => match class e with None => true | Some _ => false end)
                        encounters).
Proof.
  unfold analyzeEncounters. cbn [missingClass].
  destruct (encounter_loop_state encounters init) as (_ & _ & _ & _ & _ & _ & _ & MC).
  cbv zeta in MC. now rewrite MC.
Qed.

End Loop.
End EncounterFacts.

(* ------------------------------------------------------------------ *)
(** ** Distribution closure and bucket coverage of the analyzers *)
(* ------------------------------------------------------------------ *)

Module AnalyzerFacts.
Import Js Fhir Analytics Population Visits JsFacts DistributionFacts HistogramFacts.

Lemma counted_distinct ks :
  List.length (Counting.counted String.eqb [] ks) = distinct ks.
Proof.
  unfold distinct. rewrite <- (length_map fst).
  apply Permutation_length, NoDup_Permutation.
  - apply counted_NoDup; [apply PatientFacts.string_eqb_eq | constructor].
  - apply NoDup_nodup.
  - intros x. rewrite nodup_In, counted_In by apply PatientFacts.string_eqb_eq.
    simpl. tauto.
Qed.

Lemma counted_nil_positive {K : Type} (eqb : K -> K -> bool) ks :
  Forall (fun kv => 0 < snd kv) (Counting.counted eqb [] ks).
Proof. apply counted_positive. constructor. Qed.



Section Analyzers.
Context `{H : Host}.


(** A defined age is a whole number of years, not negative. *)
Lemma calculateAge_whole b d w a :
  fst (PatientAnalytics.calculateAge b d w) = Some a ->
  exists z, a = inject_Z z /\ (0 <= z)%Z.
Proof.
  unfold PatientAnalytics.calculateAge.
  destruct (negb (truthy b)); [discriminate |].
  destruct (Date_parse (the b)) as [birth |]; [| discriminate].
  match goal with
  | |- context [let '(endDate, w') := ?X in _] => destruct X as [[e |] w']
  end; [| discriminate].
  cbn [fst].
  match goal with
  | |- (if (0 <=? ?age)%Z then _ else _) = _ -> _ =>
      destruct (Z.leb_spec 0 age) as [NN |]; [| discriminate];
      intros E; inversion E; exists age; split; [reflexivity | exact NN]
  end.
Qed.

Lemma agesOf_whole patients : forall w,
  Forall (fun a => exists z, a = inject_Z z /\ (0 <= z)%Z) (agesOf patients w).
Proof.
  induction patients as [| p rest IH]; intros w; cbn [agesOf]; [constructor |].
  destruct (PatientAnalytics.calculateAge (birthDate p) (deceasedDateTime p) w)
    as [age w'] eqn:A.
  apply Forall_app; split; [| apply IH].
  destruct age as [a |]; constructor; [| constructor].
  apply (calculateAge_whole (birthDate p) (deceasedDateTime p) w). now rewrite A.
Qed.

(** A defined length of stay is not negative. *)
Lemma calculateLengthOfStay_nonneg s e x :
  EncounterAnalytics.calculateLengthOfStay s e = Some x -> (0 <= x)%Q.
Proof.
  unfold EncounterAnalytics.calculateLengthOfStay.
  destruct (negb (truthy s) || negb (truthy e)); [discriminate |].
  destruct (Date_parse (the s)) as [a |]; [| discriminate].
  destruct (Date_parse (the e)) as [b |]; [| discriminate].
  destruct (Z.ltb_spec (b - a) 0) as [| NN]; [discriminate |].
  intros E; inversion E; subst x. clear E.
  apply Qle_shift_div_l; [reflexivity |].
  rewrite Qmult_0_l. unfold Qle; simpl. lia.
Qed.

Lemma losOf_nonneg encounters : Forall (fun x => (0 <= x)%Q) (losOf encounters).
Proof.
  induction encounters as [| e rest IH]; cbn [losOf flat_map]; [constructor |].
  apply Forall_app; split; [| exact IH].
  destruct (EncounterAnalytics.calculateLengthOfStay
              (EncounterAnalytics.periodStart e) (EncounterAnalytics.periodEnd e))
    as [x |] eqn:L; constructor; [| constructor].
  eapply calculateLengthOfStay_nonneg; eauto.
Qed.

Lemma filter_all {A : Type} (f : A -> bool) l :
  Forall (fun x => f x = true) l -> filter f l = l.
Proof.
  induction 1 as [| x r P F IH]; simpl; [reflexivity |]. now rewrite P, IH.
Qed.

(** C5, as the code has it.  Every defined length of stay is taken by
    exactly one bucket of the length-of-stay histogram, and the counts of
    that histogram add up to the number of encounters with a defined
    length of stay; every count of encounters of a patient is taken by
    exactly one bucket, and the counts of that histogram add up to the
    number of different patients.  An age up to 120 is taken by exactly
    one bucket and an age above 120 by none (the last bucket is 90 to
    120), so the counts of the age histogram add up to the number of
    defined ages that are at most 120. *)
Theorem histograms_coverage patients w encounters :
  let a := fst (PatientAnalytics.analyzePatients patients w) in
  let e := EncounterAnalytics.analyzeEncounters encounters in
  Forall (fun x => Counting.takers (fun b => Qle_bool (min b) x && lt_max x b)
                                   EncounterAnalytics.los_buckets = 1)
         (losOf encounters) /\
  sum_counts (EncounterAnalytics.losDistribution e) = List.length (losOf encounters) /\
  EncounterAnalytics.encountersWithLos (EncounterAnalytics.losStats e)
  = List.length (losOf encounters) /\
  Forall (fun kv =>
            let x := inject_Z (Z.of_nat (snd kv)) in
            Counting.takers (fun b => Qle_bool (min b) x && le_max x b)
                            EncounterAnalytics.perPatient_buckets = 1)
         (Counting.counted String.eqb [] (patientIdsOf encounters)) /\
  sum_counts (EncounterAnalytics.encountersPerPatient e)
  = distinct (patientIdsOf encounters) /\
  Forall (fun x => Counting.takers (fun b => Qle_bool (min b) x && le_max x b)
                                   PatientAnalytics.age_buckets
                   = if Qle_bool x 120 then 1 else 0)
         (agesOf patients w) /\
  sum_counts (PatientAnalytics.ageDistribution a)
  = List.length (filter (fun x => Qle_bool x 120) (agesOf patients w)).
Proof.
  cbv zeta. rewrite PatientFacts.analyzePatients_fst. cbv zeta.
  unfold EncounterAnalytics.analyzeEncounters.
  cbn [PatientAnalytics.ageDistribution EncounterAnalytics.losDistribution
       EncounterAnalytics.losStats EncounterAnalytics.encountersWithLos
       EncounterAnalytics.encountersPerPatient].
  destruct (PatientFacts.patient_loop_state patients PatientAnalytics.init w)
    as (_ & _ & _ & _ & _ & A & _).
  destruct (EncounterFacts.encounter_loop_state encounters EncounterAnalytics.init)
    as (_ & _ & _ & _ & P & L & _).
  cbv zeta in *. rewrite A, P, L.
  cbn [PatientAnalytics.init EncounterAnalytics.init PatientAnalytics.ages
       EncounterAnalytics.patientCounts EncounterAnalytics.losHours app].
  assert (Forall (fun x => Counting.takers (fun b => Qle_bool (min b) x && lt_max x b)
                                           EncounterAnalytics.los_buckets = 1)
                 (losOf encounters)) as LT.
  { eapply Forall_impl; [| apply losOf_nonneg]. intros x. apply los_once. }
  assert (Forall (fun kv =>
                    Counting.takers
                      (fun b => Qle_bool (min b) (inject_Z (Z.of_nat (snd kv)))
                                && le_max (inject_Z (Z.of_nat (snd kv))) b)
                      EncounterAnalytics.perPatient_buckets = 1)
                 (Counting.counted String.eqb [] (patientIdsOf encounters))) as PT.
  { eapply Forall_impl; [| apply (counted_nil_positive String.eqb)].
    intros [k n] Pn. apply perPatient_once. simpl in *. lia. }
  assert (Forall (fun x => Counting.takers (fun b => Qle_bool (min b) x && le_max x b)
                                           PatientAnalytics.age_buckets
                           = if Qle_bool x 120 then 1 else 0)
                 (agesOf patients w)) as AT.
  { eapply Forall_impl; [| apply agesOf_whole].
    intros x (z & -> & NN). rewrite (age_once z NN).
    change 120%Q with (inject_Z 120). now rewrite Qle_bool_inject. }
  repeat split.
  - exact LT.
  - unfold EncounterAnalytics.createLosHistogram.
    rewrite filter_positive_sum, histogram_sum by reflexivity.
    rewrite filter_all; [reflexivity |].
    eapply Forall_impl; [| exact LT].
    intros x T. cbv beta in T. now rewrite existsb_takers, T.
  - exact PT.
  - unfold EncounterAnalytics.createEncountersPerPatientHistogram.
    rewrite filter_positive_sum, histogram_sum by reflexivity.
    rewrite filter_all.
    + rewrite length_map. apply counted_distinct.
    + apply Forall_map. eapply Forall_impl; [| exact PT].
      intros kv T. cbv beta in T. now rewrite existsb_takers, T.
  - exact AT.
  - unfold PatientAnalytics.createAgeHistogram.
    rewrite histogram_sum by reflexivity. cbn [sum_counts fold_right
      PatientAnalytics.age_buckets bucket b_count Nat.add].
    f_equal. apply filter_ext_in. intros x I.
    rewrite Forall_forall in AT. rewrite existsb_takers, (AT x I).
    now destruct (Qle_bool x 120).
Qed.

Lemma filter_none {A : Type} (f : A -> bool) l :
  (forall x, In x l -> f x = false) -> filter f l = [].
Proof.
  induction l as [| x r IH]; intros N; simpl; [reflexivity |].
  rewrite (N x) by now left. apply IH. intros y I. apply N. now right.
Qed.

Lemma keyed_sum (m : list (string * nat)) k :
  NoDup (map fst m) ->
  list_sum (map snd (filter (fun kv => fst kv =? k) m))
  = Counting.count_of String.eqb m k.
Proof.
  unfold Counting.count_of.
  induction m as [| [k0 n] r IH]; intros N; simpl; [reflexivity |].
  inversion N as [| ? ? NI N']; subst.
  destruct (k0 =? k) eqn:E; simpl.
  - apply String.eqb_eq in E; subst k0.
    replace (filter (fun kv => fst kv =? k) r) with (@nil (string * nat)); [simpl; lia |].
    symmetry. apply filter_none. intros [k1 n1] I. simpl.
    apply String.eqb_neq. intros ->. apply NI.
    change k with (fst (k, n1)). now apply in_map.
  - now apply IH.
Qed.

Lemma keyed_sum_perm (m m' : list (string * nat)) k :
  Permutation m m' ->
  list_sum (map snd (filter (fun kv => fst kv =? k) m))
  = list_sum (map snd (filter (fun kv => fst kv =? k) m')).
Proof.
  induction 1; simpl.
  - reflexivity.
  - destruct (fst x =? k); simpl; lia.
  - destruct (fst x =? k), (fst y =? k); simpl; lia.
  - lia.
Qed.

Lemma StronglySorted_map {A B : Type} (R : A -> A -> Prop) (R' : B -> B -> Prop)
    (f : A -> B) l :
  (forall x y, R x y -> R' (f x) (f y)) ->
  StronglySorted R l -> StronglySorted R' (map f l).
Proof.
  intros M. induction 1 as [| x r S IH F]; simpl; constructor; [exact IH |].
  apply Forall_map. eapply Forall_impl; [| exact F]. intros y. apply M.
Qed.

Lemma timeSeries_points m :
  map (fun p => (ts_date p, ts_count p)) (EncounterAnalytics.timeSeries m)
  = Array_sort (fun a b => inject_Z (localeCompare (fst a) (fst b))) m.
Proof.
  unfold EncounterAnalytics.timeSeries. rewrite map_map.
  rewrite <- (map_id (Array_sort _ m)) at 2.
  apply map_ext. now intros [d c].
Qed.

Lemma monthKeysOf_valid encounters :
  List.length (monthKeysOf encounters) = List.length (filter startValid encounters).
Proof.
  induction encounters as [| e rest IH]; cbn [monthKeysOf flat_map filter]; [reflexivity |].
  rewrite length_app. fold (monthKeysOf rest). rewrite IH.
  unfold startValid, startMissing, startInvalid.
  destruct (truthy (EncounterAnalytics.periodStart e)); [| reflexivity].
  pose proof (EncounterFacts.toMonthKey_valid (the (EncounterAnalytics.periodStart e))) as V.
  destruct (Date_parse (the (EncounterAnalytics.periodStart e))).
  - destruct V as (k & -> & _). reflexivity.
  - rewrite V. reflexivity.
Qed.

(** C7, as the code has it.  For every list of encounters: the
    missing-start count is the number of records whose start is absent (or
    empty), a start that is present and is not a date is not in it; the
    series gives every month key the number of records with a valid start
    in that month, so records without a valid start are in no point; no
    key occurs twice; and the points are in ascending order of their keys
    under [localeCompare], provided [localeCompare] orders strings. *)
Theorem encountersByMonth_series encounters :
  let a := EncounterAnalytics.analyzeEncounters encounters in
  EncounterAnalytics.missingPeriodStart a
  = List.length (filter startMissing encounters) /\
  (forall k,
      seriesCount k (EncounterAnalytics.encountersByMonth a)
      = Counting.occurrences String.eqb k (monthKeysOf encounters)) /\
  list_sum (map ts_count (EncounterAnalytics.encountersByMonth a))
  = List.length (filter startValid encounters) /\
  NoDup (map ts_date (EncounterAnalytics.encountersByMonth a)) /\
  (collates ->
   StronglySorted (Order.before byMonth) (EncounterAnalytics.encountersByMonth a)).
Proof.
  cbv zeta. unfold EncounterAnalytics.analyzeEncounters.
  cbn [EncounterAnalytics.missingPeriodStart EncounterAnalytics.encountersByMonth].
  destruct (EncounterFacts.encounter_loop_state encounters EncounterAnalytics.init)
    as (_ & _ & _ & M & _ & _ & MS & _).
  cbv zeta in *. rewrite M, MS. clear M MS.
  cbn [EncounterAnalytics.init EncounterAnalytics.monthCounts
       EncounterAnalytics.l_missingPeriodStart Nat.add].
  set (m := Counting.counted String.eqb [] (monthKeysOf encounters)).
  assert (NoDup (map fst m)) as ND
    by (apply counted_NoDup; [apply PatientFacts.string_eqb_eq | constructor]).
  pose proof (Array_sort_perm
                (fun a b : string * nat => inject_Z (localeCompare (fst a) (fst b))) m) as PM.
  pose proof (timeSeries_points m) as TP.
  assert (forall f : string * nat -> nat,
             map (fun p => f (ts_date p, ts_count p)) (EncounterAnalytics.timeSeries m)
             = map f (Array_sort (fun a b => inject_Z (localeCompare (fst a) (fst b))) m)) as TPf.
  { intros f. rewrite <- TP, map_map. reflexivity. }
  repeat split.
  - intros k. unfold seriesCount.
    transitivity (list_sum (map snd (filter (fun kv => fst kv =? k)
                    (map (fun p => (ts_date p, ts_count p))
                         (EncounterAnalytics.timeSeries m))))).
    + clear. induction (EncounterAnalytics.timeSeries m) as [| p r IH]; simpl;
        [reflexivity |]. destruct (ts_date p =? k); simpl; lia.
    + rewrite TP, <- (keyed_sum_perm _ _ k PM), keyed_sum by exact ND.
      unfold m. rewrite counted_count by apply PatientFacts.string_eqb_eq.
      reflexivity.
  - change (map ts_count (EncounterAnalytics.timeSeries m))
      with (map (fun p => snd (ts_date p, ts_count p)) (EncounterAnalytics.timeSeries m)).
    rewrite (TPf snd), <- PM.
    change (list_sum (map snd m)) with (Counting.total m).
    unfold m. rewrite counted_total, monthKeysOf_valid. reflexivity.
  - replace (map ts_date (EncounterAnalytics.timeSeries m))
      with (map fst (map (fun p => (ts_date p, ts_count p))
                         (EncounterAnalytics.timeSeries m)))
      by (rewrite map_map; reflexivity).
    rewrite TP. eapply Permutation_NoDup; [| exact ND].
    now apply Permutation_map.
  - intros [Tot Tr].
    unfold EncounterAnalytics.timeSeries.
    apply (StronglySorted_map
             (Order.before (fun a b : string * nat =>
                              inject_Z (localeCompare (fst a) (fst b))))).
    + intros [d1 c1] [d2 c2] B. exact B.
    + apply Array_sort_sorted. split.
      * intros x y. apply Tot.
      * intros x y z. apply Tr.
Qed.

End Analyzers.

(** C6 at the code [constructor].  The class has no display and the code
    is not one of the sixteen of the table, yet the display resolved is
    not the raw code: the read [codeMap[code]] finds the member that every
    object inherits under that name, and this is what [getClassDisplay]
    returns and what labels the class distribution. *)
Theorem getClassDisplay_inherited_member :
  assoc "constructor" EncounterAnalytics.codeMap = None /\
  EncounterAnalytics.getClassDisplay Examples.classConstructor
  = EncounterAnalytics.Inherited "constructor" /\
  EncounterAnalytics.getClassDisplay Examples.classConstructor
  <> EncounterAnalytics.Text "constructor" /\
  map label (EncounterAnalytics.classDistribution
               (EncounterAnalytics.analyzeEncounters (H := ReferenceHost.host)
                  [Examples.classConstructor]))
  = [EncounterAnalytics.Inherited "constructor"].
Proof.
  repeat split; try reflexivity. discriminate.
Qed.

End AnalyzerFacts.

(* ------------------------------------------------------------------ *)
(** ** Running the pipeline twice *)
(* ------------------------------------------------------------------ *)

Module RunFacts.
Import Js Fhir NdjsonParser App Runs.

Section Runs.
Context `{H : Host} `{V : TypedView}.

Lemma parseNdjson_clock input w :
  wall_clock (snd (parseNdjson input w)) = wall_clock w.
Proof. reflexivity. Qed.

Lemma finish_pair lines st e1 e2 :
  match finish lines st e1, finish lines st e2 with
  | Some r1, Some r2 =>
      resources r1 = resources r2 /\ resourceType r1 = resourceType r2 /\
      withoutTime r1 = withoutTime r2
  | None, None => True
  | _, _ => False
  end.
Proof.
  unfold finish.
  destruct ((0 <? resourceTypeMismatchCount st)%nat &&
            (List.length (l_errors st) <? MAX_ERRORS_STORED)%nat).
  - destruct (mismatchWarning _ _); [| exact I].
    destruct (fileName _); [| exact I]. repeat split.
  - destruct (fileName _); [| exact I]. repeat split.
Qed.

Lemma calculateAge_clock b d w :
  wall_clock (snd (PatientAnalytics.calculateAge b d w)) = wall_clock w.
Proof.
  unfold PatientAnalytics.calculateAge.
  destruct (negb (truthy b)); [reflexivity |].
  destruct (Date_parse (the b)); [| reflexivity].
  destruct d as [s |]; [destruct (negb (s =? "")) |];
    cbn; now destruct (Date_parse _) || reflexivity.
Qed.

Lemma sameDate_fields w1 w2 i j :
  sameDate w1 w2 ->
  getFullYear (wall_clock w1 i) = getFullYear (wall_clock w2 j) /\
  getMonth (wall_clock w1 i) = getMonth (wall_clock w2 j) /\
  getDate (wall_clock w1 i) = getDate (wall_clock w2 j).
Proof.
  intros S. specialize (S i j). unfold localDate in S.
  inversion S. repeat split; assumption.
Qed.

(** The age depends on the clock only through the calendar date read. *)
Lemma calculateAge_sameDate b d w1 w2 :
  sameDate w1 w2 ->
  fst (PatientAnalytics.calculateAge b d w1) = fst (PatientAnalytics.calculateAge b d w2).
Proof.
  intros S. unfold PatientAnalytics.calculateAge.
  destruct (negb (truthy b)); [reflexivity |].
  destruct (Date_parse (the b)) as [birth |]; [| reflexivity].
  destruct (sameDate_fields w1 w2 (wall_reads w1) (wall_reads w2) S) as (Y & M & D).
  destruct d as [s |]; [destruct (negb (s =? "")) |]; cbn.
  - now destruct (Date_parse s).
  - now rewrite Y, M, D.
  - now rewrite Y, M, D.
Qed.

Lemma sameDate_step b d w1 w2 :
  sameDate w1 w2 ->
  sameDate (snd (PatientAnalytics.calculateAge b d w1))
           (snd (PatientAnalytics.calculateAge b d w2)).
Proof.
  intros S i j. rewrite !calculateAge_clock. apply S.
Qed.

Lemma loop_sameDate patients : forall st w1 w2,
  sameDate w1 w2 ->
  fst (PatientAnalytics.loop st patients w1) = fst (PatientAnalytics.loop st patients w2).
Proof.
  induction patients as [| p rest IH]; intros st w1 w2 S; cbn [PatientAnalytics.loop];
    [reflexivity |].
  unfold PatientAnalytics.step.
  pose proof (calculateAge_sameDate (birthDate p) (deceasedDateTime p) w1 w2 S) as A.
  pose proof (sameDate_step (birthDate p) (deceasedDateTime p) w1 w2 S) as S'.
  destruct (PatientAnalytics.calculateAge (birthDate p) (deceasedDateTime p) w1) as [a1 w1'].
  destruct (PatientAnalytics.calculateAge (birthDate p) (deceasedDateTime p) w2) as [a2 w2'].
  cbn [fst snd] in A, S'. subst a2. now apply IH.
Qed.

Lemma analyzePatients_sameDate patients w1 w2 :
  sameDate w1 w2 ->
  fst (PatientAnalytics.analyzePatients patients w1)
  = fst (PatientAnalytics.analyzePatients patients w2).
Proof.
  intros S. rewrite !PatientFacts.analyzePatients_fst.
  now rewrite (loop_sameDate patients PatientAnalytics.init w1 w2 S).
Qed.

Lemma renderDashboard_fst r w :
  fst (renderDashboard r w)
  = if strictEquals (resourceType r) (JStr "Patient")
    then PatientDashboard
           (fst (PatientAnalytics.analyzePatients
                   (map asPatient (filter isPatient (resources r))) w))
    else if strictEquals (resourceType r) (JStr "Encounter")
    then EncounterDashboard
           (EncounterAnalytics.analyzeEncounters
              (map asEncounter (filter isEncounter (resources r))))
    else GenericDashboard (resources r) (resourceType r).
Proof.
  unfold renderDashboard.
  destruct (strictEquals (resourceType r) (JStr "Patient")).
  - now destruct (PatientAnalytics.analyzePatients _ w).
  - now destruct (strictEquals (resourceType r) (JStr "Encounter")).
Qed.

Lemma analyze_fst input w :
  fst (analyze input w)
  = match fst (parseNdjson input w) with
    | Some r => Some (r, fst (renderDashboard r (snd (parseNdjson input w))))
    | None => None
    end.
Proof.
  unfold analyze. destruct (parseNdjson input w) as [[r |] w1]; cbn [fst snd];
    [| reflexivity].
  now destruct (renderDashboard r w1).
Qed.

(** C8, as the code has it.  Two runs of parse-then-analyze on one input,
    whatever the clocks read, both return or both fail; the parse results
    are equal in every field but the elapsed time; the dashboard's
    analytics are equal when the detected kind is not Patient; and they are
    equal for Patient records too when all wall-clock readings of the two
    runs fall on one local calendar date, the age of a living patient
    being computed from the current date. *)
Theorem analyze_repeatable input w1 w2 :
  let run1 := fst (analyze input w1) in
  let run2 := fst (analyze input w2) in
  option_map (fun rd => withoutTime (fst rd)) run1
  = option_map (fun rd => withoutTime (fst rd)) run2 /\
  (kindIsPatient input = false -> option_map snd run1 = option_map snd run2) /\
  (sameDate w1 w2 -> option_map snd run1 = option_map snd run2).
Proof.
  cbv zeta. rewrite !analyze_fst, !NdjsonParserFacts.parseNdjson_fst.
  set (lines := split LF input). set (st := loop init 0 lines).
  set (e1 := (perf_clock w1 (S (perf_reads w1)) - perf_clock w1 (perf_reads w1))%Q).
  set (e2 := (perf_clock w2 (S (perf_reads w2)) - perf_clock w2 (perf_reads w2))%Q).
  pose proof (finish_pair lines st e1 e2) as P.
  pose proof (NdjsonParserFacts.finish_result lines e1) as F. cbv zeta in F.
  fold st in F.
  destruct (finish lines st e1) as [r1 |], (finish lines st e2) as [r2 |];
    try contradiction; [| repeat split; reflexivity].
  destruct P as (Rs & Rt & Wt). destruct F as (_ & Kind & _).
  cbn [option_map fst snd]. rewrite !renderDashboard_fst, <- Rs, <- Rt.
  split; [now rewrite Wt |]. split.
  - unfold kindIsPatient. fold lines. intros NP.
    replace (strictEquals (resourceType r1) (JStr "Patient")) with false;
      [reflexivity |].
    rewrite Kind. now destruct (Lines.firstKind lines).
  - intros S.
    destruct (strictEquals _ (JStr "Patient")); [| reflexivity].
    do 2 f_equal. apply analyzePatients_sameDate.
    intros i j. rewrite !parseNdjson_clock. apply S.
Qed.

End Runs.
End RunFacts.

(* ------------------------------------------------------------------ *)
(** ** The reference host, and the properties on worked inputs *)
(* ------------------------------------------------------------------ *)

Module Worked.
Import Js Fhir Analytics Population Visits Runs ReferenceHost Examples.

Lemma Qle_bool_sign z : Qle_bool (inject_Z z) 0 = (z <=? 0)%Z.
Proof. change 0%Q with (inject_Z 0). apply HistogramFacts.Qle_bool_inject. Qed.

Lemma compare_code_units_flip a : forall b,
  (0 < compare_code_units a b)%Z -> (compare_code_units b a <= 0)%Z.
Proof.
  induction a as [| x a IH]; intros [| y b]; simpl; try lia.
  destruct (N.ltb_spec (N_of_ascii x) (N_of_ascii y)); [lia |].
  destruct (N.ltb_spec (N_of_ascii y) (N_of_ascii x)); [lia |].
  apply IH.
Qed.

Lemma compare_code_units_trans a : forall b c,
  (compare_code_units a b <= 0)%Z -> (compare_code_units b c <= 0)%Z ->
  (compare_code_units a c <= 0)%Z.
Proof.
  induction a as [| x a IH]; intros [| y b] [| z c]; simpl; try lia.
  destruct (N.ltb_spec (N_of_ascii x) (N_of_ascii y));
    destruct (N.ltb_spec (N_of_ascii y) (N_of_ascii x));
    destruct (N.ltb_spec (N_of_ascii y) (N_of_ascii z));
    destruct (N.ltb_spec (N_of_ascii z) (N_of_ascii y));
    destruct (N.ltb_spec (N_of_ascii x) (N_of_ascii z));
    destruct (N.ltb_spec (N_of_ascii z) (N_of_ascii x));
    try lia.
  apply IH.
Qed.

(** Code-unit order is an order. *)
Lemma host_collates : collates (H := host).
Proof.
  split.
  - intros x y. unfold Order.before. cbn [localeCompare host].
    rewrite !Qle_bool_sign. intros G. apply Z.leb_gt in G.
    apply Z.leb_le. now apply compare_code_units_flip.
  - intros x y z. unfold Order.before. cbn [localeCompare host].
    rewrite !Qle_bool_sign. intros A B. apply Z.leb_le in A, B.
    apply Z.leb_le. eapply compare_code_units_trans; eauto.
Qed.

(** A detected type that cannot be converted: the line is valid, and the
    template literal after the loop throws. *)
Lemma parseNdjson_objectKind_throws :
  Lines.parsedRecords (H := host) (split LF objectKind) <> [] /\
  fst (NdjsonParser.parseNdjson objectKind w0) = None.
Proof.
  split; [vm_compute; discriminate | vm_compute; reflexivity].
Qed.

(** The empty input is one blank line. *)
Example parseNdjson_empty_input :
  option_map (fun r => (NdjsonParser.totalLines r, NdjsonParser.validLines r,
                        NdjsonParser.invalidLines r, NdjsonParser.resourceType r,
                        NdjsonParser.errors r))
             (fst (NdjsonParser.parseNdjson "" w0))
  = Some (1, 0, 0, JStr "Unknown", []).
Proof. reflexivity. Qed.

(** A Patient, a blank line, an Encounter and an array: four lines, two
    valid, one invalid, and the summary at line 0 in front. *)
Example parseNdjson_mixed_input :
  option_map (fun r => (NdjsonParser.totalLines r, NdjsonParser.validLines r,
                        NdjsonParser.invalidLines r, NdjsonParser.resourceType r,
                        map NdjsonParser.lineNumber (NdjsonParser.errors r),
                        map NdjsonParser.message (NdjsonParser.errors r)))
             (fst (NdjsonParser.parseNdjson mixed w0))
  = Some (4, 2, 1, JStr "Patient", [0; 4],
          ["Warning: Found 1 resources with different resourceType than "
             ++ quoted "Patient" ++ ". Analysis focuses on the predominant type.";
           "Missing resourceType field"]).
Proof. vm_compute. reflexivity. Qed.

(** A birth date that is present and is not a date gives no age and is
    not counted as missing. *)
Example analyze_twoPatients :
  option_map
    (fun rd => match snd rd with
               | App.PatientDashboard a =>
                   (PatientAnalytics.totalPatients a,
                    sum_counts (PatientAnalytics.ageDistribution a),
                    PatientAnalytics.missingBirthDate a)
               | _ => (0, 0, 0)
               end)
    (fst (App.analyze twoPatients w0))
  = Some (2, 1, 0).
Proof. vm_compute. reflexivity. Qed.

(** Half an hour is in the first bucket; an end before the start gives no
    length of stay and is not a missing end; the series has March 2023
    before January 2024. *)
Example analyzeEncounters_threeVisits :
  let a := EncounterAnalytics.analyzeEncounters threeVisits in
  map (fun b => (b_label b, b_count b)) (EncounterAnalytics.losDistribution a)
  = [("<1 hour", 1); ("2-3 days", 1)] /\
  EncounterAnalytics.missingPeriodEnd a = 0 /\
  map (fun p => (ts_date p, ts_count p, ts_label p)) (EncounterAnalytics.encountersByMonth a)
  = [("2023-03", 1, "Mar 2023"); ("2024-01", 2, "Jan 2024")].
Proof. vm_compute. repeat split. Qed.



(** C5 as the specification words it fails.  A patient who died at the age
    of 150 has a defined age, which the age statistics count, and no
    bucket of the age histogram takes it: the counts add up to 0, not 1. *)
Lemma ageDistribution_misses_age_150 :
  let a := fst (PatientAnalytics.analyzePatients [aged150] w0) in
  agesOf [aged150] w0 = [150%Q] /\
  PatientAnalytics.s_max (PatientAnalytics.ageStats a) = 150%Q /\
  sum_counts (PatientAnalytics.ageDistribution a) = 0 /\
  sum_counts (PatientAnalytics.ageDistribution a)
  <> List.length (agesOf [aged150] w0).
Proof.
  cbv zeta. repeat split; try (vm_compute; reflexivity).
  vm_compute. discriminate.
Qed.

(** C7 as the specification words it fails.  An encounter whose start is
    present and is not a date is left out of the series and is not in the
    missing-start count either. *)
Lemma invalid_start_not_tallied :
  let a := EncounterAnalytics.analyzeEncounters [startGarbage] in
  startInvalid startGarbage = true /\
  EncounterAnalytics.encountersByMonth a = [] /\
  EncounterAnalytics.missingPeriodStart a = 0 /\
  EncounterAnalytics.missingPeriodStart a <> 1.
Proof.
  cbv zeta. repeat split; try (vm_compute; reflexivity).
  vm_compute. discriminate.
Qed.

(** The series of three visits on the reference host is in month order. *)
Lemma encountersByMonth_series_witness :
  StronglySorted (Order.before byMonth)
    (EncounterAnalytics.encountersByMonth
       (EncounterAnalytics.analyzeEncounters threeVisits)).
Proof.
  exact (proj2 (proj2 (proj2 (proj2
           (AnalyzerFacts.encountersByMonth_series (H := host) threeVisits))))
           host_collates).
Defined.

(** C8 as the specification words it fails.  The same input analyzed on
    the eve of the patient's birthday and on the birthday: the age shown is
    25 in one run and 26 in the other. *)
Lemma analyze_differs_across_birthday :
  option_map (fun rd => minAge (snd rd)) (fst (App.analyze bornInJune eve))
  = Some (Some 25%Q) /\
  option_map (fun rd => minAge (snd rd)) (fst (App.analyze bornInJune birthday))
  = Some (Some 26%Q) /\
  option_map snd (fst (App.analyze bornInJune eve))
  <> option_map snd (fst (App.analyze bornInJune birthday)).
Proof.
  repeat split; try (vm_compute; reflexivity).
  intros E. apply (f_equal (option_map minAge)) in E. vm_compute in E. discriminate.
Qed.

(** Two runs on the birthday, hours apart: the same analytics. *)
Lemma analyze_repeatable_witness :
  sameDate birthday birthdayLater /\
  option_map snd (fst (App.analyze bornInJune birthday))
  = option_map snd (fst (App.analyze bornInJune birthdayLater)).
Proof.
  assert (sameDate birthday birthdayLater) as S by (intros i j; reflexivity).
  split; [exact S |].
  exact (proj2 (proj2 (RunFacts.analyze_repeatable bornInJune birthday birthdayLater)) S).
Defined.

End Worked.
(* ------------------------------------------------------------------ *)
(** ** The quick check and the preview against the parser *)
(* ------------------------------------------------------------------ *)

Module NdjsonProbeFacts.
Import Js NdjsonParser NdjsonProbe Lines Inspection.

Lemma trimStart_empty s : (trimStart s =? "") = allWhite s.
Proof.
  induction s as [| c r IH]; simpl; [reflexivity |].
  destruct (isWhiteSpace c); [exact IH | reflexivity].
Qed.

Lemma trimStart_head s : match trimStart s with
                         | String c _ => isWhiteSpace c = false
                         | EmptyString => True
                         end.
Proof.
  induction s as [| c r IH]; simpl; [exact I |].
  destruct (isWhiteSpace c) eqn:W; [exact IH | exact W].
Qed.

(** A text trims to nothing exactly when it is white space only. *)
Lemma trim_empty s : (trim s =? "") = allWhite s.
Proof.
  unfold trim. rewrite <- trimStart_empty.
  pose proof (trimStart_head s) as Hd.
  destruct (trimStart s) as [| c r]; [reflexivity |].
  simpl. now rewrite Hd.
Qed.

Lemma allWhite_app a b : allWhite (a ++ b) = allWhite a && allWhite b.
Proof.
  induction a as [| c r IH]; simpl; [reflexivity |].
  now rewrite IH, andb_assoc.
Qed.

Lemma split_allWhite s : forallb allWhite (split LF s) = allWhite s.
Proof.
  induction s as [| c r IH]; simpl; [reflexivity |].
  destruct (Ascii.eqb c LF) eqn:E.
  - apply Ascii.eqb_eq in E. subst c. simpl. exact IH.
  - pose proof (NdjsonParserFacts.split_nonempty LF r) as N.
    destruct (split LF r) as [| l ls]; [contradiction |].
    simpl in *. rewrite <- IH. now rewrite andb_assoc.
Qed.

Section Inspection.
Context `{H : Host}.

(** The preview takes a line exactly when the parser does. *)
Lemma previewLine_parseLine trimmed :
  previewLine trimmed
  = match parseLine trimmed with inl v => Some v | inr _ => None end.
Proof.
  unfold previewLine, parseLine.
  destruct (JSON_parse trimmed) as [parsed | msg]; [| reflexivity].
  destruct parsed as [| b | x | s | elems | props]; cbn [get typeof ToBoolean].
  - reflexivity.
  - now destruct b.
  - now destruct (is_zero_or_nan x).
  - now destruct (s =? "").
  - reflexivity.
  - cbn. destruct (assoc "resourceType" props) as [rt |]; [| reflexivity].
    now destruct (ToBoolean rt).
Qed.

(** [n >= maxResources] on a length, through the ceiling of the bound. *)
Lemma Qle_bool_ceiling x z : Qle_bool x (inject_Z z) = (Qceiling x <=? z)%Z.
Proof.
  destruct (Z.leb_spec (Qceiling x) z) as [L | G].
  - apply Qle_bool_iff. apply Qle_trans with (inject_Z (Qceiling x)).
    + apply Qle_ceiling.
    + now rewrite <- Zle_Qle.
  - apply not_true_is_false. rewrite Qle_bool_iff. intros L.
    apply Qceiling_resp_le in L. rewrite Qceiling_Z in L. lia.
Qed.

Lemma full_room maxResources n :
  Qle_bool maxResources (inject_Z (Z.of_nat n)) = (room maxResources <=? n)%nat.
Proof.
  rewrite Qle_bool_ceiling. unfold room.
  destruct (Z.leb_spec (Qceiling maxResources) (Z.of_nat n));
    destruct (Nat.leb_spec (Z.to_nat (Qceiling maxResources)) n); lia.
Qed.

Lemma previewLoop_prefix maxResources lines : forall resources,
  List.length resources <= room maxResources ->
  previewLoop maxResources resources lines
  = firstn (room maxResources) (resources ++ parsedRecords lines)%list.
Proof.
  induction lines as [| raw rest IH]; intros resources B; cbn [previewLoop parsedRecords flat_map].
  - rewrite app_nil_r, firstn_all2; auto.
  - rewrite full_room.
    destruct (Nat.leb_spec (room maxResources) (List.length resources)) as [F | R].
    + rewrite firstn_app. replace (room maxResources - List.length resources) with 0 by lia.
      rewrite firstn_all2 by lia. simpl. now rewrite app_nil_r.
    + unfold isBlank. destruct (trim raw =? ""); [now apply IH |].
      rewrite previewLine_parseLine.
      destruct (parseLine (trim raw)) as [v | msg]; cbn [app].
      * rewrite IH by (rewrite length_app; simpl; lia).
        now rewrite <- app_assoc.
      * now apply IH.
Qed.

Lemma parsedRecords_bound lines :
  List.length (parsedRecords lines)
  <= List.length (filter (fun l => negb (trim l =? "")) lines).
Proof.
  induction lines as [| raw rest IH]; simpl; [lia |].
  rewrite length_app. unfold isBlank.
  destruct (trim raw =? ""); simpl; [lia |].
  destruct (parseLine (trim raw)); simpl; lia.
Qed.

Lemma resources_parsed input w r :
  fst (parseNdjson input w) = Some r -> resources r = parsedRecords (split LF input).
Proof.
  intros R. rewrite NdjsonParserFacts.parseNdjson_fst in R.
  pose proof (NdjsonParserFacts.finish_result (split LF input)
    (perf_clock w (S (perf_reads w)) - perf_clock w (perf_reads w))%Q) as F.
  cbv zeta in F. rewrite R in F. now destruct F as (Rs & _).
Qed.

(** X1.  The preview holds the first records of [resources] of
    [parseNdjson] on the same input, in line order and as many as the
    bound leaves room for (its ceiling; none when it is zero or
    negative).  The parser returns no result only when the detected type
    cannot be converted to a string. *)
Theorem getPreview_prefix input maxResources w :
  match fst (parseNdjson input w) with
  | Some r =>
      pv_resources (getPreview input maxResources)
      = firstn (Z.to_nat (Qceiling maxResources)) (resources r)
  | None => throwsTypeError input
  end.
Proof.
  destruct (fst (parseNdjson input w)) as [r |] eqn:R;
    [| now apply (NdjsonParserFacts.parseNdjson_returns input w)].
  rewrite (resources_parsed input w r R).
  unfold getPreview. cbn [pv_resources].
  rewrite previewLoop_prefix by (simpl; lia). reflexivity.
Qed.

(** X2.  When [hasMore] is false the preview is complete: it holds every
    record of [resources] of [parseNdjson].  ([hasMore] counts the lines
    that are not blank, the invalid ones too, so it can be true of a
    complete preview.) *)
Theorem getPreview_complete input maxResources w :
  hasMore (getPreview input maxResources) = false ->
  match fst (parseNdjson input w) with
  | Some r => pv_resources (getPreview input maxResources) = resources r
  | None => throwsTypeError input
  end.
Proof.
  intros M. destruct (fst (parseNdjson input w)) as [r |] eqn:R;
    [| now apply (NdjsonParserFacts.parseNdjson_returns input w)].
  rewrite (resources_parsed input w r R).
  revert M. unfold getPreview. cbn [pv_resources hasMore]. unfold Qltb. intros M.
  apply negb_false_iff, Qle_bool_iff in M.
  assert (inject_Z (Z.of_nat (List.length
            (filter (fun l => negb (trim l =? "")) (split LF input))))
          <= inject_Z (Qceiling maxResources))%Q as C
    by (eapply Qle_trans; [exact M | apply Qle_ceiling]).
  rewrite <- Zle_Qle in C.
  rewrite previewLoop_prefix by (simpl; lia). cbn [app].
  apply firstn_all2.
  pose proof (parsedRecords_bound (split LF input)). unfold room. lia.
Qed.

(** The quick check stops at the first line that is not blank. *)
Lemma looksLikeLoop_app l1 l2 :
  forallb allWhite l1 = false ->
  looksLikeLoop (l1 ++ l2) = looksLikeLoop l1.
Proof.
  induction l1 as [| raw rest IH]; simpl; [discriminate |].
  rewrite trim_empty. destruct (allWhite raw); simpl; [exact IH | reflexivity].
Qed.

Lemma allWhite_nonempty s : allWhite s = false -> (s =? "") = false.
Proof. now destruct s. Qed.

(** X3.  [looksLikeNdjson] looks at the first line that is not blank and
    at nothing after it: whatever follows a text that has such a line, the
    verdict is that of the text alone. *)
Theorem looksLikeNdjson_first_line a b :
  (trim a =? "") = false ->
  looksLikeNdjson (a ++ String LF b) = looksLikeNdjson a.
Proof.
  rewrite trim_empty. intros W. unfold looksLikeNdjson.
  rewrite !trim_empty, allWhite_app, W. cbn [andb].
  rewrite (allWhite_nonempty a W).
  rewrite (allWhite_nonempty (a ++ String LF b))
    by (now rewrite allWhite_app, W).
  cbn [orb]. rewrite NdjsonParserFacts.split_app.
  apply looksLikeLoop_app. now rewrite split_allWhite.
Qed.

(** What a verdict that passes the caller's test says of the lines. *)
Lemma looksLikeLoop_truthy lines :
  ToBoolean (looksLikeLoop lines) = true ->
  exists blanks raw rest v s,
    lines = (blanks ++ raw :: rest)%list /\
    forallb isBlank blanks = true /\ isBlank raw = false /\
    startsWith (trim raw) "{" = true /\
    JSON_parse (trim raw) = inl v /\
    ToBoolean v = true /\ typeof v = "object" /\
    get v "resourceType" = Some (JStr s).
Proof.
  induction lines as [| raw rest IH]; cbn [looksLikeLoop]; [discriminate |].
  destruct (trim raw =? "") eqn:B.
  - intros T. destruct (IH T) as (blanks & raw' & rest' & v & s & -> & Bs & Rest).
    exists (raw :: blanks), raw', rest', v, s.
    split; [reflexivity |]. split; [| exact Rest].
    cbn [forallb]. unfold isBlank at 1. now rewrite B.
  - unfold looksLikeLine.
    destruct (startsWith (trim raw) "{") eqn:S; cbn [negb]; [| discriminate].
    destruct (JSON_parse (trim raw)) as [parsed | msg] eqn:P; [| discriminate].
    destruct (ToBoolean parsed) eqn:T; cbn [negb]; [| congruence].
    destruct (typeof parsed =? "object") eqn:O; cbn [negb]; [| discriminate].
    destruct (get parsed "resourceType") as [rt |] eqn:G; [| discriminate].
    destruct rt as [| b0 | x | s | elems | props]; cbn; try discriminate.
    intros _. exists [], raw, rest, parsed, s.
    repeat split; auto. now apply String.eqb_eq.
Qed.

Lemma parsedRecords_blanks blanks :
  forallb isBlank blanks = true -> parsedRecords blanks = [].
Proof.
  induction blanks as [| raw rest IH]; simpl; [reflexivity |].
  intros B. apply andb_prop in B. destruct B as [B R].
  rewrite B. simpl. now apply IH.
Qed.

Lemma find_blanks blanks raw rest :
  forallb isBlank blanks = true -> isBlank raw = false ->
  find (fun l => negb (isBlank l)) (blanks ++ raw :: rest) = Some raw.
Proof.
  induction blanks as [| b r IH]; simpl; intros B R.
  - now rewrite R.
  - apply andb_prop in B. destruct B as [B0 B]. rewrite B0. simpl. now apply IH.
Qed.

(** X4.  When the quick check passes, the first line that is not blank
    starts with a brace and parses to an object whose [resourceType] is a
    string.  If that string is empty the parser still counts the line as
    invalid.  Otherwise the parser returns a result whose first record is
    that object and whose detected type is that string, and a preview of
    one record holds that object. *)
Theorem looksLikeNdjson_passes input w :
  ToBoolean (looksLikeNdjson input) = true ->
  exists raw v s,
    find (fun l => negb (isBlank l)) (split LF input) = Some raw /\
    startsWith (trim raw) "{" = true /\
    JSON_parse (trim raw) = inl v /\
    get v "resourceType" = Some (JStr s) /\
    if s =? ""
    then isInvalid raw = true
    else exists r,
        fst (parseNdjson input w) = Some r /\
        hd_error (resources r) = Some v /\
        resourceType r = JStr s /\
        pv_resources (getPreview input 1%Q) = [v].
Proof.
  unfold looksLikeNdjson.
  destruct ((input =? "") || (trim input =? "")); [discriminate |].
  intros T.
  destruct (looksLikeLoop_truthy _ T)
    as (blanks & raw & rest & v & s & L & Bs & B & Br & P & Tv & O & G).
  exists raw, v, s.
  split; [rewrite L; now apply find_blanks |].
  repeat (split; [assumption |]).
  assert (parseLine (trim raw)
          = if s =? "" then inr "Missing resourceType field" else inl v) as PL.
  { unfold parseLine. rewrite P, Tv, O, G. cbn. now destruct (s =? ""). }
  destruct (s =? "") eqn:E.
  - unfold isInvalid. now rewrite B, PL.
  - assert (parsedRecords (split LF input) = v :: parsedRecords rest) as PR.
    { rewrite L, NdjsonParserFacts.parsedRecords_app, parsedRecords_blanks by exact Bs.
      cbn. now rewrite B, PL. }
    assert (firstKind (split LF input) = Some (JStr s)) as K.
    { unfold firstKind. rewrite PR. cbn. unfold resourceTypeOf. now rewrite G. }
    destruct (fst (parseNdjson input w)) as [r |] eqn:R.
    + exists r. split; [reflexivity |].
      rewrite NdjsonParserFacts.parseNdjson_fst in R.
      pose proof (NdjsonParserFacts.finish_result (split LF input)
        (perf_clock w (S (perf_reads w)) - perf_clock w (perf_reads w))%Q) as F.
      cbv zeta in F. rewrite R in F. destruct F as (Rs & Rt & _).
      rewrite Rs, Rt, K, PR. repeat split.
      unfold getPreview. cbn [pv_resources].
      rewrite previewLoop_prefix by (simpl; lia). cbn [app]. now rewrite PR.
    + apply NdjsonParserFacts.parseNdjson_returns in R.
      destruct R as (d & K' & TS). rewrite K in K'. inversion K'; subst d.
      discriminate.
Qed.

End Inspection.
End NdjsonProbeFacts.

(* ------------------------------------------------------------------ *)
(** ** The diagnostics of the parser, and what the header and the
       dashboard make of a parse result *)
(* ------------------------------------------------------------------ *)

Module DiagnosticsFacts.
Import Js Fhir NdjsonParser Lines App Inspection.

Lemma substring_length n m s : String.length (String.substring n m s) <= m.
Proof.
  revert n m. induction s as [| c r IH]; intros [| n] [| m]; simpl; try lia.
  - specialize (IH 0 m). lia.
  - apply IH.
  - apply IH.
Qed.

Lemma append_length a b : String.length (a ++ b) = String.length a + String.length b.
Proof. induction a as [| c r IH]; simpl; [reflexivity | now rewrite IH]. Qed.

Section Diagnostics.
Context `{H : Host}.

Lemma diagnostics_In lines : forall i e,
  In e (diagnostics i lines) ->
  exists k raw msg,
    nth_error lines k = Some raw /\ isBlank raw = false /\
    parseLine (trim raw) = inr msg /\
    e = diagnostic (i + k + 1) (trim raw) msg.
Proof.
  induction lines as [| raw rest IH]; intros i e; cbn [diagnostics]; [intros [] |].
  intros I. apply in_app_or in I. destruct I as [I | I].
  - destruct (isBlank raw) eqn:B; [destruct I |].
    destruct (parseLine (trim raw)) as [v | msg] eqn:P; [destruct I |].
    destruct I as [<- | []]. exists 0, raw, msg.
    repeat split; auto. now rewrite Nat.add_0_r.
  - destruct (IH (S i) e I) as (k & raw' & msg & N & B & P & ->).
    exists (S k), raw', msg. repeat split; auto.
    f_equal. lia.
Qed.

Lemma diagnostics_ascending lines : forall i,
  StronglySorted (fun a b => lineNumber a < lineNumber b) (diagnostics i lines) /\
  Forall (fun e => i < lineNumber e) (diagnostics i lines).
Proof.
  induction lines as [| raw rest IH]; intros i; cbn [diagnostics].
  - split; constructor.
  - destruct (IH (S i)) as [Asc F].
    assert (Forall (fun e => i < lineNumber e) (diagnostics (S i) rest)) as F'
      by (eapply Forall_impl; [| exact F]; cbv beta; intros; lia).
    destruct (isBlank raw); [split; assumption |].
    destruct (parseLine (trim raw)); [split; assumption |].
    cbn [app]. split.
    + constructor; [exact Asc |].
      eapply Forall_impl; [| exact F]. cbn. intros; lia.
    + constructor; [cbn; lia | exact F'].
Qed.

Lemma StronglySorted_prefix {A : Type} (R : A -> A -> Prop) l : forall n,
  StronglySorted R l -> StronglySorted R (firstn n l).
Proof.
  induction l as [| a l IH]; intros [| n] St; simpl; try constructor.
  - apply IH. now inversion St.
  - apply NdjsonParserFacts.Forall_prefix. now inversion St.
Qed.

(** The stored entries: the first fifty diagnostics, behind the summary
    when there is one. *)
Lemma errors_shape input w r :
  fst (parseNdjson input w) = Some r ->
  let stored := firstn MAX_ERRORS_STORED (diagnostics 0 (split LF input)) in
  errors r = stored \/
  exists warning, errors r = warning :: stored /\
                  lineNumber warning = 0 /\ rawLine warning = None.
Proof.
  intros R. cbv zeta.
  destruct (NdjsonParserFacts.errors_stored input w r R) as [_ E]. cbv zeta in E.
  destruct ((0 <? _)%nat && _).
  - unfold mismatchWarning in E.
    destruct (match firstKind (split LF input) with
              | Some d => ToString d
              | None => Some "null"
              end); [| discriminate].
    cbn [option_map] in E. injection E as E.
    right. eexists. split; [exact E |]. split; reflexivity.
  - left. congruence.
Qed.

(** X5.  Every entry of [errors] that is not the summary points at its
    line: the line with that number (counted from one) is not blank and
    does not give a resource, the message is that of its error, and the
    raw text is the trimmed line, cut to 100 characters and three dots when
    longer.  The entries are in ascending line order, and no stored text
    is longer than 103 characters. *)
Theorem parseNdjson_diagnostics_located input w :
  let lines := split LF input in
  match fst (parseNdjson input w) with
  | Some r =>
      Forall (locates lines) (filter isPerLine (errors r)) /\
      StronglySorted (fun a b => lineNumber a < lineNumber b) (errors r) /\
      Forall (fun e => match rawLine e with
                       | Some s => String.length s <= 103
                       | None => lineNumber e = 0
                       end) (errors r)
  | None => throwsTypeError input
  end.
Proof.
  cbv zeta. destruct (fst (parseNdjson input w)) as [r |] eqn:R;
    [| now apply (NdjsonParserFacts.parseNdjson_returns input w)].
  set (lines := split LF input).
  set (stored := firstn MAX_ERRORS_STORED (diagnostics 0 lines)).
  assert (Forall (locates lines) stored) as Loc.
  { apply NdjsonParserFacts.Forall_prefix. apply Forall_forall. intros e I.
    destruct (diagnostics_In lines 0 e I) as (k & raw & msg & N & B & P & ->).
    exists raw, msg. cbn [lineNumber message rawLine diagnostic plus].
    replace (k + 1 - 1) with k by lia.
    assert (nth_error lines k <> None) as NN by congruence.
    apply nth_error_Some in NN.
    repeat split; auto; lia. }
  assert (Forall (fun e => isPerLine e = true) stored) as Per
    by apply NdjsonParserFacts.Forall_prefix, NdjsonParserFacts.diagnostics_perLine.
  assert (StronglySorted (fun a b => lineNumber a < lineNumber b) stored) as Asc
    by apply StronglySorted_prefix, diagnostics_ascending.
  assert (Forall (fun e => match rawLine e with
                           | Some s => String.length s <= 103
                           | None => lineNumber e = 0
                           end) stored) as Short.
  { eapply Forall_impl; [| exact Loc].
    intros e (raw & msg & _ & _ & _ & _ & _ & ->).
    destruct (Nat.ltb_spec 100 (String.length (trim raw))) as [Lt | Ge]; [| lia].
    rewrite append_length. unfold substring.
    pose proof (substring_length 0 (100 - 0) (trim raw)). simpl in *. lia. }
  assert (filter isPerLine stored = stored) as Keep.
  { clear - Per. induction Per as [| e l P F IH]; simpl; [reflexivity |].
    now rewrite P, IH. }
  pose proof (errors_shape input w r R) as Sh. cbv zeta in Sh.
  fold lines in Sh. fold stored in Sh.
  destruct Sh as [-> | (warning & -> & Zero & Raw)].
  - rewrite Keep. repeat split; assumption.
  - cbn [filter]. unfold isPerLine at 1. rewrite Zero. cbn [Nat.leb]. rewrite Keep.
    repeat split.
    + exact Loc.
    + constructor; [exact Asc |].
      eapply Forall_impl; [| exact Per]. intros e P.
      unfold isPerLine in P. apply Nat.leb_le in P. lia.
    + constructor; [now rewrite Raw | exact Short].
Qed.

(** X6.  The header of a parse result lists the stored entries only when
    some line is invalid, and then all of them (its cut at 50 drops
    nothing); when no line is invalid it lists nothing, a summary of kind
    mismatches included. *)
Theorem errorDetails_of_parse input w :
  match fst (parseNdjson input w) with
  | Some r =>
      ParseResultHeader.errorDetails r
      = if (invalidLines r =? 0)%nat then None
        else Some (List.length (errors r), errors r)
  | None => throwsTypeError input
  end.
Proof.
  destruct (fst (parseNdjson input w)) as [r |] eqn:R;
    [| now apply (NdjsonParserFacts.parseNdjson_returns input w)].
  unfold ParseResultHeader.errorDetails, ParseResultHeader.hasErrors.
  pose proof (NdjsonParserFacts.invalidLines_total input w r R) as I.
  destruct (invalidLines r) as [| n] eqn:E; [reflexivity |].
  change (0 <? S n)%nat with true. cbn [Nat.eqb andb].
  assert (List.length (errors r) <= 50 /\ 0 < List.length (errors r)) as [Le Pos].
  { destruct (NdjsonParserFacts.errors_stored input w r R) as [_ St]. cbv zeta in St.
    set (stored := firstn MAX_ERRORS_STORED (diagnostics 0 (split LF input))) in *.
    assert (0 < List.length stored <= 50) as B.
    { unfold stored. rewrite length_firstn, NdjsonParserFacts.diagnostics_length.
      unfold invalidTotal in I. unfold MAX_ERRORS_STORED. lia. }
    destruct (0 <? mismatches (parsedRecords (split LF input)))%nat; cbn [andb] in St;
      [| assert (errors r = stored) as -> by congruence; lia].
    destruct (List.length stored <? MAX_ERRORS_STORED)%nat eqn:Lt;
      [| assert (errors r = stored) as -> by congruence; lia].
    destruct (mismatchWarning _ _) as [warning |]; [| discriminate].
    cbn [option_map] in St.
    assert (errors r = warning :: stored) as -> by congruence.
    apply Nat.ltb_lt in Lt. unfold MAX_ERRORS_STORED in Lt. cbn [List.length]. lia. }
  replace (0 <? List.length (errors r))%nat with true
    by (symmetry; now apply Nat.ltb_lt).
  unfold slice0. rewrite firstn_all2 by lia.
  now rewrite Nat.min_l by lia.
Qed.

Context `{V : TypedView}.

Lemma strictEquals_string a s : strictEquals a (JStr s) = true -> a = JStr s.
Proof.
  destruct a; cbn; try discriminate. intros E. apply String.eqb_eq in E. now subst.
Qed.

Lemma kind_partition kind records :
  match records with
  | [] => True
  | first :: _ => resourceTypeOf first = JStr kind
  end ->
  List.length (filter (fun r => strictEquals (resourceTypeOf r) (JStr kind)) records)
  + mismatches records
  = List.length records.
Proof.
  destruct records as [| first later]; [reflexivity |]. intros K.
  cbn [filter mismatches]. rewrite K. cbn [strictEquals]. rewrite String.eqb_refl.
  cbn [List.length].
  pose proof (PatientFacts.filter_partition
                (fun r => strictEquals (resourceTypeOf r) (JStr kind)) later). lia.
Qed.

(** X7.  The dashboard analyses the records of the detected kind and no
    other: when the kind is Patient or Encounter, the records analysed and
    the records of another kind (the mismatches) together are the valid
    lines; for any other kind the generic dashboard gets every record. *)
Theorem analyze_detected_kind_only input w :
  match fst (analyze input w) with
  | Some (r, PatientDashboard a) =>
      resourceType r = JStr "Patient" /\
      PatientAnalytics.totalPatients a + mismatches (resources r) = validLines r
  | Some (r, EncounterDashboard e) =>
      resourceType r = JStr "Encounter" /\
      EncounterAnalytics.totalEncounters e + mismatches (resources r) = validLines r
  | Some (r, GenericDashboard records kind) =>
      records = resources r /\ kind = resourceType r /\
      List.length records = validLines r /\
      kind <> JStr "Patient" /\ kind <> JStr "Encounter"
  | None => throwsTypeError input
  end.
Proof.
  rewrite RunFacts.analyze_fst.
  destruct (fst (parseNdjson input w)) as [r |] eqn:R;
    [| now apply (NdjsonParserFacts.parseNdjson_returns input w)].
  rewrite RunFacts.renderDashboard_fst.
  rewrite NdjsonParserFacts.parseNdjson_fst in R.
  pose proof (NdjsonParserFacts.finish_result (split LF input)
    (perf_clock w (S (perf_reads w)) - perf_clock w (perf_reads w))%Q) as F.
  cbv zeta in F. rewrite R in F. destruct F as (Rs & Rt & _ & Vl & _).
  rewrite NdjsonParserFacts.loop_valid in Vl. cbn [init l_validLines plus] in Vl.
  rewrite <- Rs in Vl.
  assert (forall kind, resourceType r = JStr kind ->
            match resources r with
            | [] => True
            | first :: _ => resourceTypeOf first = JStr kind
            end) as First.
  { intros kind K. rewrite Rt in K. unfold firstKind in K. rewrite <- Rs in K.
    destruct (resources r); [exact I | exact K]. }
  destruct (strictEquals (resourceType r) (JStr "Patient")) eqn:P.
  - apply strictEquals_string in P. split; [exact P |].
    rewrite PatientFacts.analyzePatients_fst. cbn [PatientAnalytics.totalPatients].
    rewrite length_map, Vl. apply (kind_partition "Patient"), First, P.
  - destruct (strictEquals (resourceType r) (JStr "Encounter")) eqn:E.
    + apply strictEquals_string in E. split; [exact E |].
      unfold EncounterAnalytics.analyzeEncounters.
      cbn [EncounterAnalytics.totalEncounters].
      rewrite length_map, Vl. apply (kind_partition "Encounter"), First, E.
    + repeat split; auto; intros K; rewrite K in *; discriminate.
Qed.

End Diagnostics.
End DiagnosticsFacts.

(* ------------------------------------------------------------------ *)
(** ** Sorted arrays, ranges and statistics *)
(* ------------------------------------------------------------------ *)

Module StatsFacts.
Import Js Fhir Analytics JsFacts Census.



Lemma Qle_bool_Zsub a b : Qle_bool (inject_Z (a - b)) 0 = true <-> (a <= b)%Z.
Proof.
  rewrite Qle_bool_iff. change 0%Q with (inject_Z 0). rewrite <- Zle_Qle. lia.
Qed.

(** [(a, b) => a.getTime() - b.getTime()] orders the time values. *)
Lemma byTime_consistent : Order.consistent (fun a b : Z => inject_Z (a - b)).
Proof.
  split.
  - intros x y N. unfold Order.before. apply Qle_bool_Zsub.
    apply not_true_iff_false in N. rewrite Qle_bool_Zsub in N. lia.
  - intros x y z. unfold Order.before. rewrite !Qle_bool_Zsub. lia.
Qed.

(** The first element of a sorted list is before all, the last after all. *)
Lemma sorted_ends {A : Type} (R : A -> A -> Prop) (d : A) l :
  (forall x, R x x) -> StronglySorted R l -> l <> [] ->
  In (nth 0 l d) l /\ In (nth (List.length l - 1) l d) l /\
  Forall (fun x => R (nth 0 l d) x /\ R x (nth (List.length l - 1) l d)) l.
Proof.
  intros Refl St. induction St as [| a l St IH F]; intros NE; [now destruct NE |].
  destruct l as [| b r].
  - cbn; repeat split; auto; repeat constructor; apply Refl.
  - destruct IH as (_ & Last & All); [discriminate |].
    replace (List.length (a :: b :: r) - 1) with (S (List.length (b :: r) - 1))
      by (simpl; lia).
    change (nth (S (List.length (b :: r) - 1)) (a :: b :: r) d)
      with (nth (List.length (b :: r) - 1) (b :: r) d).
    change (nth 0 (a :: b :: r) d) with a.
    set (last := nth (List.length (b :: r) - 1) (b :: r) d) in *.
    split; [now left |]. split; [now right |].
    rewrite Forall_forall in F, All.
    constructor.
    + split; [apply Refl | now apply F].
    + apply Forall_forall. intros x I. split; [now apply F | now apply All].
Qed.

Lemma hd_error_nth {A : Type} (d : A) l : l <> [] -> hd_error l = Some (nth 0 l d).
Proof. destruct l; [contradiction | reflexivity]. Qed.

Lemma hd_error_rev {A : Type} (d : A) l :
  l <> [] -> hd_error (rev l) = Some (nth (List.length l - 1) l d).
Proof.
  intros NE. destruct (exists_last NE) as (l' & x & ->).
  rewrite rev_app_distr, length_app, app_nth2 by (simpl; lia).
  cbn. now replace (List.length l' + 1 - 1 - List.length l') with 0 by lia.
Qed.


(** The array of time values sorted ascending. *)
Lemma sorted_times ts :
  ts <> [] ->
  let sorted := Array_sort (fun a b => inject_Z (a - b)) ts in
  exists lo hi, hd_error sorted = Some lo /\ hd_error (rev sorted) = Some hi /\
                spans lo hi ts.
Proof.
  intros NE sorted.
  pose proof (Array_sort_perm (fun a b => inject_Z (a - b)) ts) as P. fold sorted in P.
  assert (sorted <> []) as NE'.
  { intros E. rewrite E in P. apply Permutation_sym, Permutation_nil in P.
    contradiction. }
  destruct (sorted_ends (fun x y => Order.before (fun a b => inject_Z (a - b)) x y)
                        0%Z sorted) as (Lo & Hi & All); auto.
  - intros x. unfold Order.before. apply Qle_bool_Zsub. lia.
  - apply Array_sort_sorted, byTime_consistent.
  - exists (nth 0 sorted 0%Z), (nth (List.length sorted - 1) sorted 0%Z).
    split; [now apply hd_error_nth |]. split; [now apply hd_error_rev |].
    unfold spans. repeat split.
    + eapply Permutation_in; [apply Permutation_sym, P | exact Lo].
    + eapply Permutation_in; [apply Permutation_sym, P | exact Hi].
    + eapply Permutation_Forall; [apply Permutation_sym, P |].
      eapply Forall_impl; [| exact All]. cbv beta. unfold Order.before.
      intros v [A B]. apply Qle_bool_Zsub in A, B. lia.
Qed.







End StatsFacts.

(* ------------------------------------------------------------------ *)
(** ** Tallies: what a distribution holds *)
(* ------------------------------------------------------------------ *)

Module TallyFacts.
Import Js Fhir Analytics JsFacts DistributionFacts Population Visits Census Tally.

Lemma Display_eqb_eq a b : EncounterAnalytics.Display_eqb a b = true <-> a = b.
Proof.
  destruct a, b; simpl; rewrite ?String.eqb_eq;
    split; intros E; try discriminate; try (now inversion E); now subst.
Qed.

Lemma sorted_weaken {A : Type} (R R' : A -> A -> Prop) l :
  (forall a b, R a b -> R' a b) -> StronglySorted R l -> StronglySorted R' l.
Proof.
  intros W St. induction St as [| a l St IH F]; constructor; [exact IH |].
  eapply Forall_impl; [| exact F]. intros b. apply W.
Qed.

Section Tallies.
Context {L : Type} (eqb : L -> L -> bool).
Hypothesis eqb_eq : forall a b, eqb a b = true <-> a = b.

Lemma Map_get_In (m : list (L * nat)) k n :
  NoDup (map fst m) -> In (k, n) m -> Map_get eqb m k = Some n.
Proof.
  induction m as [| [k' n'] r IH]; simpl; [intros _ [] |].
  intros N [E | I].
  - inversion E; subst. now rewrite (proj2 (eqb_eq k k) eq_refl).
  - inversion N as [| ? ? NI N']; subst.
    destruct (eqb k' k) eqn:E; [| now apply IH].
    apply eqb_eq in E. subst k'. exfalso. apply NI.
    change k with (fst (k, n)). now apply in_map.
Qed.

Lemma shares_labels t (counts : list (L * nat)) :
  map label (Counting.shares t counts) = map fst counts.
Proof.
  unfold Counting.shares. rewrite map_map. apply map_ext. now intros [k n].
Qed.

Lemma shares_counts t (counts : list (L * nat)) :
  map count (Counting.shares t counts) = map snd counts.
Proof.
  unfold Counting.shares. rewrite map_map. apply map_ext. now intros [k n].
Qed.

(** The comparator [(a, b) => b.count - a.count] orders the items. *)
Lemma byCount_consistent :
  Order.consistent
    (fun a b : DistributionItem L => inject_Z (Z.of_nat (count b) - Z.of_nat (count a))).
Proof.
  split.
  - intros x y N. unfold Order.before. apply StatsFacts.Qle_bool_Zsub.
    apply not_true_iff_false in N. rewrite StatsFacts.Qle_bool_Zsub in N. lia.
  - intros x y z. unfold Order.before. rewrite !StatsFacts.Qle_bool_Zsub. lia.
Qed.

(** The distribution of a map built by counting the labels [ks]. *)
Lemma createDistribution_tallies ks :
  let d := EncounterAnalytics.createDistribution (Counting.counted eqb [] ks) in
  tallies eqb ks d /\ descending d /\ listed d = List.length ks.
Proof.
  cbv zeta. set (m := Counting.counted eqb [] ks).
  pose proof (createDistribution_perm m) as P.
  set (d := EncounterAnalytics.createDistribution m) in *.
  assert (NoDup (map fst m)) as N by (apply counted_NoDup; [exact eqb_eq | constructor]).
  split; [| split].
  - unfold tallies. repeat split.
    + eapply Permutation_NoDup; [apply Permutation_map, P |].
      now rewrite shares_labels.
    + intros I. eapply Permutation_in; [apply Permutation_map, P |].
      rewrite shares_labels. apply (counted_In eqb eqb_eq). now left.
    + intros I. eapply Permutation_in in I; [| apply Permutation_sym, Permutation_map, P].
      rewrite shares_labels in I. apply (counted_In eqb eqb_eq) in I.
      destruct I as [I | []]. exact I.
    + eapply Permutation_Forall; [exact P |].
      unfold Counting.shares. apply Forall_map, Forall_forall.
      intros [k n] I. cbn [label count].
      pose proof (counted_count eqb eqb_eq ks [] k) as C.
      unfold Counting.count_of in C. fold m in C.
      rewrite (Map_get_In m k n N I) in C. simpl in C. exact C.
  - unfold descending.
    pose proof (Array_sort_sorted _
                  (Counting.shares (Counting.total m) m) byCount_consistent) as St.
    unfold d, EncounterAnalytics.createDistribution.
    rewrite fold_left_add. cbn [plus].
    eapply sorted_weaken; [| exact St].
    intros a b B. unfold Order.before in B. apply StatsFacts.Qle_bool_Zsub in B. lia.
  - unfold listed.
    rewrite <- (Permutation_map count P) at 1.
    rewrite shares_counts.
    pose proof (counted_total eqb ks []) as T. unfold Counting.total in T.
    fold m in T. rewrite T. reflexivity.
Qed.

Lemma createDistribution_topOf n ks :
  topOf eqb n ks
    (slice0 n (EncounterAnalytics.createDistribution (Counting.counted eqb [] ks))).
Proof.
  destruct (createDistribution_tallies ks) as (T & D & _).
  eexists. split; [exact T |]. split; [exact D | reflexivity].
Qed.

End Tallies.

Lemma present_nonempty v : Forall (fun s => s <> "") (present v).
Proof.
  unfold present. destruct v as [s |]; [| constructor].
  destruct (s =? "") eqn:E; simpl; constructor; [| constructor].
  intros ->. discriminate.
Qed.

Lemma Forall_flat_map {A B : Type} (P : B -> Prop) (f : A -> list B) l :
  (forall x, Forall P (f x)) -> Forall P (flat_map f l).
Proof.
  intros F. induction l as [| x r IH]; simpl; [constructor |].
  apply Forall_app. split; [apply F | exact IH].
Qed.

Lemma truthy_the o : truthy o = true -> the o <> "".
Proof.
  destruct o as [s |]; simpl; [| discriminate].
  destruct (s =? "") eqn:E; [discriminate |]. intros _ ->. discriminate.
Qed.

Lemma getTypeDisplay_nonempty e : EncounterAnalytics.getTypeDisplay e <> "".
Proof.
  unfold EncounterAnalytics.getTypeDisplay.
  destruct (type e) as [[| firstType rest] |]; try discriminate.
  destruct (truthy (text firstType)) eqn:T; [now apply truthy_the |].
  destruct (coding firstType) as [[| c0 cs] |]; try discriminate.
  unfold EncounterAnalytics.or_else.
  destruct (truthy (display c0)) eqn:D.
  - destruct (display c0) as [s |]; [| discriminate]. simpl in D.
    intros ->. discriminate.
  - destruct (truthy (code c0)) eqn:C; [| discriminate].
    destruct (code c0) as [s |]; [| discriminate]. simpl in C.
    intros ->. discriminate.
Qed.

(** The labels of a tally are among the labels counted. *)
Lemma tallies_labels {L : Type} (eqb : L -> L -> bool) (P : L -> Prop) ks d :
  tallies eqb ks d -> Forall P ks -> Forall (fun i => P (label i)) d.
Proof.
  intros (_ & In_ & _) F. apply Forall_forall. intros i I.
  rewrite Forall_forall in F. apply F, In_. now apply in_map.
Qed.

End TallyFacts.

(* ------------------------------------------------------------------ *)
(** ** More of the patient analyzer *)
(* ------------------------------------------------------------------ *)

Module PatientCensusFacts.
Import Js Fhir Analytics PatientAnalytics JsFacts DistributionFacts.
Import Population Census Tally TallyFacts.

(** A list of optional strings: those present, and those lacking. *)
Lemma present_or_lacking {A : Type} (field : A -> option string) l :
  List.length (flat_map (fun x => present (field x)) l)
  + List.length (filter (lacks field) l)
  = List.length l.
Proof.
  induction l as [| x r IH]; simpl; [reflexivity |].
  rewrite length_app. unfold lacks at 1, present at 1, truthy.
  destruct (field x) as [s |]; [destruct (s =? "") |]; simpl; lia.
Qed.

Lemma nodup_length (l : list string) : List.length (nodup string_dec l) <= List.length l.
Proof.
  induction l as [| x r IH]; simpl; [lia |].
  destruct (in_dec string_dec x r); simpl; lia.
Qed.

Lemma nodup_full (l : list string) :
  List.length (nodup string_dec l) = List.length l -> NoDup l.
Proof.
  induction l as [| x r IH]; simpl; [constructor |].
  pose proof (nodup_length r) as B.
  destruct (in_dec string_dec x r) as [I | NI]; simpl; intros E; [lia |].
  constructor; [exact NI | apply IH; lia].
Qed.

Lemma all_present {A : Type} (field : A -> option string) l :
  List.length (flat_map (fun x => present (field x)) l) = List.length l ->
  Forall (fun x => truthy (field x) = true) l /\
  map field l = map Some (flat_map (fun x => present (field x)) l).
Proof.
  induction l as [| x r IH]; simpl; [split; [constructor | reflexivity] |].
  rewrite length_app.
  pose proof (present_or_lacking field r) as B.
  destruct (field x) as [s |] eqn:Fx; cbn [present]; [| simpl; intros; lia].
  destruct (s =? "") eqn:Es; simpl; intros E; [lia |].
  destruct IH as [F M]; [lia |].
  split; [| now rewrite M].
  constructor; [| exact F]. rewrite Fx. simpl. now rewrite Es.
Qed.

Lemma present_all {A : Type} (field : A -> option string) l :
  Forall (fun x => truthy (field x) = true) l ->
  List.length (flat_map (fun x => present (field x)) l) = List.length l.
Proof.
  induction 1 as [| x r T F IH]; simpl; [reflexivity |].
  rewrite length_app, IH. unfold present, truthy in *.
  destruct (field x) as [s |]; [| discriminate]. now rewrite T.
Qed.

(** The number of different identifiers: never more than the records,
    and as many exactly when every record has one and no two share it. *)
Lemma distinct_ids {A : Type} (field : A -> option string) l :
  let n := List.length (nodup string_dec (flat_map (fun x => present (field x)) l)) in
  n <= List.length l /\
  (n = List.length l <->
   NoDup (map field l) /\ Forall (fun x => truthy (field x) = true) l).
Proof.
  cbv zeta. set (ids := flat_map (fun x => present (field x)) l).
  pose proof (nodup_length ids) as B1.
  pose proof (present_or_lacking field l) as B2. fold ids in B2.
  split; [lia |]. split.
  - intros E. assert (List.length ids = List.length l) as Full by lia.
    destruct (all_present field l Full) as [F M]. fold ids in M.
    split; [| exact F]. rewrite M.
    apply Finite.Injective_map_NoDup; [intros a b Eq; now inversion Eq |].
    apply nodup_full. lia.
  - intros [N F]. pose proof (present_all field l F) as Full. fold ids in Full.
    destruct (all_present field l Full) as [_ M]. fold ids in M.
    rewrite M in N. apply NoDup_map_inv in N.
    now rewrite nodup_fixed_point.
Qed.

Section Census.
Context `{H : Host}.

(** What the loop leaves in its other counters and in [birthDates]. *)
Lemma patient_loop_more patients : forall st w,
  let st' := fst (loop st patients w) in
  birthDates st' = (birthDates st ++ birthTimesOf patients)%list /\
  l_missingBirthDate st'
  = l_missingBirthDate st + List.length (filter (lacks birthDate) patients) /\
  l_missingGender st'
  = l_missingGender st + List.length (filter (lacks gender) patients) /\
  l_missingAddress st'
  = l_missingAddress st
    + List.length (filter (fun p => match primaryAddress p with
                                    | None => true
                                    | Some _ => false
                                    end) patients).
Proof.
  induction patients as [| p rest IH]; intros st w; cbn [loop].
  - cbn. rewrite app_nil_r. repeat split; lia.
  - unfold step.
    destruct (calculateAge (birthDate p) (deceasedDateTime p) w) as [age w'].
    specialize (IH (body st p age) w'). cbv zeta in IH |- *.
    destruct IH as (B & MB & MG & MA). rewrite B, MB, MG, MA. clear B MB MG MA.
    unfold birthTimesOf, lacks.
    cbn [flat_map filter body birthDates l_missingBirthDate l_missingGender
         l_missingAddress].
    repeat split.
    + destruct (truthy (birthDate p)); [| reflexivity].
      destruct (Date_parse (the (birthDate p))); [| reflexivity].
      now rewrite <- app_assoc.
    + destruct (truthy (birthDate p)); cbn [negb List.length]; lia.
    + destruct (truthy (gender p)); cbn [negb List.length]; lia.
    + destruct (primaryAddress p); cbn [List.length]; lia.
Qed.

(** X8.  The gender distribution and [missingGender] together account for
    every patient.  The three counters of missing fields count the
    patients whose gender, birth date or first address is absent (or the
    empty string, or an empty address list): a birth date that is present
    but is not a date is not counted as missing. *)
Theorem analyzePatients_missing_counts patients w :
  let a := fst (analyzePatients patients w) in
  listed (genderDistribution a) + missingGender a = totalPatients a /\
  missingGender a = List.length (filter (lacks gender) patients) /\
  missingBirthDate a = List.length (filter (lacks birthDate) patients) /\
  missingAddress a
  = List.length (filter (fun p => match address p with
                                  | Some (_ :: _) => false
                                  | _ => true
                                  end) patients).
Proof.
  cbv zeta. rewrite PatientFacts.analyzePatients_fst. cbv zeta.
  cbn [genderDistribution missingGender totalPatients missingBirthDate missingAddress].
  destruct (PatientFacts.patient_loop_state patients init w) as (G & _).
  destruct (patient_loop_more patients init w) as (_ & MB & MG & MA).
  cbv zeta in *. rewrite G, MB, MG, MA. cbn [init genderCounts l_missingBirthDate
    l_missingGender l_missingAddress plus].
  rewrite patient_createDistribution.
  destruct (createDistribution_tallies String.eqb PatientFacts.string_eqb_eq
              (gendersOf patients)) as (_ & _ & Ls).
  cbv zeta in Ls. rewrite Ls.
  repeat split.
  - apply (present_or_lacking gender).
  - f_equal. apply filter_ext. intros p. unfold primaryAddress.
    now destruct (address p) as [[| a0 r] |].
Qed.

(** X9.  The gender, race and ethnicity distributions have one item for
    each different value, with the number of patients that have it, in
    descending order of that number; the state and city distributions are
    the first 15 and 20 items of such a tally.  No label is the empty
    string. *)
Theorem analyzePatients_tallies patients w :
  let a := fst (analyzePatients patients w) in
  (tallies String.eqb (gendersOf patients) (genderDistribution a) /\
   descending (genderDistribution a)) /\
  (tallies String.eqb (racesOf patients) (raceDistribution a) /\
   descending (raceDistribution a)) /\
  (tallies String.eqb (ethnicitiesOf patients) (ethnicityDistribution a) /\
   descending (ethnicityDistribution a)) /\
  topOf String.eqb 15 (statesOf patients) (stateDistribution a) /\
  topOf String.eqb 20 (citiesOf patients) (cityDistribution a) /\
  Forall (fun i => label i <> "")
         (genderDistribution a ++ raceDistribution a ++ ethnicityDistribution a
          ++ stateDistribution a ++ cityDistribution a).
Proof.
  cbv zeta. rewrite PatientFacts.analyzePatients_fst. cbv zeta.
  cbn [genderDistribution raceDistribution ethnicityDistribution stateDistribution
       cityDistribution].
  destruct (PatientFacts.patient_loop_state patients init w) as (G & R & E & S' & C & _).
  cbv zeta in *. rewrite G, R, E, S', C. cbn [init genderCounts raceCounts
    ethnicityCounts stateCounts cityCounts].
  rewrite !patient_createDistribution.
  pose proof (createDistribution_tallies String.eqb PatientFacts.string_eqb_eq
                (gendersOf patients)) as (TG & DG & _).
  pose proof (createDistribution_tallies String.eqb PatientFacts.string_eqb_eq
                (racesOf patients)) as (TR & DR & _).
  pose proof (createDistribution_tallies String.eqb PatientFacts.string_eqb_eq
                (ethnicitiesOf patients)) as (TE & DE & _).
  pose proof (createDistribution_tallies String.eqb PatientFacts.string_eqb_eq
                (statesOf patients)) as (TS & _ & _).
  pose proof (createDistribution_tallies String.eqb PatientFacts.string_eqb_eq
                (citiesOf patients)) as (TC & _ & _).
  split; [split; assumption |]. split; [split; assumption |].
  split; [split; assumption |].
  split; [apply createDistribution_topOf, PatientFacts.string_eqb_eq |].
  split; [apply createDistribution_topOf, PatientFacts.string_eqb_eq |].
  repeat (apply Forall_app; split).
  - eapply (tallies_labels String.eqb (fun s => s <> "")); [exact TG |].
    apply Forall_flat_map. intros p. apply present_nonempty.
  - eapply (tallies_labels String.eqb (fun s => s <> "")); [exact TR |].
    apply Forall_flat_map. intros p. apply present_nonempty.
  - eapply (tallies_labels String.eqb (fun s => s <> "")); [exact TE |].
    apply Forall_flat_map. intros p. apply present_nonempty.
  - apply NdjsonParserFacts.Forall_prefix.
    eapply (tallies_labels String.eqb (fun s => s <> "")); [exact TS |].
    apply Forall_flat_map. intros p.
    destruct (primaryAddress p); [apply present_nonempty | constructor].
  - apply NdjsonParserFacts.Forall_prefix.
    eapply (tallies_labels String.eqb (fun s => s <> "")); [exact TC |].
    apply Forall_flat_map. intros p.
    destruct (primaryAddress p); [apply present_nonempty | constructor].
Qed.


(** X11.  [birthDateRange] spans the birth dates that are dates: its
    bounds are the earliest and the latest of them, formatted by the host;
    without any there are no bounds and both texts are N/A. *)
Theorem analyzePatients_birthDateRange patients w :
  let range := birthDateRange (fst (analyzePatients patients w)) in
  match birthTimesOf patients with
  | [] =>
      dr_min range = None /\ dr_max range = None /\
      minFormatted range = "N/A" /\ maxFormatted range = "N/A"
  | _ :: _ =>
      exists lo hi,
        dr_min range = Some lo /\ dr_max range = Some hi /\
        spans lo hi (birthTimesOf patients) /\
        minFormatted range = toLocaleDateString lo /\
        maxFormatted range = toLocaleDateString hi
  end.
Proof.
  cbv zeta. rewrite PatientFacts.analyzePatients_fst. cbv zeta.
  cbn [birthDateRange].
  destruct (patient_loop_more patients init w) as (B & _).
  cbv zeta in B. rewrite B. cbn [init birthDates app].
  destruct (birthTimesOf patients) as [| t ts] eqn:E.
  - cbn. repeat split.
  - destruct (StatsFacts.sorted_times (t :: ts)) as (lo & hi & Hd & Tl & Sp);
      [discriminate |].
    cbv zeta in Hd, Tl. exists lo, hi. unfold dateRange.
    cbn [dr_min dr_max minFormatted maxFormatted]. rewrite Hd, Tl.
    repeat split; exact Sp || apply Sp.
Qed.




(** Patients whose age needs no clock: the loop leaves the world as it
    found it and computes the same whatever the clock reads. *)
Lemma calculateAge_without_clock p w1 w2 :
  agedToday p = false ->
  calculateAge (birthDate p) (deceasedDateTime p) w1
  = (fst (calculateAge (birthDate p) (deceasedDateTime p) w2), w1).
Proof.
  unfold agedToday, calculateAge, truthy.
  destruct (birthDate p) as [b |]; cbn [negb andb the]; [| reflexivity].
  destruct (b =? ""); cbn [negb andb]; [reflexivity |].
  destruct (Date_parse b) as [birth |]; cbn [andb]; [| reflexivity].
  destruct (deceasedDateTime p) as [d |]; cbn [negb]; [| discriminate].
  destruct (d =? ""); cbn [negb]; [discriminate |]. intros _.
  now destruct (Date_parse d).
Qed.

Lemma loop_without_clock patients : forall st w1 w2,
  forallb (fun p => negb (agedToday p)) patients = true ->
  loop st patients w1 = (fst (loop st patients w2), w1).
Proof.
  induction patients as [| p rest IH]; intros st w1 w2 F; cbn [loop]; [reflexivity |].
  cbn [forallb] in F. apply andb_prop in F. destruct F as [Fp F].
  apply negb_true_iff in Fp. unfold step.
  rewrite (calculateAge_without_clock p w1 w2 Fp).
  destruct (calculateAge (birthDate p) (deceasedDateTime p) w2) as [age w2'] eqn:E2.
  cbn [fst]. rewrite (IH _ w1 w2' F). reflexivity.
Qed.

(** X13.  When no patient's age is computed from the current date (each
    has a date of death, or no birth date that is a date), the analysis
    never reads the clock: it leaves the world as it was and gives the
    same analytics at any time. *)
Theorem analyzePatients_without_clock patients w1 w2 :
  forallb (fun p => negb (agedToday p)) patients = true ->
  snd (analyzePatients patients w1) = w1 /\
  fst (analyzePatients patients w1) = fst (analyzePatients patients w2).
Proof.
  intros F. unfold analyzePatients.
  rewrite (loop_without_clock patients init w1 w2 F).
  destruct (loop init patients w2) as [st w2']. split; reflexivity.
Qed.

End Census.
End PatientCensusFacts.

(* ------------------------------------------------------------------ *)
(** ** More of the encounter analyzer *)
(* ------------------------------------------------------------------ *)

Module EncounterCensusFacts.
Import Js Fhir Analytics EncounterAnalytics JsFacts DistributionFacts.
Import Population Visits Census Tally TallyFacts.

Lemma startsWith_append p x : startsWith (p ++ x) p = true.
Proof. unfold startsWith. induction p as [| c r IH]; simpl.
  - now destruct x.
  - now rewrite Ascii.eqb_refl || (destruct (ascii_dec c c); [exact IH | contradiction]).
Qed.

Lemma substring_from_append p x : substring_from (p ++ x) (String.length p) = x.
Proof.
  unfold substring_from. rewrite DiagnosticsFacts.append_length.
  replace (String.length p + String.length x - String.length p)
    with (String.length x) by lia.
  induction p as [| c r IH]; simpl; [| exact IH].
  induction x as [| c r IH]; simpl; [reflexivity |]. now rewrite IH.
Qed.

Lemma listed_split {L : Type} n (d : list (DistributionItem L)) :
  listed (firstn n d) + listed (skipn n d) = listed d.
Proof.
  unfold listed. rewrite <- (firstn_skipn n d) at 3.
  now rewrite map_app, list_sum_app.
Qed.

Lemma listed_positive {L : Type} (d : list (DistributionItem L)) :
  Forall (fun i => 0 < count i) d -> d <> [] -> 0 < listed d.
Proof.
  intros F NE. destruct F as [| i r P F]; [contradiction |].
  unfold listed. simpl. lia.
Qed.

Section Census.
Context `{H : Host}.

(** X14.  A reference names its patient with or without a prefix: the
    key is what follows [Patient/] or [urn:uuid:], so both styles of one
    identifier give one key.  The bare prefix [Patient/] gives the empty
    key, which the analyzer counts as a missing subject. *)
Theorem extractPatientId_styles id :
  extractPatientId (Some ("Patient/" ++ id)) = Some id /\
  extractPatientId (Some ("urn:uuid:" ++ id)) = Some id /\
  truthy (extractPatientId (Some "Patient/")) = false.
Proof.
  repeat split.
  - unfold extractPatientId.
    change ("Patient/" ++ id =? "") with false. cbv iota.
    rewrite (startsWith_append "Patient/" id).
    change 8 with (String.length "Patient/").
    now rewrite (substring_from_append "Patient/" id).
  - unfold extractPatientId.
    change ("urn:uuid:" ++ id =? "") with false. cbv iota.
    change (startsWith ("urn:uuid:" ++ id) "Patient/") with false. cbv iota.
    rewrite (startsWith_append "urn:uuid:" id).
    change 9 with (String.length "urn:uuid:").
    now rewrite (substring_from_append "urn:uuid:" id).
Qed.

(** What the loop leaves in its other counters and in [periodDates]. *)
Lemma encounter_loop_more encounters : forall st,
  let st' := loop st encounters in
  periodDates st' = (periodDates st ++ startTimesOf encounters)%list /\
  l_missingPeriodEnd st'
  = l_missingPeriodEnd st + List.length (filter (lacks periodEnd) encounters) /\
  l_missingSubject st'
  = l_missingSubject st
    + List.length (filter (lacks (fun e => extractPatientId (subjectReference e)))
                          encounters).
Proof.
  induction encounters as [| e rest IH]; intros st; cbn [loop fold_left].
  - cbn. rewrite app_nil_r. repeat split; lia.
  - specialize (IH (step st e)). unfold loop in IH. cbv zeta in IH |- *.
    destruct IH as (P & ME & MS). rewrite P, ME, MS. clear P ME MS.
    unfold startTimesOf, lacks. cbn [flat_map filter].
    unfold step. cbn [periodDates l_missingPeriodEnd l_missingSubject].
    repeat split.
    + destruct (truthy (periodStart e)); [| reflexivity].
      destruct (Date_parse (the (periodStart e))); [| reflexivity].
      now rewrite <- app_assoc.
    + destruct (truthy (periodEnd e)); cbn [negb List.length]; lia.
    + destruct (truthy (extractPatientId (subjectReference e)));
        cbn [negb List.length]; lia.
Qed.

(** X15.  The class distribution and [missingClass] together account for
    every encounter.  The type distribution accounts for every encounter
    when there are at most 15 different types, and for fewer otherwise.
    [missingPeriodEnd] and [missingSubject] count the encounters without
    an end and without a patient key; the encounters with a key and
    [missingSubject] are all encounters, and [uniquePatientRefs] is the
    number of different keys. *)
Theorem analyzeEncounters_missing_counts encounters :
  let e := analyzeEncounters encounters in
  listed (classDistribution e) + missingClass e = totalEncounters e /\
  (if (distinct (typesOf encounters) <=? 15)%nat
   then listed (typeDistribution e) = totalEncounters e
   else listed (typeDistribution e) < totalEncounters e) /\
  missingPeriodEnd e = List.length (filter (lacks periodEnd) encounters) /\
  missingSubject e
  = List.length (filter (lacks (fun x => extractPatientId (subjectReference x)))
                        encounters) /\
  List.length (patientIdsOf encounters) + missingSubject e = totalEncounters e /\
  uniquePatientRefs e = distinct (patientIdsOf encounters).
Proof.
  cbv zeta. unfold analyzeEncounters.
  cbn [classDistribution missingClass totalEncounters typeDistribution
       missingPeriodEnd missingSubject uniquePatientRefs].
  destruct (EncounterFacts.encounter_loop_state encounters init)
    as (C & T & _ & _ & P & _ & _ & MC).
  destruct (encounter_loop_more encounters init) as (_ & ME & MS).
  cbv zeta in *. rewrite C, T, P, MC, ME, MS.
  cbn [init classCounts typeCounts patientCounts l_missingClass l_missingPeriodEnd
       l_missingSubject plus].
  destruct (createDistribution_tallies Display_eqb Display_eqb_eq (classesOf encounters))
    as (_ & _ & LC).
  destruct (createDistribution_tallies String.eqb PatientFacts.string_eqb_eq
              (typesOf encounters)) as (_ & _ & LT).
  cbv zeta in LC, LT. rewrite LC.
  split; [| split; [| repeat split]].
  - unfold classesOf.
    assert (forall l : list FhirEncounter,
              List.length (flat_map (fun x => match class x with
                                              | Some _ => [getClassDisplay x]
                                              | None => []
                                              end) l)
              + List.length (filter (fun x => match class x with
                                              | None => true
                                              | Some _ => false
                                              end) l)
              = List.length l) as Part.
    { induction l as [| x r IH]; simpl; [reflexivity |].
      destruct (class x); simpl; lia. }
    apply Part.
  - set (full := createDistribution (Counting.counted String.eqb [] (typesOf encounters)))
      in *.
    pose proof (listed_split 15 full) as Sp. unfold slice0.
    assert (List.length full = distinct (typesOf encounters)) as Len
      by (unfold full; rewrite createDistribution_length;
          apply AnalyzerFacts.counted_distinct).
    unfold typesOf in LT. rewrite length_map in LT.
    destruct (Nat.leb_spec (distinct (typesOf encounters)) 15) as [Le | Gt].
    + rewrite firstn_all2 by lia. exact LT.
    + assert (0 < listed (skipn 15 full)); [| lia].
      apply listed_positive.
      * apply Forall_forall. intros i I.
        assert (In i full) as I'
          by (rewrite <- (firstn_skipn 15 full); apply in_or_app; now right).
        pose proof (createDistribution_perm
                      (Counting.counted String.eqb [] (typesOf encounters))) as Pm.
        eapply Permutation_in in I'; [| apply Permutation_sym, Pm].
        unfold Counting.shares in I'. apply in_map_iff in I'.
        destruct I' as ([k n] & <- & I'). cbn [count].
        pose proof (AnalyzerFacts.counted_nil_positive String.eqb (typesOf encounters))
          as Pos.
        rewrite Forall_forall in Pos. apply (Pos _ I').
      * intros E. apply (f_equal (@List.length _)) in E.
        rewrite length_skipn in E. simpl in E. lia.
  - apply (PatientCensusFacts.present_or_lacking
             (fun x => extractPatientId (subjectReference x))).
  - apply AnalyzerFacts.counted_distinct.
Qed.

(** X16.  The class and status distributions have one item for each
    different value, with the number of encounters that have it, in
    descending order of that number; the type distribution is the first
    15 items of such a tally.  No status or type label is the empty
    string. *)
Theorem analyzeEncounters_tallies encounters :
  let e := analyzeEncounters encounters in
  (tallies Display_eqb (classesOf encounters) (classDistribution e) /\
   descending (classDistribution e)) /\
  (tallies String.eqb (statusesOf encounters) (statusDistribution e) /\
   descending (statusDistribution e)) /\
  topOf String.eqb 15 (typesOf encounters) (typeDistribution e) /\
  Forall (fun i => label i <> "") (statusDistribution e ++ typeDistribution e).
Proof.
  cbv zeta. unfold analyzeEncounters.
  cbn [classDistribution statusDistribution typeDistribution].
  destruct (EncounterFacts.encounter_loop_state encounters init) as (C & T & St & _).
  cbv zeta in *. rewrite C, T, St. cbn [init classCounts typeCounts statusCounts].
  pose proof (createDistribution_tallies Display_eqb Display_eqb_eq
                (classesOf encounters)) as (TC & DC & _).
  pose proof (createDistribution_tallies String.eqb PatientFacts.string_eqb_eq
                (statusesOf encounters)) as (TS & DS & _).
  pose proof (createDistribution_tallies String.eqb PatientFacts.string_eqb_eq
                (typesOf encounters)) as (TT & _ & _).
  split; [split; assumption |]. split; [split; assumption |].
  split; [apply createDistribution_topOf, PatientFacts.string_eqb_eq |].
  apply Forall_app; split.
  - eapply (tallies_labels String.eqb (fun s => s <> "")); [exact TS |].
    apply Forall_flat_map. intros x. apply present_nonempty.
  - apply NdjsonParserFacts.Forall_prefix.
    eapply (tallies_labels String.eqb (fun s => s <> "")); [exact TT |].
    unfold typesOf. apply Forall_map, Forall_forall. intros x _.
    apply getTypeDisplay_nonempty.
Qed.

(** X17.  [periodCoverage] spans the starts that are dates: its bounds
    are the earliest and the latest of them, formatted by the host;
    without any there are no bounds and both texts are N/A. *)
Theorem analyzeEncounters_periodCoverage encounters :
  let range := periodCoverage (analyzeEncounters encounters) in
  match startTimesOf encounters with
  | [] =>
      dr_min range = None /\ dr_max range = None /\
      minFormatted range = "N/A" /\ maxFormatted range = "N/A"
  | _ :: _ =>
      exists lo hi,
        dr_min range = Some lo /\ dr_max range = Some hi /\
        spans lo hi (startTimesOf encounters) /\
        minFormatted range = toLocaleDateString lo /\
        maxFormatted range = toLocaleDateString hi
  end.
Proof.
  cbv zeta. unfold analyzeEncounters. cbn [periodCoverage].
  destruct (encounter_loop_more encounters init) as (P & _).
  cbv zeta in P. rewrite P. cbn [init periodDates app].
  destruct (startTimesOf encounters) as [| t ts] eqn:E.
  - cbn. repeat split.
  - destruct (StatsFacts.sorted_times (t :: ts)) as (lo & hi & Hd & Tl & Sp);
      [discriminate |].
    cbv zeta in Hd, Tl. exists lo, hi. unfold dateRange.
    cbn [dr_min dr_max minFormatted maxFormatted]. rewrite Hd, Tl.
    repeat split; exact Sp || apply Sp.
Qed.


(** X19.  The number of unique identifiers is never more than the number
    of records, and equals it exactly when every record has an identifier
    that is not empty and no two records share one; for patients and for
    encounters alike. *)
Theorem uniqueIds_all_unique patients w encounters :
  let a := fst (PatientAnalytics.analyzePatients patients w) in
  let e := analyzeEncounters encounters in
  PatientAnalytics.uniqueIds a <= PatientAnalytics.totalPatients a /\
  (PatientAnalytics.uniqueIds a = PatientAnalytics.totalPatients a <->
   NoDup (map p_id patients) /\ Forall (fun p => truthy (p_id p) = true) patients) /\
  uniqueEncounterIds e <= totalEncounters e /\
  (uniqueEncounterIds e = totalEncounters e <->
   NoDup (map e_id encounters) /\ Forall (fun x => truthy (e_id x) = true) encounters).
Proof.
  cbv zeta. rewrite PatientFacts.analyzePatients_fst. cbv zeta.
  unfold analyzeEncounters.
  cbn [PatientAnalytics.uniqueIds PatientAnalytics.totalPatients
       uniqueEncounterIds totalEncounters].
  unfold PatientAnalytics.uniqueCount, uniqueCount.
  assert (forall (A : Type) (field : A -> option string) l,
            flat_map (fun o => match o with
                               | Some s => if negb (s =? "") then [s] else []
                               | None => []
                               end) (map field l)
            = flat_map (fun x => present (field x)) l) as Ids.
  { intros A field l. induction l as [| x r IH]; simpl; [reflexivity |].
    now rewrite IH. }
  rewrite !Ids.
  destruct (PatientCensusFacts.distinct_ids p_id patients) as [A1 A2].
  destruct (PatientCensusFacts.distinct_ids e_id encounters) as [B1 B2].
  cbv zeta in *.
  split; [exact A1 |]. split; [exact A2 |]. split; [exact B1 | exact B2].
Qed.

End Census.
End EncounterCensusFacts.

(* ------------------------------------------------------------------ *)
(** ** Joined inputs, and the shape of the histograms *)
(* ------------------------------------------------------------------ *)

Module ShapeFacts.
Import Js Fhir Analytics NdjsonParser Lines Shapes.

Section Shapes.
Context `{H : Host}.

Lemma firstKind_app l1 l2 :
  firstKind (l1 ++ l2)
  = match firstKind l1 with Some d => Some d | None => firstKind l2 end.
Proof.
  unfold firstKind. rewrite NdjsonParserFacts.parsedRecords_app.
  now destruct (parsedRecords l1).
Qed.

(** X20.  Two inputs joined by a line feed parse to the records of the
    first followed by the records of the second; the numbers of total,
    valid and invalid lines add up; and the detected type is that of the
    first input unless it has no record.  The joined input gives a result
    whenever both inputs do. *)
Theorem parseNdjson_joined a b w wa wb ra rb :
  fst (parseNdjson a wa) = Some ra ->
  fst (parseNdjson b wb) = Some rb ->
  exists r,
    fst (parseNdjson (a ++ String LF b) w) = Some r /\
    resources r = (resources ra ++ resources rb)%list /\
    totalLines r = totalLines ra + totalLines rb /\
    validLines r = validLines ra + validLines rb /\
    invalidLines r = invalidLines ra + invalidLines rb /\
    resourceType r = match resources ra with
                     | [] => resourceType rb
                     | _ :: _ => resourceType ra
                     end.
Proof.
  intros Ra Rb.
  assert (forall input w0 r0,
            fst (parseNdjson input w0) = Some r0 ->
            resources r0 = parsedRecords (split LF input) /\
            resourceType r0 = match firstKind (split LF input) with
                              | Some d => d
                              | None => JStr "Unknown"
                              end /\
            totalLines r0 = List.length (split LF input) /\
            validLines r0 = List.length (parsedRecords (split LF input)) /\
            invalidLines r0 = List.length (filter isInvalid (split LF input))) as Shape.
  { intros input w0 r0 R0. pose proof R0 as R1.
    rewrite NdjsonParserFacts.parseNdjson_fst in R0.
    pose proof (NdjsonParserFacts.finish_result (split LF input)
      (perf_clock w0 (S (perf_reads w0)) - perf_clock w0 (perf_reads w0))%Q) as F.
    cbv zeta in F. rewrite R0 in F. destruct F as (Rs & Rt & T & V & _).
    rewrite NdjsonParserFacts.loop_valid in V. cbn [init l_validLines plus] in V.
    repeat split; try assumption.
    apply (NdjsonParserFacts.invalidLines_total input w0 r0 R1). }
  destruct (Shape a wa ra Ra) as (Rsa & Rta & Ta & Va & Ia).
  destruct (Shape b wb rb Rb) as (Rsb & Rtb & Tb & Vb & Ib).
  destruct (fst (parseNdjson (a ++ String LF b) w)) as [r |] eqn:R.
  - exists r. split; [reflexivity |].
    destruct (Shape _ w r R) as (Rs & Rt & T & V & I).
    rewrite NdjsonParserFacts.split_app in *.
    rewrite NdjsonParserFacts.parsedRecords_app in *.
    rewrite firstKind_app in Rt. rewrite filter_app in I. rewrite !length_app in *.
    rewrite Rs, Rsa, Rsb, T, Ta, Tb, V, Va, Vb, I, Ia, Ib, Rt, Rta, Rtb.
    repeat split.
    unfold firstKind. now destruct (parsedRecords (split LF a)).
  - exfalso. apply NdjsonParserFacts.parseNdjson_returns in R.
    destruct R as (d & K & T).
    rewrite NdjsonParserFacts.split_app, firstKind_app in K.
    destruct (firstKind (split LF a)) as [da |] eqn:Ka.
    + inversion K; subst da.
      assert (fst (parseNdjson a wa) = None) as N
        by (apply NdjsonParserFacts.parseNdjson_returns; exists d; split; congruence).
      congruence.
    + assert (fst (parseNdjson b wb) = None) as N
        by (apply NdjsonParserFacts.parseNdjson_returns; exists d; split; congruence).
      congruence.
Qed.

Lemma incr_first_frame test bs : map frame (incr_first test bs) = map frame bs.
Proof.
  induction bs as [| b r IH]; simpl; [reflexivity |].
  destruct (test b); simpl; [reflexivity | now rewrite IH].
Qed.

Lemma fill_frame (test : number -> HistogramBucket -> bool) xs : forall bs,
  map frame (fold_left (fun buckets x => incr_first (test x) buckets) xs bs)
  = map frame bs.
Proof.
  induction xs as [| x r IH]; intros bs; simpl; [reflexivity |].
  now rewrite IH, incr_first_frame.
Qed.

(** X21.  The age histogram always has its ten buckets, empty ones too,
    in their order.  The histograms of the length of stay and of the
    encounters per patient keep only the buckets that have a count: they
    are the buckets of the fixed list, in its order, filtered by a
    positive count. *)
Theorem histogram_shapes patients w encounters :
  let a := fst (PatientAnalytics.analyzePatients patients w) in
  let e := EncounterAnalytics.analyzeEncounters encounters in
  map frame (PatientAnalytics.ageDistribution a) = map frame PatientAnalytics.age_buckets /\
  (exists filled,
      map frame filled = map frame EncounterAnalytics.los_buckets /\
      EncounterAnalytics.losDistribution e
      = filter (fun b => (0 <? b_count b)%nat) filled) /\
  (exists filled,
      map frame filled = map frame EncounterAnalytics.perPatient_buckets /\
      EncounterAnalytics.encountersPerPatient e
      = filter (fun b => (0 <? b_count b)%nat) filled) /\
  Forall (fun b => 0 < b_count b)
         (EncounterAnalytics.losDistribution e ++ EncounterAnalytics.encountersPerPatient e).
Proof.
  cbv zeta. rewrite PatientFacts.analyzePatients_fst. cbv zeta.
  unfold EncounterAnalytics.analyzeEncounters.
  cbn [PatientAnalytics.ageDistribution EncounterAnalytics.losDistribution
       EncounterAnalytics.encountersPerPatient].
  unfold PatientAnalytics.createAgeHistogram, EncounterAnalytics.createLosHistogram,
    EncounterAnalytics.createEncountersPerPatientHistogram.
  split; [apply (fill_frame (fun x b => Qle_bool (min b) x && le_max x b)) |].
  split; [eexists; split; [| reflexivity];
          apply (fill_frame (fun x b => Qle_bool (min b) x && lt_max x b)) |].
  split; [eexists; split; [| reflexivity];
          apply (fill_frame (fun x b => Qle_bool (min b) x && le_max x b)) |].
  apply Forall_app; split; apply Forall_forall; intros b I;
    apply filter_In in I; destruct I as [_ P]; now apply Nat.ltb_lt in P.
Qed.

End Shapes.
End ShapeFacts.

(* ------------------------------------------------------------------ *)
(** ** The pages of the table *)
(* ------------------------------------------------------------------ *)

Module ResourceTableFacts.
Import Js ResourceTable Shapes.

Section Pages.
Context {A : Type}.
Implicit Types (rows : list A).

(** The page [j + 1] is the [j]-th run of [pageSize] rows. *)
Lemma page_chunk rows j pageSize :
  (0 < pageSize)%Z ->
  paginatedResources rows (Z.of_nat (S j)) pageSize
  = firstn (Z.to_nat pageSize) (skipn (j * Z.to_nat pageSize) rows).
Proof.
  intros P. unfold paginatedResources, Array_slice, relativeIndex.
  set (len := Z.of_nat (List.length rows)).
  set (s := Z.to_nat pageSize).
  assert (pageSize = Z.of_nat s) as Es by (unfold s; lia).
  replace ((Z.of_nat (S j) - 1) * pageSize)%Z with (Z.of_nat (j * s)) by nia.
  rewrite Es.
  replace (Z.of_nat (j * s) <? 0)%Z with false by (symmetry; apply Z.ltb_ge; lia).
  replace (Z.of_nat (j * s) + Z.of_nat s <? 0)%Z with false
    by (symmetry; apply Z.ltb_ge; lia).
  destruct (Nat.le_gt_cases (List.length rows) (j * s)) as [Out | In_].
  - rewrite !skipn_all2 by (unfold len; lia). now rewrite !firstn_nil.
  - replace (Z.to_nat (Z.min (Z.of_nat (j * s)) len)) with (j * s) by (unfold len; lia).
    destruct (Nat.le_gt_cases (j * s + s) (List.length rows)) as [Full | Part].
    + f_equal. unfold len. lia.
    + replace (Z.to_nat (Z.min (Z.of_nat (j * s) + Z.of_nat s) len
                         - Z.min (Z.of_nat (j * s)) len))
        with (List.length rows - j * s) by (unfold len; lia).
      rewrite !firstn_all2; [reflexivity | |]; rewrite length_skipn; lia.
Qed.

Lemma chunks_concat s : forall k rows,
  List.length rows <= k * s ->
  concat (map (fun j => firstn s (skipn (j * s) rows)) (seq 0 k)) = rows.
Proof.
  induction k as [| k IH]; intros rows B.
  - simpl in *. destruct rows; [reflexivity | simpl in B; lia].
  - cbn [seq map concat]. rewrite <- seq_shift, map_map.
    cbn [Nat.mul skipn].
    rewrite (map_ext _ (fun j => firstn s (skipn (j * s) (skipn s rows)))).
    + rewrite IH by (rewrite length_skipn; lia). apply firstn_skipn.
    + intros j. rewrite skipn_skipn. f_equal. f_equal. lia.
Qed.

(** The number of pages, between the rows over the page size and one more. *)
Lemma totalPages_bounds n pageSize :
  (0 < pageSize)%Z ->
  let t := totalPages n pageSize in
  (Z.of_nat n <= t * pageSize)%Z /\ ((t - 1) * pageSize < Z.of_nat n)%Z.
Proof.
  intros P. cbv zeta. unfold totalPages.
  set (x := (inject_Z (Z.of_nat n) / inject_Z pageSize)%Q).
  pose proof (Qle_ceiling x) as Up.
  pose proof (Qceiling_lt x) as Lo.
  assert (0 < inject_Z pageSize)%Q as Pq
    by (change 0%Q with (inject_Z 0); now rewrite <- Zlt_Qlt).
  assert (x * inject_Z pageSize == inject_Z (Z.of_nat n))%Q as Ex.
  { unfold x. field. intros E. rewrite E in Pq. now apply Qlt_irrefl in Pq. }
  split.
  - rewrite Zle_Qle, inject_Z_mult, <- Ex.
    apply Qmult_le_compat_r; [exact Up | now apply Qlt_le_weak].
  - rewrite Zlt_Qlt, inject_Z_mult, <- Ex.
    apply Qmult_lt_compat_r; [exact Pq | exact Lo].
Qed.

(** X22.  With a page size of the list, the pages from 1 to [totalPages]
    put one after another are all the rows, each row once and in order;
    each of these pages has at least one row and at most a page size of
    them; a page after the last has none; and the two page buttons keep
    the page between 1 and [totalPages]. *)
Theorem pages_partition rows pageSize :
  In pageSize PAGE_SIZES ->
  concat (pagesOf rows pageSize) = rows /\
  Forall (fun page => 1 <= List.length page <= Z.to_nat pageSize)
         (pagesOf rows pageSize) /\
  (forall page, (totalPages (List.length rows) pageSize < page)%Z ->
                paginatedResources rows page pageSize = []) /\
  (forall page, (1 <= page <= totalPages (List.length rows) pageSize)%Z ->
     (1 <= previousPage page <= totalPages (List.length rows) pageSize)%Z /\
     (1 <= nextPage (totalPages (List.length rows) pageSize) page
      <= totalPages (List.length rows) pageSize)%Z).
Proof.
  intros Size.
  assert (0 < pageSize)%Z as P
    by (simpl in Size; repeat (destruct Size as [<- | Size]; [lia |]); contradiction).
  clear Size.
  destruct (totalPages_bounds (List.length rows) pageSize P) as [Up Lo].
  cbv zeta in Up, Lo. set (t := totalPages (List.length rows) pageSize) in *.
  set (s := Z.to_nat pageSize).
  assert (0 < s) as Ps by (unfold s; lia).
  assert (pageSize = Z.of_nat s) as Es by (unfold s; lia).
  assert (0 <= t)%Z as T0 by nia.
  assert (pagesOf rows pageSize
          = map (fun j => firstn s (skipn (j * s) rows)) (seq 0 (Z.to_nat t))) as Pages.
  { unfold pagesOf. fold t. rewrite <- seq_shift, map_map.
    apply map_ext. intros j. now apply page_chunk. }
  rewrite Pages. split; [| split; [| split]].
  - apply chunks_concat. nia.
  - apply Forall_map, Forall_forall. intros j I. apply in_seq in I.
    rewrite length_firstn, length_skipn.
    assert (j * s < List.length rows) by nia. lia.
  - intros page Beyond.
    replace page with (Z.of_nat (S (Z.to_nat (page - 1)))) by lia.
    rewrite page_chunk by exact P. fold s.
    rewrite skipn_all2; [apply firstn_nil | nia].
  - intros page [L U]. unfold previousPage, nextPage.
    destruct (Z.eqb_spec page 1); destruct (Z.leb_spec t page); lia.
Qed.

End Pages.
End ResourceTableFacts.

(* ------------------------------------------------------------------ *)
(** ** The field analysis of the generic dashboard *)
(* ------------------------------------------------------------------ *)

Module FieldAnalysisFacts.
Import Js JsFacts FieldAnalysis Shapes.

Lemma Set_add_length set x : List.length (Set_add set x) <= S (List.length set).
Proof.
  unfold Set_add. destruct (existsb _ _); [lia |].
  rewrite length_app. simpl. lia.
Qed.

Lemma Map_set_keys_any {V : Type} (m : list (string * V)) k v :
  map fst (Map_set String.eqb m k v)
  = if existsb (fun k' => String.eqb k' k) (map fst m) then map fst m
    else (map fst m ++ [k])%list.
Proof.
  induction m as [| [k' n] r IH]; simpl; [reflexivity |].
  destruct (String.eqb k' k); simpl; [reflexivity |].
  rewrite IH. now destruct (existsb _ _).
Qed.

Lemma Map_set_values {V : Type} (P : V -> Prop) (m : list (string * V)) k v :
  P v -> Forall P (map snd m) -> Forall P (map snd (Map_set String.eqb m k v)).
Proof.
  intros Pv. induction m as [| [k' n] r IH]; simpl; intros F.
  - repeat constructor. exact Pv.
  - inversion F; subst. destruct (String.eqb k' k); simpl; constructor; auto.
Qed.

Lemma Map_get_value {V : Type} (P : V -> Prop) (m : list (string * V)) k v :
  Forall P (map snd m) -> Map_get String.eqb m k = Some v -> P v.
Proof.
  induction m as [| [k' n] r IH]; simpl; [discriminate |].
  intros F G. inversion F; subst.
  destruct (String.eqb k' k); [now inversion G; subst | now apply IH].
Qed.

Lemma Map_set_keyed {V : Type} (m : list (string * V)) k v :
  k <> "resourceType" -> keyed m -> keyed (Map_set String.eqb m k v).
Proof.
  intros NK [N F]. unfold keyed. rewrite Map_set_keys_any.
  destruct (existsb _ _) eqn:E; [split; assumption |].
  split.
  - apply NoDup_app; repeat split; auto.
    + repeat constructor. intros [].
    + intros x I [<- | []].
      assert (existsb (fun k' => String.eqb k' k) (map fst m) = true) as T
        by (apply existsb_exists; exists k; split; [exact I | apply String.eqb_refl]).
      congruence.
  - apply Forall_app. split; [exact F | repeat constructor; exact NK].
Qed.

Section Fields.
Context `{H : Host}.

Lemma sampled_within stats strVal :
  within stats ->
  within {| present := S (present stats);
            values := Set_add (values stats) strVal;
            samples :=
              if (List.length (samples stats) <? 3)%nat &&
                 negb (existsb (String.eqb strVal) (samples stats))
              then List.app (samples stats)
                     [if (50 <? String.length strVal)%nat
                      then substring strVal 0 50 ++ "..."
                      else strVal]
              else samples stats |}.
Proof.
  intros (L & F & V). unfold within. cbn [present values samples].
  pose proof (Set_add_length (values stats) strVal) as SL.
  destruct ((List.length (samples stats) <? 3)%nat &&
            negb (existsb (String.eqb strVal) (samples stats))) eqn:C;
    [| repeat split; try assumption; lia].
  apply andb_prop in C. destruct C as [C _]. apply Nat.ltb_lt in C.
  repeat split; [rewrite length_app; simpl; lia | | lia].
  apply Forall_app. split; [exact F |]. constructor; [| constructor].
  destruct (Nat.ltb_spec 50 (String.length strVal)) as [Lt | Ge]; [| lia].
  rewrite DiagnosticsFacts.append_length. unfold substring.
  pose proof (DiagnosticsFacts.substring_length 0 (50 - 0) strVal). simpl in *. lia.
Qed.

Lemma counted_within stats x :
  within stats ->
  within {| present := S (present stats);
            values := Set_add (values stats) x;
            samples := samples stats |}.
Proof.
  intros (L & F & V). unfold within. cbn [present values samples].
  pose proof (Set_add_length (values stats) x). repeat split; try assumption; lia.
Qed.

Lemma observe_within stats value : within stats -> within (observe stats value).
Proof.
  intros W. destruct value as [| b | x | s | elems | props]; cbn [observe].
  - exact W.
  - now apply sampled_within.
  - now apply sampled_within.
  - now apply sampled_within.
  - now apply counted_within.
  - now apply counted_within.
Qed.

Lemma visit_invariant fieldMap entry :
  keyed fieldMap /\ Forall within (map snd fieldMap) ->
  keyed (visit fieldMap entry) /\ Forall within (map snd (visit fieldMap entry)).
Proof.
  intros [K W]. destruct entry as [key value]. unfold visit.
  destruct (key =? "resourceType") eqn:E; [split; assumption |].
  apply String.eqb_neq in E.
  set (fieldMap' := match Map_get String.eqb fieldMap key with
                    | Some _ => fieldMap
                    | None => Map_set String.eqb fieldMap key
                                {| present := 0; values := []; samples := [] |}
                    end).
  assert (keyed fieldMap' /\ Forall within (map snd fieldMap')) as [K' W'].
  { unfold fieldMap'. destruct (Map_get String.eqb fieldMap key); [split; assumption |].
    split; [now apply Map_set_keyed |].
    apply Map_set_values; [| exact W].
    unfold within. cbn. repeat split; auto. }
  destruct (Map_get String.eqb fieldMap' key) as [stats |] eqn:G; [| split; assumption].
  split; [now apply Map_set_keyed |].
  apply Map_set_values; [| exact W'].
  apply observe_within. eapply (Map_get_value within); eauto.
Qed.

Lemma fold_visit_invariant entries : forall fieldMap,
  keyed fieldMap /\ Forall within (map snd fieldMap) ->
  keyed (fold_left visit entries fieldMap) /\
  Forall within (map snd (fold_left visit entries fieldMap)).
Proof.
  induction entries as [| e es IH]; intros fieldMap Inv; cbn [fold_left];
    [exact Inv | apply IH, visit_invariant, Inv].
Qed.

Lemma scan_invariant sample : forall fieldMap,
  keyed fieldMap /\ Forall within (map snd fieldMap) ->
  match scan fieldMap sample with
  | Some final => keyed final /\ Forall within (map snd final)
  | None => In JNull sample
  end.
Proof.
  induction sample as [| resource rest IH]; intros fieldMap Inv; cbn [scan].
  - exact Inv.
  - destruct (Object_entries resource) as [entries |] eqn:E.
    + specialize (IH _ (fold_visit_invariant entries fieldMap Inv)).
      destruct (scan (fold_left visit entries fieldMap) rest);
        [exact IH | now right].
    + left. destruct resource; try discriminate. reflexivity.
Qed.

(** X23.  The field analysis looks at the first 1000 resources.  Of each
    field it keeps at most three sample values, none longer than 53
    characters, and counts no more different values than values present;
    no two fields have the same path and none is [resourceType]; the
    fields come in descending order of the number of resources that have
    them.  It fails only when one of those resources is [null]. *)
Theorem analyzeFields_bounded resources :
  match analyzeFields resources with
  | Some fields =>
      Forall bounded fields /\
      NoDup (map path fields) /\
      StronglySorted (fun a b => presentCount b <= presentCount a) fields
  | None => In JNull (firstn 1000 resources)
  end.
Proof.
  unfold analyzeFields, slice0.
  pose proof (scan_invariant (firstn 1000 resources) []) as Inv.
  destruct (scan [] (firstn 1000 resources)) as [final |];
    [| apply Inv; split; [split; constructor | constructor]].
  destruct Inv as [[N F] W]; [split; [split; constructor | constructor] |].
  set (listed := map _ final).
  set (cmp := fun a b : FieldStats =>
                inject_Z (Z.of_nat (presentCount b) - Z.of_nat (presentCount a))).
  pose proof (Array_sort_perm cmp listed) as P.
  assert (map path listed = map fst final) as Paths.
  { unfold listed. rewrite map_map. apply map_ext. now intros [k v]. }
  split; [| split].
  - eapply Permutation_Forall; [exact P |].
    unfold listed. apply Forall_map, Forall_forall. intros [k stats] I.
    unfold bounded. cbn [sampleValues uniqueValues presentCount path].
    rewrite Forall_forall in W, F.
    destruct (W stats) as (L & S53 & V);
      [change stats with (snd (k, stats)); now apply in_map |].
    repeat split; try assumption.
    apply F. change k with (fst (k, stats)). now apply in_map.
  - eapply Permutation_NoDup; [apply Permutation_map, P |]. now rewrite Paths.
  - eapply TallyFacts.sorted_weaken; [| apply (Array_sort_sorted cmp)].
    + intros a b B. unfold Order.before, cmp in B.
      apply StatsFacts.Qle_bool_Zsub in B. lia.
    + split.
      * intros x y Nb. unfold Order.before, cmp in *.
        apply StatsFacts.Qle_bool_Zsub.
        apply not_true_iff_false in Nb. rewrite StatsFacts.Qle_bool_Zsub in Nb. lia.
      * intros x y z. unfold Order.before, cmp.
        rewrite !StatsFacts.Qle_bool_Zsub. lia.
Qed.

End Fields.
End FieldAnalysisFacts.

(* ------------------------------------------------------------------ *)
(** ** The validation of the input against the parser *)
(* ------------------------------------------------------------------ *)

Module NdjsonInputFacts.
Import Js NdjsonParser NdjsonProbe NdjsonInput Lines Inspection.

Section Input.
Context `{H : Host}.

Lemma nonblank_count lines :
  List.length (filter (fun l => negb (trim l =? "")) lines)
  + List.length (filter isBlank lines)
  = List.length lines.
Proof.
  induction lines as [| raw rest IH]; simpl; [reflexivity |].
  unfold isBlank at 1. destruct (trim raw =? ""); simpl; lia.
Qed.

Lemma blank_lines lines :
  forallb allWhite lines = true -> filter (fun l => negb (trim l =? "")) lines = [].
Proof.
  induction lines as [| raw rest IH]; simpl; [reflexivity |].
  intros B. apply andb_prop in B. destruct B as [B R].
  rewrite NdjsonProbeFacts.trim_empty, B. simpl. now apply IH.
Qed.

(** X24.  As the user types, the number of lines shown is the number of
    lines the parser will count as valid or invalid; and when the input is
    held valid, the type shown is the type the parser will detect (the
    type of the first record it keeps), or the type shown before when the
    parser keeps no record.  Otherwise no type is shown. *)
Theorem handleChange_agrees value st w :
  match fst (parseNdjson value w) with
  | Some r =>
      lineCount (handleChange value st) = validLines r + invalidLines r /\
      previewType (handleChange value st)
      = match validationStatus (handleChange value st) with
        | valid => match resources r with
                   | [] => previewType st
                   | _ :: _ => Some (resourceType r)
                   end
        | _ => None
        end
  | None => throwsTypeError value
  end.
Proof.
  destruct (fst (parseNdjson value w)) as [r |] eqn:R;
    [| now apply (NdjsonParserFacts.parseNdjson_returns value w)].
  pose proof R as R0. rewrite NdjsonParserFacts.parseNdjson_fst in R.
  pose proof (NdjsonParserFacts.finish_result (split LF value)
    (perf_clock w (S (perf_reads w)) - perf_clock w (perf_reads w))%Q) as F.
  cbv zeta in F. rewrite R in F. destruct F as (Rs & Rt & _ & V & I & _).
  pose proof (NdjsonParserFacts.loop_line_count (split LF value) init 0) as C.
  rewrite <- V, <- I in C. cbn [init l_validLines l_invalidLines plus] in C.
  pose proof (nonblank_count (split LF value)) as NB.
  unfold handleChange. rewrite NdjsonProbeFacts.trim_empty.
  destruct (allWhite value) eqn:W.
  - cbn [lineCount previewType validationStatus]. split; [| reflexivity].
    rewrite <- NdjsonProbeFacts.split_allWhite in W.
    rewrite (blank_lines _ W) in NB. simpl in NB. lia.
  - destruct (ToBoolean (looksLikeNdjson value));
      cbn [lineCount previewType validationStatus]; (split; [lia |]);
      [| reflexivity].
    unfold getPreview. cbn [pv_resources].
    rewrite NdjsonProbeFacts.previewLoop_prefix by (simpl; lia).
    cbn [app]. rewrite Rs, Rt. unfold firstKind.
    now destruct (parsedRecords (split LF value)).
Qed.

End Input.
End NdjsonInputFacts.

(* ------------------------------------------------------------------ *)
(** ** More properties on worked inputs *)
(* ------------------------------------------------------------------ *)

Module WorkedMore.
Import Js Fhir NdjsonParser NdjsonProbe Lines Census ReferenceHost Examples.

(** A preview of five of the mixed input holds its two records. *)
Lemma getPreview_complete_witness :
  hasMore (getPreview mixed 5%Q) = false /\
  match fst (parseNdjson mixed w0) with
  | Some r => pv_resources (getPreview mixed 5%Q) = resources r
  | None => throwsTypeError mixed
  end.
Proof.
  assert (hasMore (getPreview mixed 5%Q) = false) as M by (vm_compute; reflexivity).
  split; [exact M |].
  exact (NdjsonProbeFacts.getPreview_complete (H := host) mixed 5%Q w0 M).
Defined.

(** A line that is not JSON after a Patient line does not change the
    verdict of the quick check. *)
Lemma looksLikeNdjson_first_line_witness :
  (trim patient_p1 =? "") = false /\
  looksLikeNdjson (patient_p1 ++ String LF "not json") = looksLikeNdjson patient_p1.
Proof.
  assert ((trim patient_p1 =? "") = false) as B by (vm_compute; reflexivity).
  split; [exact B |].
  exact (NdjsonProbeFacts.looksLikeNdjson_first_line (H := host)
           patient_p1 "not json" B).
Defined.

(** The quick check passes on the two patients, and the parser detects
    the type of the first. *)
Lemma looksLikeNdjson_passes_witness :
  ToBoolean (looksLikeNdjson twoPatients) = true /\
  exists raw r,
    find (fun l => negb (isBlank l)) (split LF twoPatients) = Some raw /\
    fst (parseNdjson twoPatients w0) = Some r /\
    resourceType r = JStr "Patient".
Proof.
  assert (ToBoolean (looksLikeNdjson twoPatients) = true) as T
    by (vm_compute; reflexivity).
  split; [exact T |].
  destruct (NdjsonProbeFacts.looksLikeNdjson_passes (H := host) twoPatients w0 T)
    as (raw & v & s & F & _ & P & G & Rest).
  assert (s = "Patient") as ->.
  { vm_compute in F. inversion F; subst raw. vm_compute in P. inversion P; subst v.
    vm_compute in G. now inversion G. }
  cbn in Rest. destruct Rest as (r & R & _ & K & _).
  exists raw, r. repeat split; assumption.
Defined.

(** A patient who died in 1950 is analysed alike on any day. *)
Lemma analyzePatients_without_clock_witness :
  forallb (fun p => negb (agedToday p)) [aged150] = true /\
  snd (PatientAnalytics.analyzePatients [aged150] eve) = eve /\
  fst (PatientAnalytics.analyzePatients [aged150] eve)
  = fst (PatientAnalytics.analyzePatients [aged150] birthday).
Proof.
  assert (forallb (fun p => negb (agedToday p)) [aged150] = true) as F
    by (vm_compute; reflexivity).
  split; [exact F |].
  exact (PatientCensusFacts.analyzePatients_without_clock (H := host)
           [aged150] eve birthday F).
Defined.

(** A Patient line and an Encounter line, parsed apart and joined. *)
Lemma parseNdjson_joined_witness :
  exists ra rb r,
    fst (parseNdjson patient_p1 w0) = Some ra /\
    fst (parseNdjson encounter_e1 w0) = Some rb /\
    fst (parseNdjson (patient_p1 ++ String LF encounter_e1) w0) = Some r /\
    resources r = (resources ra ++ resources rb)%list /\
    validLines r = validLines ra + validLines rb.
Proof.
  destruct (fst (parseNdjson patient_p1 w0)) as [ra |] eqn:Ra;
    [| vm_compute in Ra; discriminate].
  destruct (fst (parseNdjson encounter_e1 w0)) as [rb |] eqn:Rb;
    [| vm_compute in Rb; discriminate].
  destruct (ShapeFacts.parseNdjson_joined (H := host)
              patient_p1 encounter_e1 w0 w0 w0 ra rb Ra Rb)
    as (r & R & Rs & _ & V & _).
  exists ra, rb, r. repeat split; assumption.
Defined.

(** Three rows on pages of ten: one page, with the three rows. *)
Lemma pages_partition_witness :
  In 10%Z ResourceTable.PAGE_SIZES /\
  concat (Shapes.pagesOf [1; 2; 3] 10%Z) = [1; 2; 3].
Proof.
  assert (In 10%Z ResourceTable.PAGE_SIZES) as Size by (left; reflexivity).
  split; [exact Size |].
  exact (proj1 (ResourceTableFacts.pages_partition [1; 2; 3] 10%Z Size)).
Defined.

End WorkedMore.
